(** * Almoxarifado: stock movements over a relational store

    Shallow embedding of [almoxarifado/models.py] and of the views that
    write to the store ([views/movimentacao_views.py],
    [views/funcionarios_views.py], [views/instituicao_views.py],
    [views/produtos_views.py], [views/dashboard_views.py]), and of the
    forms of the admin site that [admin.py] registers for the movement
    table.

    Conventions of the embedding.
    - A Python [int] is a [Z]; a [str] is a [string].
    - A table is a finite map from primary keys to rows.  A model instance
      carries its primary key as an [option]: [None] until the first
      [save()].
    - [save()] is the framework's: an instance without primary key is
      inserted under a new key, an instance with one overwrites (or
      creates) the row of that key.  [auto_now_add] columns are filled on
      insertion, [auto_now] columns on every save, on the instance
      first and then in the row.
    - The database is the framework's default, SQLite.  An integer that
      does not fit in 64 bits is refused before the statement runs
      ([OverflowError]); a [PositiveIntegerField] column carries the
      check [>= 0], and a row that violates it is refused
      ([IntegrityError]); a primary key is an [AUTOINCREMENT] column,
      which never gives a key again, also after the row that had it is
      deleted.  Uniqueness, [NOT NULL] and foreign-key constraints, and
      the number of digits of the decimal price, are outside the model;
      keys are taken to fit in 64 bits.
    - A connection keeps the working state, the list of the states it has
      committed so far (oldest first) and whether a transaction is open.
      Outside a transaction each write is committed on its own
      (autocommit); inside [transaction.atomic] the writes are committed
      together when the block ends, or dropped when it raises.
    - A raised exception is an explicit outcome next to the final value of
      [self] and of the connection. *)

From Stdlib Require Import ZArith Lia Ascii String.
From stdpp Require Import gmap strings list fin_maps pretty sorting.

Local Open Scope Z_scope.

(** ** Exceptions and outcomes *)

(** The text of an exception: a literal, or the framework's message for
    a key that is not a number,
    ["Field '%s' expected a number but got %r." % (campo, valor)], kept
    as its two arguments. *)
Inductive mensagem : Type :=
| Texto (texto : string)
| CampoEsperavaNumero (campo valor : string).

(** [IntegrityError] is the failed check of a column, which it names;
    [OverflowError] is the integer that does not fit in 64 bits. *)
Inductive excecao : Type :=
| ValueError (m : mensagem)
| DoesNotExist (modelo : string)
| Http404
| IntegrityError (coluna : string)
| OverflowError.


Inductive desfecho : Type :=
| Concluido
| Levantou (e : excecao).

Global Instance mensagem_eq_dec : EqDecision mensagem.
Proof. solve_decision. Defined.

Global Instance excecao_eq_dec : EqDecision excecao.
Proof. solve_decision. Defined.

Global Instance desfecho_eq_dec : EqDecision desfecho.
Proof. solve_decision. Defined.

(** ** Rows of the tables *)

Module Instituicao.
(** [class Instituicao]; the address columns play no role below and are
    left out. *)
Record t : Type := Build {
  pk : option positive;
  nome : string;
  cnpj : string;
  ativo : bool;
  data_criacao : option Z
}.

Definition com_pk (k : positive) (i : t) : t :=
  Build (Some k) (nome i) (cnpj i) (ativo i) (data_criacao i).

Definition com_data_criacao (d : Z) (i : t) : t :=
  Build (pk i) (nome i) (cnpj i) (ativo i) (Some d).
End Instituicao.

Module Funcionario.
(** [class Funcionario]; [instituicao] is the foreign key
    ([on_delete=CASCADE]); the date of birth plays no role below and is
    left out. *)
Record t : Type := Build {
  pk : option positive;
  nome : string;
  email : string;
  telefone : string;
  instituicao : positive;
  ativo : bool;
  data_criacao : option Z
}.

Definition com_pk (k : positive) (f : t) : t :=
  Build (Some k) (nome f) (email f) (telefone f) (instituicao f) (ativo f)
        (data_criacao f).

Definition com_data_criacao (d : Z) (f : t) : t :=
  Build (pk f) (nome f) (email f) (telefone f) (instituicao f) (ativo f)
        (Some d).
End Funcionario.

Module Produto.
(** [class Produto].  [preco_unitario] is a decimal with two places and
    is kept as a number of hundredths. *)
Record t : Type := Build {
  pk : option positive;
  codigo : string;
  nome : string;
  descricao : string;
  categoria : option positive;
  instituicao : positive;
  quantidade_minima : Z;
  quantidade_atual : Z;
  preco_unitario : Z;
  ativo : bool;
  data_criacao : option Z;
  data_atualizacao : option Z
}.

Definition com_quantidade_atual (q : Z) (p : t) : t :=
  Build (pk p) (codigo p) (nome p) (descricao p) (categoria p)
        (instituicao p) (quantidade_minima p) q (preco_unitario p)
        (ativo p) (data_criacao p) (data_atualizacao p).

Definition com_pk (k : positive) (p : t) : t :=
  Build (Some k) (codigo p) (nome p) (descricao p) (categoria p)
        (instituicao p) (quantidade_minima p) (quantidade_atual p)
        (preco_unitario p) (ativo p) (data_criacao p) (data_atualizacao p).

Definition com_data_criacao (d : Z) (p : t) : t :=
  Build (pk p) (codigo p) (nome p) (descricao p) (categoria p)
        (instituicao p) (quantidade_minima p) (quantidade_atual p)
        (preco_unitario p) (ativo p) (Some d) (data_atualizacao p).

Definition com_data_atualizacao (d : Z) (p : t) : t :=
  Build (pk p) (codigo p) (nome p) (descricao p) (categoria p)
        (instituicao p) (quantidade_minima p) (quantidade_atual p)
        (preco_unitario p) (ativo p) (data_criacao p) (Some d).

Definition com_ativo (b : bool) (p : t) : t :=
  Build (pk p) (codigo p) (nome p) (descricao p) (categoria p)
        (instituicao p) (quantidade_minima p) (quantidade_atual p)
        (preco_unitario p) b (data_criacao p) (data_atualizacao p).

(** [def esta_com_estoque_baixo(self)] *)
Definition esta_com_estoque_baixo (self : t) : bool :=
  quantidade_atual self <=? quantidade_minima self.
End Produto.

Module Linha.
(** A row of the movement table: the columns of [class Movimentacao],
    with the two foreign keys as keys. *)
Record t : Type := Build {
  produto_id : positive;
  tipo : string;
  quantidade : Z;
  motivo : string;
  funcionario_id : option positive;
  data_movimentacao : option Z;
  observacoes : string
}.

Definition com_funcionario_id (f : option positive) (l : t) : t :=
  Build (produto_id l) (tipo l) (quantidade l) (motivo l) f
        (data_movimentacao l) (observacoes l).
End Linha.

Global Instance Linha_eq_dec : EqDecision Linha.t.
Proof. solve_decision. Defined.

Global Instance Produto_eq_dec : EqDecision Produto.t.
Proof. solve_decision. Defined.

(** ** The store and the connection *)

(** The largest key each [AUTOINCREMENT] column has held so far (0 when
    it has held none): the database keeps it next to the tables. *)
Record Sequencias : Type := BuildSequencias {
  seq_instituicoes : N;
  seq_funcionarios : N;
  seq_produtos : N;
  seq_movimentacoes : N
}.

Record DB : Type := BuildDB {
  instituicoes : gmap positive Instituicao.t;
  funcionarios : gmap positive Funcionario.t;
  produtos : gmap positive Produto.t;
  movimentacoes : gmap positive Linha.t;
  sequencias : Sequencias
}.

(** The tables with one of them replaced: an [UPDATE] or a [DELETE]. *)
Definition com_instituicoes (ins : gmap positive Instituicao.t) (db : DB) : DB :=
  BuildDB ins (funcionarios db) (produtos db) (movimentacoes db) (sequencias db).

Definition com_funcionarios (fs : gmap positive Funcionario.t) (db : DB) : DB :=
  BuildDB (instituicoes db) fs (produtos db) (movimentacoes db) (sequencias db).

Definition com_produtos (ps : gmap positive Produto.t) (db : DB) : DB :=
  BuildDB (instituicoes db) (funcionarios db) ps (movimentacoes db) (sequencias db).

Definition com_movimentacoes (ms : gmap positive Linha.t) (db : DB) : DB :=
  BuildDB (instituicoes db) (funcionarios db) (produtos db) ms (sequencias db).

(** An [INSERT] under the key [k]: the row is added and the column
    remembers the key when it is the largest so far. *)
Definition inserir_instituicao (k : positive) (i : Instituicao.t) (db : DB) : DB :=
  let s := sequencias db in
  BuildDB (<[k := i]> (instituicoes db)) (funcionarios db) (produtos db)
          (movimentacoes db)
          (BuildSequencias (N.max (seq_instituicoes s) (Npos k))
                           (seq_funcionarios s) (seq_produtos s)
                           (seq_movimentacoes s)).

Definition inserir_funcionario (k : positive) (f : Funcionario.t) (db : DB) : DB :=
  let s := sequencias db in
  BuildDB (instituicoes db) (<[k := f]> (funcionarios db)) (produtos db)
          (movimentacoes db)
          (BuildSequencias (seq_instituicoes s)
                           (N.max (seq_funcionarios s) (Npos k))
                           (seq_produtos s) (seq_movimentacoes s)).

Definition inserir_produto (k : positive) (p : Produto.t) (db : DB) : DB :=
  let s := sequencias db in
  BuildDB (instituicoes db) (funcionarios db) (<[k := p]> (produtos db))
          (movimentacoes db)
          (BuildSequencias (seq_instituicoes s) (seq_funcionarios s)
                           (N.max (seq_produtos s) (Npos k))
                           (seq_movimentacoes s)).

Definition inserir_movimentacao (k : positive) (l : Linha.t) (db : DB) : DB :=
  let s := sequencias db in
  BuildDB (instituicoes db) (funcionarios db) (produtos db)
          (<[k := l]> (movimentacoes db))
          (BuildSequencias (seq_instituicoes s) (seq_funcionarios s)
                           (seq_produtos s)
                           (N.max (seq_movimentacoes s) (Npos k))).

Record Conexao : Type := BuildConexao {
  atual : DB;
  confirmados : list DB;
  em_transacao : bool;
  relogio : Z
}.

(** A write: the working state changes, and in autocommit mode the new
    state is committed at once. *)
Definition gravar (db' : DB) (c : Conexao) : Conexao :=
  BuildConexao db'
    (if em_transacao c then confirmados c else confirmados c ++ [db'])
    (em_transacao c) (relogio c).

Definition abrir (c : Conexao) : Conexao :=
  BuildConexao (atual c) (confirmados c) true (relogio c).

Definition confirmar (c : Conexao) : Conexao :=
  BuildConexao (atual c) (confirmados c ++ [atual c]) false (relogio c).

(** [with transaction.atomic(): corpo].  The outermost block commits when
    the body returns; a block that raises restores the state of the
    connection at its entry and lets the exception through.  The value [x]
    of the Python objects touched by the body is not restored. *)
Definition atomic {X : Type} (corpo : Conexao -> desfecho * X * Conexao)
    (c : Conexao) : desfecho * X * Conexao :=
  match corpo (abrir c) with
  | (Concluido, x, c') =>
      (Concluido, x, if em_transacao c then c' else confirmar c')
  | (Levantou e, x, _) => (Levantou e, x, c)
  end.

(** The largest key of a table, 0 for the empty table. *)
Definition maior_chave {A : Type} (tabela : gmap positive A) : N :=
  map_fold (fun k _ acc => N.max (Npos k) acc) 0%N tabela.

(** The key an [AUTOINCREMENT] column gives to the next inserted row: one
    more than the largest key the column has held, in the table now or
    before. *)
Definition novo_id {A : Type} (seq : N) (tabela : gmap positive A) : positive :=
  N.succ_pos (N.max seq (maior_chave tabela)).

(** ** What the database refuses *)

Definition MAX_INTEIRO : Z := 2 ^ 63 - 1.
Definition MIN_INTEIRO : Z := - 2 ^ 63.

(** An integer the database can take as a parameter of a statement. *)
Definition cabe (z : Z) : bool := (MIN_INTEIRO <=? z) && (z <=? MAX_INTEIRO).

(** The check of the first [PositiveIntegerField] column, in the order of
    the columns, whose value is negative. *)
Fixpoint check_positivos (colunas : list (string * Z)) : option excecao :=
  match colunas with
  | [] => None
  | (nome, v) :: resto =>
      if v <? 0 then Some (IntegrityError nome) else check_positivos resto
  end.

(** The two ways the database refuses a statement. *)
Definition erro_do_banco (e : excecao) : Prop :=
  e = OverflowError \/ exists coluna, e = IntegrityError coluna.

(** A value a [PositiveIntegerField] column stores. *)
Definition armazenavel (z : Z) : Prop := 0 <= z <= MAX_INTEIRO.

(** A product whose two [PositiveIntegerField] columns hold values the
    database stores, as every stored product does. *)
Definition Produto_valido (p : Produto.t) : Prop :=
  armazenavel (Produto.quantidade_minima p)
  /\ armazenavel (Produto.quantidade_atual p).

(** ** [Produto.save()] and the movement model *)

(** The two [PositiveIntegerField] columns of [Produto], in the order
    of the class. *)
Definition Produto_positivos (p : Produto.t) : list (string * Z) :=
  [("quantidade_minima", Produto.quantidade_minima p);
   ("quantidade_atual", Produto.quantidade_atual p)].

(** [save()] of a [Produto]: [data_atualizacao] has [auto_now=True],
    [data_criacao] has [auto_now_add=True].  An instance with a key is
    written with an [UPDATE], and with an [INSERT] when no row has that
    key; an instance without key is inserted.  The instance is returned
    with the values the save gave it, which it keeps when the database
    refuses the statement. *)
Definition Produto_save (self : Produto.t) (c : Conexao)
    : desfecho * Produto.t * Conexao :=
  let db := atual c in
  let agora := relogio c in
  let cabem :=
    cabe (Produto.quantidade_minima self) && cabe (Produto.quantidade_atual self) in
  let atualizado := Produto.com_data_atualizacao agora self in
  let inserido :=
    Produto.com_data_atualizacao agora (Produto.com_data_criacao agora self) in
  match Produto.pk self with
  | Some k =>
      if negb cabem then (Levantou OverflowError, atualizado, c)
      else
        match produtos db !! k with
        | Some _ =>
            match check_positivos (Produto_positivos self) with
            | Some e => (Levantou e, atualizado, c)
            | None =>
                (Concluido, atualizado,
                 gravar (com_produtos (<[k := atualizado]> (produtos db)) db) c)
            end
        | None =>
            match check_positivos (Produto_positivos self) with
            | Some e => (Levantou e, inserido, c)
            | None => (Concluido, inserido, gravar (inserir_produto k inserido db) c)
            end
        end
  | None =>
      if negb cabem then (Levantou OverflowError, inserido, c)
      else
        match check_positivos (Produto_positivos self) with
        | Some e => (Levantou e, inserido, c)
        | None =>
            let k := novo_id (seq_produtos (sequencias db)) (produtos db) in
            let p := Produto.com_pk k inserido in
            (Concluido, p, gravar (inserir_produto k p db) c)
        end
  end.

(** [save()] of an [Instituicao] and of a [Funcionario]: [data_criacao]
    has [auto_now_add=True]; neither has an integer column besides the
    keys. *)
Definition Instituicao_save (self : Instituicao.t) (c : Conexao)
    : Instituicao.t * Conexao :=
  let db := atual c in
  match Instituicao.pk self with
  | Some k =>
      match instituicoes db !! k with
      | Some _ =>
          (self, gravar (com_instituicoes (<[k := self]> (instituicoes db)) db) c)
      | None =>
          let i := Instituicao.com_data_criacao (relogio c) self in
          (i, gravar (inserir_instituicao k i db) c)
      end
  | None =>
      let k := novo_id (seq_instituicoes (sequencias db)) (instituicoes db) in
      let i := Instituicao.com_pk k (Instituicao.com_data_criacao (relogio c) self) in
      (i, gravar (inserir_instituicao k i db) c)
  end.

Definition Funcionario_save (self : Funcionario.t) (c : Conexao)
    : Funcionario.t * Conexao :=
  let db := atual c in
  match Funcionario.pk self with
  | Some k =>
      match funcionarios db !! k with
      | Some _ =>
          (self, gravar (com_funcionarios (<[k := self]> (funcionarios db)) db) c)
      | None =>
          let f := Funcionario.com_data_criacao (relogio c) self in
          (f, gravar (inserir_funcionario k f db) c)
      end
  | None =>
      let k := novo_id (seq_funcionarios (sequencias db)) (funcionarios db) in
      let f := Funcionario.com_pk k (Funcionario.com_data_criacao (relogio c) self) in
      (f, gravar (inserir_funcionario k f db) c)
  end.

Module Movimentacao.
(** An instance of [class Movimentacao]: [produto] is the related
    [Produto] object the instance holds, [funcionario] the key of the
    related employee, if any. *)
Record t : Type := Build {
  pk : option positive;
  produto : Produto.t;
  tipo : string;
  quantidade : Z;
  motivo : string;
  funcionario : option positive;
  data_movimentacao : option Z;
  observacoes : string
}.

Definition TIPO_CHOICES : list (string * string) :=
  [("entrada", "Entrada"); ("saida", "Saída"); ("ajuste", "Ajuste")].

Definition com_produto (p : Produto.t) (m : t) : t :=
  Build (pk m) p (tipo m) (quantidade m) (motivo m) (funcionario m)
        (data_movimentacao m) (observacoes m).

Definition com_pk (k : positive) (m : t) : t :=
  Build (Some k) (produto m) (tipo m) (quantidade m) (motivo m)
        (funcionario m) (data_movimentacao m) (observacoes m).

Definition com_data_movimentacao (d : Z) (m : t) : t :=
  Build (pk m) (produto m) (tipo m) (quantidade m) (motivo m)
        (funcionario m) (Some d) (observacoes m).

(** The row an instance is stored as, once its product has key [pid]. *)
Definition linha (pid : positive) (m : t) : Linha.t :=
  Linha.Build pid (tipo m) (quantidade m) (motivo m) (funcionario m)
              (data_movimentacao m) (observacoes m).

Definition msg_produto_nao_salvo : string :=
  "save() prohibited to prevent data loss due to unsaved related object 'produto'.".

(** [save()] of a [Movimentacao]: [data_movimentacao] has
    [auto_now_add=True], so it is set when the row is inserted and
    written as the instance has it when an existing row is overwritten.
    The framework refuses to save an instance whose related product has
    no key yet; the database refuses a [quantidade] that does not fit or
    is negative. *)
Definition save (self : t) (c : Conexao) : desfecho * t * Conexao :=
  let db := atual c in
  let agora := relogio c in
  let inserido := com_data_movimentacao agora self in
  let check := check_positivos [("quantidade", quantidade self)] in
  match Produto.pk (produto self) with
  | None => (Levantou (ValueError (Texto msg_produto_nao_salvo)), self, c)
  | Some pid =>
      match pk self with
      | Some k =>
          if negb (cabe (quantidade self)) then (Levantou OverflowError, self, c)
          else
            match movimentacoes db !! k with
            | Some _ =>
                match check with
                | Some e => (Levantou e, self, c)
                | None =>
                    (Concluido, self,
                     gravar (com_movimentacoes
                               (<[k := linha pid self]> (movimentacoes db)) db) c)
                end
            | None =>
                match check with
                | Some e => (Levantou e, inserido, c)
                | None =>
                    (Concluido, inserido,
                     gravar (inserir_movimentacao k (linha pid inserido) db) c)
                end
            end
      | None =>
          if negb (cabe (quantidade self)) then (Levantou OverflowError, inserido, c)
          else
            match check with
            | Some e => (Levantou e, inserido, c)
            | None =>
                let k := novo_id (seq_movimentacoes (sequencias db))
                                 (movimentacoes db) in
                let m := com_pk k inserido in
                (Concluido, m, gravar (inserir_movimentacao k (linha pid m) db) c)
            end
      end
  end.

Definition msg_insuficiente : string := "Quantidade insuficiente em estoque".

(** The three branches of [salvar_e_atualizar_estoque] on the in-memory
    product: the new value of [self.produto], or the raised exception. *)
Definition atualizar_produto (self : t) : excecao + Produto.t :=
  let p := produto self in
  if String.eqb (tipo self) "entrada" then
    inr (Produto.com_quantidade_atual
           (Produto.quantidade_atual p + quantidade self) p)
  else if String.eqb (tipo self) "saida" then
    if Produto.quantidade_atual p >=? quantidade self then
      inr (Produto.com_quantidade_atual
             (Produto.quantidade_atual p - quantidade self) p)
    else
      inl (ValueError (Texto msg_insuficiente))
  else if String.eqb (tipo self) "ajuste" then
    inr (Produto.com_quantidade_atual (quantidade self) p)
  else
    inr p.

(** [def salvar_e_atualizar_estoque(self)]: update [self.produto] by the
    kind of the movement, then [self.produto.save()], then
    [self.save()]. *)
Definition salvar_e_atualizar_estoque (self : t) (c : Conexao)
    : desfecho * t * Conexao :=
  match atualizar_produto self with
  | inl e => (Levantou e, self, c)
  | inr p =>
      match Produto_save p c with
      | (Concluido, p', c1) => save (com_produto p' self) c1
      | (Levantou e, p', c1) => (Levantou e, com_produto p' self, c1)
      end
  end.
End Movimentacao.

(** ** Deletion with its [on_delete] rules *)

(** [Movimentacao.funcionario] has [on_delete=SET_NULL]: the rows of the
    removed employees keep everything but that reference. *)
Definition anular_funcionario (removido : positive -> bool) (l : Linha.t)
    : Linha.t :=
  match Linha.funcionario_id l with
  | Some f => if removido f then Linha.com_funcionario_id None l else l
  | None => l
  end.

(** [funcionario.delete()] *)
Definition Funcionario_delete (k : positive) (c : Conexao) : Conexao :=
  let db := atual c in
  gravar
    (BuildDB (instituicoes db)
             (delete k (funcionarios db))
             (produtos db)
             (anular_funcionario (Pos.eqb k) <$> movimentacoes db)
             (sequencias db))
    c.

Definition funcionario_da_instituicao (db : DB) (i f : positive) : bool :=
  match funcionarios db !! f with
  | Some x => Pos.eqb (Funcionario.instituicao x) i
  | None => false
  end.

Definition produto_da_instituicao (db : DB) (i p : positive) : bool :=
  match produtos db !! p with
  | Some x => Pos.eqb (Produto.instituicao x) i
  | None => false
  end.

(** [instituicao.delete()]: [Funcionario.instituicao] and
    [Produto.instituicao] have [on_delete=CASCADE], and so has
    [Movimentacao.produto]; the movements that stay lose the reference to
    a removed employee. *)
Definition Instituicao_delete (k : positive) (c : Conexao) : Conexao :=
  let db := atual c in
  gravar
    (BuildDB
       (delete k (instituicoes db))
       (filter (fun x => Funcionario.instituicao x.2 ≠ k) (funcionarios db))
       (filter (fun x => Produto.instituicao x.2 ≠ k) (produtos db))
       (anular_funcionario (funcionario_da_instituicao db k) <$>
          filter (fun x => produto_da_instituicao db k (Linha.produto_id x.2) = false)
                 (movimentacoes db))
       (sequencias db))
    c.

(** [produto.delete()]: [Movimentacao.produto] has [on_delete=CASCADE]. *)
Definition Produto_delete (k : positive) (c : Conexao) : Conexao :=
  let db := atual c in
  gravar
    (BuildDB (instituicoes db) (funcionarios db)
             (delete k (produtos db))
             (filter (fun x => Linha.produto_id x.2 ≠ k) (movimentacoes db))
             (sequencias db))
    c.

(** [movimentacao.delete()] *)
Definition Movimentacao_delete (k : positive) (c : Conexao) : Conexao :=
  gravar (com_movimentacoes (delete k (movimentacoes (atual c))) (atual c)) c.

(** ** Views *)

Record Pedido : Type := BuildPedido {
  autenticado : bool;
  method : string;
  POST : gmap string string
}.

Inductive Resposta : Type :=
| Redirect (nome : string)
| Render (template : string) (erros val : gmap string string).

Global Instance Resposta_eq_dec : EqDecision Resposta.
Proof. solve_decision. Defined.

(** What the validation of a movement form leaves in the local variables
    of the view. *)
Record Formulario : Type := BuildFormulario {
  f_produto_id : string;
  f_quantidade : Z;
  f_motivo : string;
  f_observacoes : string;
  f_erros : gmap string string;
  f_val : gmap string string
}.

Module Views.
Section Views.
(** [str.strip] and [int] on a [str] are Python's; the views are
    modelled for any such pair of functions. *)
Variable strip : string -> string.
Variable int : string -> option Z.

Definition POST_get (r : Pedido) (chave padrao : string) : string :=
  default padrao (POST r !! chave).

(** [Produto.objects.get(pk=produto_id)] with the key as submitted. *)
Definition Produto_get (db : DB) (produto_id : string)
    : excecao + Produto.t :=
  match int produto_id with
  | None => inl (ValueError (CampoEsperavaNumero "id" produto_id))
  | Some (Zpos k) =>
      match produtos db !! k with
      | Some p => inr (Produto.com_pk k p)
      | None => inl (DoesNotExist "Produto")
      end
  | Some _ => inl (DoesNotExist "Produto")
  end.

(** Of two rows, the one that comes first in the order of
    [Meta.ordering = ['nome']]; between rows of the same name, the one
    the table holds first, that of the smaller key. *)
Definition menor_nome (a b : positive * Funcionario.t)
    : positive * Funcionario.t :=
  if String.ltb (Funcionario.nome b.2) (Funcionario.nome a.2) then b
  else if String.ltb (Funcionario.nome a.2) (Funcionario.nome b.2) then a
  else if Pos.ltb b.1 a.1 then b else a.

(** [Funcionario.objects.first()]: the first row in that order; its key
    is all the views use. *)
Definition Funcionario_first (db : DB) : option positive :=
  match map_to_list (funcionarios db) with
  | [] => None
  | x :: l => Some (foldl menor_nome x l).1
  end.

(** The reading and validation of the form, the same text in
    [registrar_entrada] and [registrar_saida]. *)
Definition validar (r : Pedido) : Formulario :=
  let produto_id := strip (POST_get r "produto" EmptyString) in
  let quantidade := strip (POST_get r "quantidade" "0") in
  let motivo := strip (POST_get r "motivo" EmptyString) in
  let observacoes := strip (POST_get r "observacoes" EmptyString) in
  let val : gmap string string :=
    <["observacoes" := observacoes]>
      (<["motivo" := motivo]>
         (<["quantidade" := quantidade]>
            (<["produto" := produto_id]> ∅))) in
  let erros1 : gmap string string :=
    if String.eqb produto_id EmptyString then {["produto" := "Produto é obrigatório."]}
    else ∅ in
  let '(q, erros2) :=
    match int quantidade with
    | Some q =>
        (q, if q <=? 0
            then <["quantidade" := "Quantidade deve ser maior que zero."]> erros1
            else erros1)
    | None => (0, <["quantidade" := "Quantidade deve ser um número."]> erros1)
    end in
  let erros3 :=
    if String.eqb motivo EmptyString then <["motivo" := "Motivo é obrigatório."]> erros2
    else erros2 in
  BuildFormulario produto_id q motivo observacoes erros3 val.

Definition nova_movimentacao (produto : Produto.t) (tipo : string)
    (f : Formulario) (funcionario : option positive) : Movimentacao.t :=
  Movimentacao.Build None produto tipo (f_quantidade f) (f_motivo f)
                     funcionario None (f_observacoes f).

(** The part of a movement view up to and including the query of the
    product: either the response is already decided, or the view goes on
    with the validated form and the product it has read. *)
Definition ate_consulta (template : string) (r : Pedido) (c : Conexao)
    : (excecao + Resposta) + (Formulario * Produto.t) :=
  if negb (autenticado r) then inl (inr (Redirect "login_instituicoes"))
  else if String.eqb (method r) "POST" then
    let f := validar r in
    if bool_decide (f_erros f = ∅) then
      match Produto_get (atual c) (f_produto_id f) with
      | inr produto => inr (f, produto)
      | inl (DoesNotExist _) =>
          inl (inr (Render template
                      (<["produto" := "Produto não encontrado."]> (f_erros f))
                      (f_val f)))
      | inl e => inl (inl e)
      end
    else inl (inr (Render template (f_erros f) (f_val f)))
  else inl (inr (Render template ∅ ∅)).

(** The rest of [registrar_entrada], from [funcionario = None] on. *)
Definition entrada_com_produto (f : Formulario) (produto : Produto.t)
    (c : Conexao) : (excecao + Resposta) * Conexao :=
  let funcionario := Funcionario_first (atual c) in
  match atomic (Movimentacao.salvar_e_atualizar_estoque
                  (nova_movimentacao produto "entrada" f funcionario)) c with
  | (Concluido, _, c') => (inr (Redirect "lista_movimentacoes"), c')
  | (Levantou e, _, c') => (inl e, c')
  end.

(** The rest of [registrar_saida], from the comparison of the stock
    with the requested quantity on. *)
Definition saida_com_produto (f : Formulario) (produto : Produto.t)
    (c : Conexao) : (excecao + Resposta) * Conexao :=
  if Produto.quantidade_atual produto <? f_quantidade f then
    (inr (Render "movimentacao/saida.html"
            (<["quantidade" :=
                 "Estoque insuficiente. Disponível: " +:+
                   pretty (Produto.quantidade_atual produto)]> (f_erros f))
            (f_val f)), c)
  else
    let funcionario := Funcionario_first (atual c) in
    match atomic (Movimentacao.salvar_e_atualizar_estoque
                    (nova_movimentacao produto "saida" f funcionario)) c with
    | (Concluido, _, c') => (inr (Redirect "lista_movimentacoes"), c')
    | (Levantou e, _, c') => (inl e, c')
    end.

(** [def registrar_entrada(request)] *)
Definition registrar_entrada (r : Pedido) (c : Conexao)
    : (excecao + Resposta) * Conexao :=
  match ate_consulta "movimentacao/entrada.html" r c with
  | inl resposta => (resposta, c)
  | inr (f, produto) => entrada_com_produto f produto c
  end.

(** [def registrar_saida(request)] *)
Definition registrar_saida (r : Pedido) (c : Conexao)
    : (excecao + Resposta) * Conexao :=
  match ate_consulta "movimentacao/saida.html" r c with
  | inl resposta => (resposta, c)
  | inr (f, produto) => saida_com_produto f produto c
  end.

(** [def excluir_funcionarios(request, pk)] *)
Definition excluir_funcionarios (r : Pedido) (pk : Z) (c : Conexao)
    : (excecao + Resposta) * Conexao :=
  match pk with
  | Zpos k =>
      match funcionarios (atual c) !! k with
      | Some _ =>
          (inr (Redirect "lista_funcionarios"),
           if String.eqb (method r) "POST" then Funcionario_delete k c else c)
      | None => (inl Http404, c)
      end
  | _ => (inl Http404, c)
  end.

(** [def excluir_instituicao(request, pk)] *)
Definition excluir_instituicao (r : Pedido) (pk : Z) (c : Conexao)
    : (excecao + Resposta) * Conexao :=
  match pk with
  | Zpos k =>
      match instituicoes (atual c) !! k with
      | Some _ =>
          (inr (Redirect "lista_instituicoes"),
           if String.eqb (method r) "POST" then Instituicao_delete k c else c)
      | None => (inl Http404, c)
      end
  | _ => (inl Http404, c)
  end.

(** [def deletar_produto(request, id)]: the product is kept and marked
    inactive. *)
Definition deletar_produto (r : Pedido) (id : Z) (c : Conexao)
    : (excecao + Resposta) * Conexao :=
  if negb (autenticado r) then (inr (Redirect "login_instituicoes"), c)
  else
    match id with
    | Zpos k =>
        match produtos (atual c) !! k with
        | Some p =>
            if String.eqb (method r) "POST" then
              match Produto_save (Produto.com_ativo false (Produto.com_pk k p)) c with
              | (Concluido, _, c') => (inr (Redirect "lista_produtos"), c')
              | (Levantou e, _, c') => (inl e, c')
              end
            else (inr (Render "produto/deletar.html" ∅ ∅), c)
        | None => (inl Http404, c)
        end
    | _ => (inl Http404, c)
    end.

(** The requests of the application that write to the store.  Those that
    record a movement and those that delete are the views above.  The
    views [cadastrar_instituicoes] and [editar_instituicoes],
    [cadastrar_funcionarios] and [editar_funcionarios], [cadastrar_produto]
    and [editar_produto] validate a form and end in one [create] or [save]
    of an instance of their own model; each pair stands here as the save
    of an instance that may be any. *)
Inductive Operacao : Type :=
| RegistrarEntrada (r : Pedido)
| RegistrarSaida (r : Pedido)
| ExcluirFuncionarios (r : Pedido) (pk : Z)
| ExcluirInstituicao (r : Pedido) (pk : Z)
| DeletarProduto (r : Pedido) (id : Z)
| SalvarInstituicao (i : Instituicao.t)
| SalvarFuncionario (f : Funcionario.t)
| SalvarProduto (p : Produto.t).

Definition executar (op : Operacao) (c : Conexao)
    : (excecao + Resposta) * Conexao :=
  match op with
  | RegistrarEntrada r => registrar_entrada r c
  | RegistrarSaida r => registrar_saida r c
  | ExcluirFuncionarios r pk => excluir_funcionarios r pk c
  | ExcluirInstituicao r pk => excluir_instituicao r pk c
  | DeletarProduto r id => deletar_produto r id c
  | SalvarInstituicao i =>
      (inr (Redirect "lista_instituicoes"), (Instituicao_save i c).2)
  | SalvarFuncionario f =>
      (inr (Redirect "lista_funcionarios"), (Funcionario_save f c).2)
  | SalvarProduto p =>
      match Produto_save p c with
      | (Concluido, _, c') => (inr (Redirect "lista_produtos"), c')
      | (Levantou e, _, c') => (inl e, c')
      end
  end.
End Views.
End Views.

(** ** The admin forms of the movement table ([admin.py]) *)

Module Admin.
(** What the add form and the change form of [MovimentacaoAdmin] submit,
    once the form has read it: a value for every column but
    [data_movimentacao], which [readonly_fields] keeps out of the
    fields to fill in. *)
Record Campos : Type := BuildCampos {
  produto : positive;
  tipo : string;
  quantidade : Z;
  motivo : string;
  funcionario : option positive;
  observacoes : string
}.

(** The validation of the form, from the declaration of the columns: the
    product and the employee are rows of their tables (the employee
    column is not declared [blank]), the kind is one of [TIPO_CHOICES],
    the quantity is one the column stores. *)
Definition valido (db : DB) (f : Campos) : bool :=
  bool_decide (is_Some (produtos db !! produto f)) &&
  bool_decide (tipo f ∈ Movimentacao.TIPO_CHOICES.*1) &&
  (0 <=? quantidade f) && (quantidade f <=? MAX_INTEIRO) &&
  match funcionario f with
  | Some k => bool_decide (is_Some (funcionarios db !! k))
  | None => false
  end.

(** The instance the form saves: the one read under the key [k] with the
    submitted values, or a new one. *)
Definition instancia (k : option positive) (p : Produto.t) (data : option Z)
    (f : Campos) : Movimentacao.t :=
  Movimentacao.Build k p (tipo f) (quantidade f) (motivo f) (funcionario f)
                     data (observacoes f).

(** A valid form is saved with the model's [save()], in a transaction;
    an invalid one is shown again and nothing is written. *)
Definition salvar_formulario (k : option positive) (data : option Z)
    (f : Campos) (c : Conexao) : Conexao :=
  if valido (atual c) f then
    match produtos (atual c) !! produto f with
    | Some p =>
        (atomic (Movimentacao.save
                   (instancia k (Produto.com_pk (produto f) p) data f)) c).2
    | None => c
    end
  else c.

(** The requests of the admin site that write to the movement table:
    the add, change and delete forms of [MovimentacaoAdmin], and the
    delete forms of the models whose deletion reaches the movements.  The
    add and change forms of the other models end in the [save()] of an
    instance of their model, which [Views.Operacao] has. *)
Inductive Operacao : Type :=
| AdicionarMovimentacao (f : Campos)
| AlterarMovimentacao (k : positive) (f : Campos)
| ExcluirMovimentacao (k : positive)
| ExcluirProduto (k : positive)
| ExcluirFuncionario (k : positive)
| ExcluirInstituicao (k : positive).

(** The admin site serves a member of the staff only; a request for a
    row that does not exist writes nothing. *)
Definition executar (staff : bool) (op : Operacao) (c : Conexao) : Conexao :=
  if negb staff then c
  else
    match op with
    | AdicionarMovimentacao f => salvar_formulario None None f c
    | AlterarMovimentacao k f =>
        match movimentacoes (atual c) !! k with
        | Some l => salvar_formulario (Some k) (Linha.data_movimentacao l) f c
        | None => c
        end
    | ExcluirMovimentacao k =>
        match movimentacoes (atual c) !! k with
        | Some _ => Movimentacao_delete k c
        | None => c
        end
    | ExcluirProduto k =>
        match produtos (atual c) !! k with
        | Some _ => Produto_delete k c
        | None => c
        end
    | ExcluirFuncionario k =>
        match funcionarios (atual c) !! k with
        | Some _ => Funcionario_delete k c
        | None => c
        end
    | ExcluirInstituicao k =>
        match instituicoes (atual c) !! k with
        | Some _ => Instituicao_delete k c
        | None => c
        end
    end.
End Admin.

(** ** The writing requests of the system *)

(** A request that writes to the store comes through a view of the
    application or through the admin site. *)
Inductive Escrita : Type :=
| PelaAplicacao (op : Views.Operacao)
| PeloAdmin (staff : bool) (op : Admin.Operacao).

Definition escrever (strip : string -> string) (int : string -> option Z)
    (e : Escrita) (c : Conexao) : Conexao :=
  match e with
  | PelaAplicacao op => (Views.executar strip int op c).2
  | PeloAdmin staff op => Admin.executar staff op c
  end.



(** ** Several movements in a row on one product object *)

(** One movement applied to the product object [p]: the instance is [m]
    with [p] as its product; whatever the outcome, the caller goes on with
    the product object as the call left it. *)
Definition aplicar (pc : Produto.t * Conexao) (m : Movimentacao.t)
    : Produto.t * Conexao :=
  let '(_, m', c') :=
    Movimentacao.salvar_e_atualizar_estoque
      (Movimentacao.com_produto pc.1 m) pc.2 in
  (Movimentacao.produto m', c').

Definition aplicar_todas (ms : list Movimentacao.t)
    (pc : Produto.t * Conexao) : Produto.t * Conexao :=
  foldl aplicar pc ms.

(** Every stored product has a quantity that is not negative. *)
Definition estoque_nao_negativo (db : DB) : Prop :=
  forall k p, produtos db !! k = Some p -> 0 <= Produto.quantidade_atual p.

(** ** Requests served at the same time *)

Module Concorrencia.
Section Concorrencia.
Variable strip : string -> string.
Variable int : string -> option Z.

(** A withdrawal request in progress.  [registrar_saida] reads the
    product with a query of its own, before [transaction.atomic] is
    entered; between that query and the transaction another request can
    run.  The transaction itself is one step. *)
Inductive Fase : Type :=
| Inicio (r : Pedido)
| Carregado (f : Formulario) (produto : Produto.t)
| Fim (resposta : excecao + Resposta).

Definition passo (fase : Fase) (c : Conexao) : Fase * Conexao :=
  match fase with
  | Inicio r =>
      match Views.ate_consulta strip int "movimentacao/saida.html" r c with
      | inl resposta => (Fim resposta, c)
      | inr (f, produto) => (Carregado f produto, c)
      end
  | Carregado f produto =>
      let '(resposta, c') := Views.saida_com_produto f produto c in
      (Fim resposta, c')
  | Fim resposta => (Fim resposta, c)
  end.

(** The requests in progress and the database they share. *)
Record Sistema : Type := BuildSistema {
  pedidos : list Fase;
  conexao : Conexao
}.

Definition avancar (s : Sistema) (i : nat) : Sistema :=
  match pedidos s !! i with
  | Some fase =>
      let '(fase', c') := passo fase (conexao s) in
      BuildSistema (<[i := fase']> (pedidos s)) c'
  | None => s
  end.

(** A schedule names, step by step, the request that runs next. *)
Definition executar (agenda : list nat) (s : Sistema) : Sistema :=
  foldl avancar s agenda.
End Concorrencia.
End Concorrencia.

(** The units withdrawn from product [pid] according to the movement
    table. *)
Definition total_retirado (pid : positive) (db : DB) : Z :=
  map_fold
    (fun _ l acc =>
       if String.eqb (Linha.tipo l) "saida" && Pos.eqb (Linha.produto_id l) pid
       then acc + Linha.quantidade l else acc)
    0 (movimentacoes db).

(** ** Concrete readers of the submitted text

    Used where a statement is evaluated on a concrete request: they agree
    with [str.strip] and [int] on text made of ASCII whitespace, a sign
    and decimal digits. *)

Definition espaco (a : ascii) : bool :=
  let n := Ascii.N_of_ascii a in
  (N.eqb n 32 || (N.leb 9 n && N.leb n 13) || (N.leb 28 n && N.leb n 31))%bool.

Fixpoint strip_esquerda (s : string) : string :=
  match s with
  | String a s' => if espaco a then strip_esquerda s' else s
  | EmptyString => EmptyString
  end.

Definition strip_ascii (s : string) : string :=
  String.rev (strip_esquerda (String.rev (strip_esquerda s))).

Definition digito (a : ascii) : option Z :=
  let n := Z.of_N (Ascii.N_of_ascii a) in
  if (48 <=? n) && (n <=? 57) then Some (n - 48) else None.

Fixpoint digitos (acc : Z) (s : string) : option Z :=
  match s with
  | EmptyString => Some acc
  | String a s' =>
      match digito a with
      | Some d => digitos (10 * acc + d) s'
      | None => None
      end
  end.

Definition int_ascii (s : string) : option Z :=
  match strip_ascii s with
  | EmptyString => None
  | String a s' =>
      if Ascii.eqb a "-" then
        (if String.eqb s' EmptyString then None else Z.opp <$> digitos 0 s')
      else if Ascii.eqb a "+" then
        (if String.eqb s' EmptyString then None else digitos 0 s')
      else digitos 0 (String a s')
  end.

(** The quantity the store holds for the product of key [pid]. *)
Definition quantidade_em_estoque (pid : positive) (db : DB) : option Z :=
  Produto.quantidade_atual <$> produtos db !! pid.

(** ** What it means for a call to have persisted its two objects *)

(** After a call that left the instance [m'], the working state [db] holds
    the row of the product object of [m'] and the row of [m'] itself. *)
Definition persistidos (m' : Movimentacao.t) (db : DB) : Prop :=
  exists pid mid,
    Produto.pk (Movimentacao.produto m') = Some pid /\
    Movimentacao.pk m' = Some mid /\
    produtos db !! pid = Some (Movimentacao.produto m') /\
    movimentacoes db !! mid = Some (Movimentacao.linha pid m').

(** The quantity a movement [m] is to leave in stock, by its kind: the
    prior quantity plus the quantity of a receipt, minus that of a
    withdrawal the stock covers, the quantity of an adjustment itself,
    and the prior quantity for any other kind. *)
Definition estoque_esperado (m : Movimentacao.t) (q' : Z) : Prop :=
  let antes := Produto.quantidade_atual (Movimentacao.produto m) in
  let q := Movimentacao.quantidade m in
  (Movimentacao.tipo m = "entrada" -> q' = antes + q) /\
  (Movimentacao.tipo m = "saida" -> q' = antes - q /\ q <= antes) /\
  (Movimentacao.tipo m = "ajuste" -> q' = q) /\
  (Movimentacao.tipo m <> "entrada" -> Movimentacao.tipo m <> "saida" ->
   Movimentacao.tipo m <> "ajuste" -> q' = antes).

(** The states a call has added to the list of committed states. *)
Definition novos_confirmados (c c' : Conexao) (novos : list DB) : Prop :=
  confirmados c' = confirmados c ++ novos.


(** ** Concrete data

    The stores and requests on which statements are evaluated. *)

(** A product and a connection used where a statement is evaluated on
    concrete data: the product of the specification's example, 45 units in
    stock with a minimum of 10, stored under key 1. *)
Definition produto_exemplo : Produto.t :=
  Produto.Build (Some 1%positive) "P002" "Seringa" EmptyString None 1%positive
                10 45 150 true (Some 0) (Some 0).

Definition db_exemplo : DB :=
  BuildDB ∅ ∅ {[1%positive := produto_exemplo]} ∅ (BuildSequencias 0 0 1 0).

Definition conexao_exemplo : Conexao :=
  BuildConexao db_exemplo [db_exemplo] false 100.

Definition movimentacao_exemplo (tipo : string) (q : Z) : Movimentacao.t :=
  Movimentacao.Build None produto_exemplo tipo q "motivo" None None EmptyString.



(** A store with one institution, one employee, the example product and
    one receipt recorded by that employee. *)
Definition linha_exemplo : Linha.t :=
  Linha.Build 1%positive "entrada" 100 "Compra" (Some 1%positive) (Some 0) EmptyString.

Definition db_com_funcionario : DB :=
  BuildDB
    {[1%positive := Instituicao.Build (Some 1%positive) "Hospital" "00.000.000/0001-00" true (Some 0)]}
    {[1%positive := Funcionario.Build (Some 1%positive) "Ana" "ana@exemplo.org" "0000" 1%positive true (Some 0)]}
    {[1%positive := produto_exemplo]}
    {[1%positive := linha_exemplo]}
    (BuildSequencias 1 1 1 1).

Definition conexao_com_funcionario : Conexao :=
  BuildConexao db_com_funcionario [db_com_funcionario] false 100.

Definition pedido_post (campos : list (string * string)) : Pedido :=
  BuildPedido true "POST" (list_to_map campos).

Definition excluir_ana : Views.Operacao :=
  Views.ExcluirFuncionarios (pedido_post []) 1.

(** The change form of the admin site submitted for the recorded
    receipt with another quantity, and the same row read into an
    instance whose quantity is then changed. *)
Definition campos_alterados : Admin.Campos :=
  Admin.BuildCampos 1%positive "entrada" 1 "Compra" (Some 1%positive) EmptyString.

Definition movimentacao_relida : Movimentacao.t :=
  Movimentacao.Build (Some 1%positive) produto_exemplo "entrada" 7 "Compra"
                     (Some 1%positive) (Some 0) EmptyString.

(** A product with 10 units in stock, for the requests served at the
    same time. *)
Definition produto_dez : Produto.t :=
  Produto.Build (Some 1%positive) "P010" "Luva" EmptyString None 1%positive
                2 10 300 true (Some 0) (Some 0).

Definition db_dez : DB :=
  BuildDB ∅ ∅ {[1%positive := produto_dez]} ∅ (BuildSequencias 0 0 1 0).

Definition pedido_saida_de_oito : Pedido :=
  pedido_post [("produto", "1"); ("quantidade", "8"); ("motivo", "uso")].

(** Two withdrawal requests of 8 units each against a stock of 10. *)
Definition dois_pedidos : Concorrencia.Sistema :=
  Concorrencia.BuildSistema
    [Concorrencia.Inicio pedido_saida_de_oito;
     Concorrencia.Inicio pedido_saida_de_oito]
    (BuildConexao db_dez [db_dez] false 100).

(** Both requests read the product before either enters its
    transaction. *)
Definition agenda_intercalada : list nat := [0; 1; 0; 1]%nat.

(** The first request runs to its end before the second starts. *)
Definition agenda_em_serie : list nat := [0; 0; 1; 1]%nat.


(** ** Referential integrity of the movement table *)

(** Every movement row refers to a stored product, and to a stored
    employee when its employee reference is not null. *)
Definition integro (db : DB) : Prop :=
  forall mid l,
    movimentacoes db !! mid = Some l ->
    is_Some (produtos db !! Linha.produto_id l) /\
    (forall f, Linha.funcionario_id l = Some f -> is_Some (funcionarios db !! f)).

(** ** The checks of the columns, as a property of the store *)

(** Every stored quantity is a value its [PositiveIntegerField] column
    stores. *)
Definition consistente (db : DB) : Prop :=
  (forall k p, produtos db !! k = Some p -> Produto_valido p) /\
  (forall mid l, movimentacoes db !! mid = Some l ->
                 armazenavel (Linha.quantidade l)).

(** ** Dashboard and stock alert ([views/dashboard_views.py]) *)

(** The instances a query over the product table yields: each row with
    its key. *)
Definition instancias (db : DB) : list Produto.t :=
  (fun x => Produto.com_pk x.1 x.2) <$> map_to_list (produtos db).

(** [.filter(ativo=True)] *)
Definition filtro_ativo (l : list Produto.t) : list Produto.t :=
  filter (fun p => Produto.ativo p = true) l.

(** [.filter(quantidade_atual__lte=F('quantidade_minima'))] *)
Definition filtro_estoque_baixo (l : list Produto.t) : list Produto.t :=
  filter (fun p => Produto.quantidade_atual p <= Produto.quantidade_minima p) l.

(** [.order_by('quantidade_atual')] *)
Definition menor_estoque (p q : Produto.t) : Prop :=
  Produto.quantidade_atual p <= Produto.quantidade_atual q.

Global Instance menor_estoque_dec (p q : Produto.t) : Decision (menor_estoque p q).
Proof. unfold menor_estoque. apply _. Defined.

Global Instance menor_estoque_total : Total menor_estoque.
Proof. intros p q. unfold menor_estoque. lia. Qed.

Global Instance menor_estoque_trans : Transitive menor_estoque.
Proof. intros p q r. unfold menor_estoque. lia. Qed.

(** [.filter(tipo=...).count()] over the movement table. *)
Definition contar_tipo (tipo : string) (db : DB) : nat :=
  length (filter (fun x => Linha.tipo x.2 = tipo) (map_to_list (movimentacoes db))).

Module DashboardViews.
(** The counts [dashboard] puts in its context, under their keys.  The
    entry [valor_total_estoque], a sum the database computes in floating
    point, and the three entries that depend on the date arithmetic and
    on the order among equal rows ([movimentacoes_semana],
    [produtos_populares], [ultimas_movimentacoes]) are left out. *)
Module Contexto.
Record t : Type := Build {
  total_produtos : nat;
  produtos_estoque_baixo : nat;
  entradas : nat;
  saidas : nat;
  ajustes : nat
}.
End Contexto.

(** [def dashboard(request)] *)
Definition dashboard (r : Pedido) (db : DB) : Resposta + Contexto.t :=
  if negb (autenticado r) then inl (Redirect "login_instituicoes")
  else
    inr (Contexto.Build
           (length (filtro_ativo (instancias db)))
           (length (filtro_estoque_baixo (filtro_ativo (instancias db))))
           (contar_tipo "entrada" db)
           (contar_tipo "saida" db)
           (contar_tipo "ajuste" db)).

(** [def produtos_estoque_baixo(request)]: the products of the context
    and their [total]. *)
Definition produtos_estoque_baixo (r : Pedido) (db : DB)
    : Resposta + (list Produto.t * nat) :=
  if negb (autenticado r) then inl (Redirect "login_instituicoes")
  else
    let produtos :=
      merge_sort menor_estoque
        (filtro_estoque_baixo (filtro_ativo (instancias db))) in
    inr (produtos, length produtos).
End DashboardViews.

(** ** Product views ([views/produtos_views.py]) *)

Definition Produto_editado (nome descricao : string) (quantidade_minima : Z)
    (preco_unitario : Z) (p : Produto.t) : Produto.t :=
  Produto.Build (Produto.pk p) (Produto.codigo p) nome descricao
                (Produto.categoria p) (Produto.instituicao p)
                quantidade_minima (Produto.quantidade_atual p)
                preco_unitario (Produto.ativo p)
                (Produto.data_criacao p) (Produto.data_atualizacao p).

Definition Produto_com_categoria (k : option positive) (p : Produto.t) : Produto.t :=
  Produto.Build (Produto.pk p) (Produto.codigo p) (Produto.nome p)
                (Produto.descricao p) k (Produto.instituicao p)
                (Produto.quantidade_minima p) (Produto.quantidade_atual p)
                (Produto.preco_unitario p) (Produto.ativo p)
                (Produto.data_criacao p) (Produto.data_atualizacao p).

Module ProdutosViews.
Section ProdutosViews.
(** [str.strip], [int] and [float] on a [str] are Python's; [float] stands
    for the conversion followed by the two decimal places the price column
    keeps, in hundredths.  No view writes the category table: the keys it
    holds are a parameter. *)
Variable strip : string -> string.
Variable int : string -> option Z.
Variable float : string -> option Z.
Variable categorias : gset positive.

Definition msg_chave (texto : string) : mensagem :=
  CampoEsperavaNumero "id" texto.

(** [Instituicao.objects.get(pk=instituicao_id)] with the key as
    submitted. *)
Definition Instituicao_get (db : DB) (instituicao_id : string)
    : excecao + positive :=
  match int instituicao_id with
  | None => inl (ValueError (msg_chave instituicao_id))
  | Some (Zpos k) =>
      match instituicoes db !! k with
      | Some _ => inr k
      | None => inl (DoesNotExist "Instituicao")
      end
  | Some _ => inl (DoesNotExist "Instituicao")
  end.

(** [Categoria.objects.get(pk=categoria_id)] with the key as submitted. *)
Definition Categoria_get (categoria_id : string) : excecao + positive :=
  match int categoria_id with
  | None => inl (ValueError (msg_chave categoria_id))
  | Some (Zpos k) =>
      if bool_decide (k ∈ categorias) then inr k
      else inl (DoesNotExist "Categoria")
  | Some _ => inl (DoesNotExist "Categoria")
  end.

(** The lookup of the category in both views: a missing category is
    passed over ([except Categoria.DoesNotExist: pass]) and leaves the
    value [antes]; any other exception goes on. *)
Definition categoria_escolhida (categoria_id : string) (antes : option positive)
    : excecao + option positive :=
  if String.eqb categoria_id EmptyString then inr antes
  else
    match Categoria_get categoria_id with
    | inr k => inr (Some k)
    | inl (DoesNotExist _) => inr antes
    | inl e => inl e
    end.

(** [def cadastrar_produto(request)].  The [try] block of the view has
    one handler, [except Produto.DoesNotExist]; neither the two lookups nor
    the creation raise that class, so what they raise goes on to the
    caller. *)
Definition cadastrar_produto (r : Pedido) (c : Conexao)
    : (excecao + Resposta) * Conexao :=
  if negb (autenticado r) then (inr (Redirect "login_instituicoes"), c)
  else if String.eqb (method r) "POST" then
    let codigo := strip (Views.POST_get r "codigo" EmptyString) in
    let nome := strip (Views.POST_get r "nome" EmptyString) in
    let descricao := strip (Views.POST_get r "descricao" EmptyString) in
    let categoria_id := strip (Views.POST_get r "categoria" EmptyString) in
    let quantidade_minima := strip (Views.POST_get r "quantidade_minima" "0") in
    let preco_unitario := strip (Views.POST_get r "preco_unitario" "0") in
    let instituicao_id := strip (Views.POST_get r "instituicao" EmptyString) in
    let val : gmap string string :=
      <["instituicao" := instituicao_id]>
        (<["preco_unitario" := preco_unitario]>
           (<["quantidade_minima" := quantidade_minima]>
              (<["categoria" := categoria_id]>
                 (<["descricao" := descricao]>
                    (<["nome" := nome]>
                       (<["codigo" := codigo]> ∅)))))) in
    let erros1 : gmap string string :=
      if String.eqb codigo EmptyString
      then {["codigo" := "Código é obrigatório."]} else ∅ in
    let erros2 :=
      if String.eqb nome EmptyString
      then <["nome" := "Nome é obrigatório."]> erros1 else erros1 in
    let erros3 :=
      if String.eqb instituicao_id EmptyString
      then <["instituicao" := "Instituição é obrigatória."]> erros2 else erros2 in
    let '(minima, erros4) :=
      match int quantidade_minima with
      | Some q => (q, erros3)
      | None =>
          (0, <["quantidade_minima" := "Quantidade mínima deve ser um número."]> erros3)
      end in
    let '(preco, erros5) :=
      match float preco_unitario with
      | Some v => (v, erros4)
      | None => (0, <["preco_unitario" := "Preço deve ser um número."]> erros4)
      end in
    if bool_decide (erros5 = ∅) then
      match Instituicao_get (atual c) instituicao_id with
      | inl e => (inl e, c)
      | inr instituicao =>
          match categoria_escolhida categoria_id None with
          | inl e => (inl e, c)
          | inr categoria =>
              match Produto_save
                      (Produto.Build None codigo nome descricao categoria
                                     instituicao minima 0 preco true None None) c with
              | (Concluido, _, c') => (inr (Redirect "lista_produtos"), c')
              | (Levantou e, _, c') => (inl e, c')
              end
          end
      end
    else (inr (Render "produto/cadastrar.html" erros5 val), c)
  else (inr (Render "produto/cadastrar.html" ∅ ∅), c).

(** [def editar_produto(request, id)] *)
Definition editar_produto (r : Pedido) (id : Z) (c : Conexao)
    : (excecao + Resposta) * Conexao :=
  if negb (autenticado r) then (inr (Redirect "login_instituicoes"), c)
  else
    match id with
    | Zpos k =>
        match produtos (atual c) !! k with
        | None => (inl Http404, c)
        | Some linha =>
            let produto := Produto.com_pk k linha in
            if String.eqb (method r) "POST" then
              let nome := strip (Views.POST_get r "nome" EmptyString) in
              let descricao := strip (Views.POST_get r "descricao" EmptyString) in
              let categoria_id := strip (Views.POST_get r "categoria" EmptyString) in
              let quantidade_minima :=
                strip (Views.POST_get r "quantidade_minima" "0") in
              let preco_unitario := strip (Views.POST_get r "preco_unitario" "0") in
              let erros1 : gmap string string :=
                if String.eqb nome EmptyString
                then {["nome" := "Nome é obrigatório."]} else ∅ in
              match int quantidade_minima, float preco_unitario with
              | Some minima, Some preco =>
                  if bool_decide (erros1 = ∅) then
                    let editado := Produto_editado nome descricao minima preco produto in
                    match categoria_escolhida categoria_id (Produto.categoria editado) with
                    | inl e => (inl e, c)
                    | inr categoria =>
                        match Produto_save (Produto_com_categoria categoria editado) c with
                        | (Concluido, _, c') => (inr (Redirect "lista_produtos"), c')
                        | (Levantou e, _, c') => (inl e, c')
                        end
                    end
                  else (inr (Render "produto/editar.html" erros1 ∅), c)
              | Some _, None =>
                  (inr (Render "produto/editar.html"
                          (<["preco_unitario" := "Preço deve ser um número."]> erros1) ∅), c)
              | None, Some _ =>
                  (inr (Render "produto/editar.html"
                          (<["quantidade_minima" :=
                               "Quantidade mínima deve ser um número."]> erros1) ∅), c)
              | None, None =>
                  (inr (Render "produto/editar.html"
                          (<["preco_unitario" := "Preço deve ser um número."]>
                             (<["quantidade_minima" :=
                                  "Quantidade mínima deve ser um número."]> erros1)) ∅), c)
              end
            else (inr (Render "produto/editar.html" ∅ ∅), c)
        end
    | _ => (inl Http404, c)
    end.
End ProdutosViews.
End ProdutosViews.

(** A store on which the dashboard is evaluated: two active products,
    one of them low on stock, one inactive product, and three movements,
    one of a kind outside the choices. *)
Definition db_painel : DB :=
  BuildDB
    {[1%positive := Instituicao.Build (Some 1%positive) "Hospital" "00.000.000/0001-00" true (Some 0)]}
    ∅
    (<[3%positive :=
         Produto.Build (Some 3%positive) "P003" "Gaze" EmptyString None 1%positive
                       5 1 200 false (Some 0) (Some 0)]>
       (<[2%positive :=
            Produto.Build (Some 2%positive) "P004" "Alcool" EmptyString None 1%positive
                          10 8 500 true (Some 0) (Some 0)]>
          {[1%positive := produto_exemplo]}))
    (<[3%positive := Linha.Build 1%positive "devolucao" 7 "troca" None (Some 3) EmptyString]>
       (<[2%positive := Linha.Build 2%positive "saida" 2 "uso" None (Some 2) EmptyString]>
          {[1%positive := Linha.Build 1%positive "entrada" 45 "compra" None (Some 1) EmptyString]}))
    (BuildSequencias 1 0 3 3).

(** ** The store after a recorded movement *)

(** The state a movement view leaves after recording a movement of kind
    [tipo] with the accepted form [f] that sets the stock of product [k],
    read as [row], to [q']: the product row carries the new quantity and
    the time of the request, and one movement row is added under a new
    key, attributed to the first employee. *)
Definition apos_movimento (k : positive) (row : Produto.t) (tipo : string)
    (q' : Z) (f : Formulario) (c : Conexao) : DB :=
  inserir_movimentacao
    (novo_id (seq_movimentacoes (sequencias (atual c))) (movimentacoes (atual c)))
    (Linha.Build k tipo (f_quantidade f) (f_motivo f)
       (Views.Funcionario_first (atual c)) (Some (relogio c))
       (f_observacoes f))
    (com_produtos
       (<[k := Produto.com_data_atualizacao (relogio c)
                 (Produto.com_quantidade_atual q' (Produto.com_pk k row))]>
          (produtos (atual c)))
       (atual c)).

(** Requests on which the movement views are evaluated, against the
    example product (45 units in stock). *)
Definition pedido_entrada_de_cem : Pedido :=
  pedido_post [("produto", "1"); ("quantidade", "100"); ("motivo", "compra")].

Definition pedido_saida_de_45 : Pedido :=
  pedido_post [("produto", "1"); ("quantidade", "45"); ("motivo", "uso")].

Definition pedido_saida_de_50 : Pedido :=
  pedido_post [("produto", "1"); ("quantidade", "50"); ("motivo", "uso")].


(** A receipt of [2 ^ 63] units. *)
Definition pedido_entrada_excessiva : Pedido :=
  pedido_post [("produto", "1"); ("quantidade", "9223372036854775808");
               ("motivo", "compra")].

(** A reader of prices for the product views where a statement is
    evaluated: it agrees with [float] and the two places of the column on
    text that is a whole number of units. *)
Definition float_ascii (s : string) : option Z :=
  Z.mul 100 <$> int_ascii s.

Definition conexao_painel : Conexao :=
  BuildConexao db_painel [db_painel] false 100.

(** What the dashboard shows on [db_painel], and after a receipt of 100
    units and after a withdrawal of 45 units of product 1. *)
Definition ctx_painel : DashboardViews.Contexto.t :=
  DashboardViews.Contexto.Build 2 1 1 1 0.

Definition ctx_apos_entrada : DashboardViews.Contexto.t :=
  DashboardViews.Contexto.Build 2 1 2 1 0.

Definition ctx_apos_saida : DashboardViews.Contexto.t :=
  DashboardViews.Contexto.Build 2 2 1 2 0.

Definition produto_novo_esperado : Produto.t :=
  Produto.Build (Some 2%positive) "P100" "Luva" EmptyString None 1%positive
                5 0 300 true (Some 100) (Some 100).

Definition pedido_novo_produto (instituicao : string) : Pedido :=
  pedido_post [("codigo", "P100"); ("nome", "Luva"); ("instituicao", instituicao);
               ("quantidade_minima", "5"); ("preco_unitario", "3")].

(** * Properties *)

(** ** Keys and checks of the database *)

Lemma maior_chave_ge {A : Type} (tabela : gmap positive A) (k : positive) (x : A) :
  tabela !! k = Some x -> (Npos k <= maior_chave tabela)%N.
Proof.
  unfold maior_chave. revert k x.
  apply (map_fold_weak_ind
           (fun (r : N) (t : gmap positive A) =>
              forall k x, t !! k = Some x -> (Npos k <= r)%N)).
  - intros k x H. rewrite lookup_empty in H. discriminate.
  - intros i y t r _ IH k x H.
    destruct (decide (i = k)) as [->|Hne].
    + lia.
    + rewrite lookup_insert_ne in H by exact Hne.
      specialize (IH k x H). lia.
Qed.

Lemma novo_id_livre {A : Type} (seq : N) (tabela : gmap positive A) :
  tabela !! novo_id seq tabela = None.
Proof.
  destruct (tabela !! novo_id seq tabela) as [x|] eqn:H; [|reflexivity].
  apply maior_chave_ge in H. unfold novo_id in H.
  rewrite N.succ_pos_spec in H. lia.
Qed.

Lemma cabe_armazenavel (z : Z) : armazenavel z -> cabe z = true.
Proof.
  unfold armazenavel, cabe, MIN_INTEIRO, MAX_INTEIRO. intros H.
  apply andb_true_iff. split; apply Z.leb_le; lia.
Qed.

Lemma armazenavel_casos (z : Z) :
  armazenavel z \/
  (~ armazenavel z /\ (cabe z = false \/ (cabe z = true /\ z < 0))).
Proof.
  unfold armazenavel, cabe, MIN_INTEIRO, MAX_INTEIRO.
  destruct (Z.leb_spec (- 2 ^ 63) z), (Z.leb_spec z (2 ^ 63 - 1)); simpl;
    destruct (Z.ltb_spec z 0); try (left; lia); right; (split; [lia|]);
    try (left; reflexivity); right; split; [reflexivity | lia].
Qed.

(** ** The framework's [save] *)

(** [Produto.save()]: the database refuses it exactly when one of the two
    quantities is not a value its column stores, and then nothing is
    written; otherwise the row is written under the key of the
    instance. *)
Lemma Produto_save_casos (p : Produto.t) (c : Conexao) :
  (~ Produto_valido p /\
   exists e p',
     erro_do_banco e /\
     Produto_save p c = (Levantou e, p', c) /\
     Produto.pk p' = Produto.pk p /\
     Produto.quantidade_atual p' = Produto.quantidade_atual p /\
     Produto.quantidade_minima p' = Produto.quantidade_minima p) \/
  (Produto_valido p /\
   exists pid p' db',
     Produto_save p c = (Concluido, p', gravar db' c) /\
     Produto.pk p' = Some pid /\
     Produto.quantidade_atual p' = Produto.quantidade_atual p /\
     Produto.quantidade_minima p' = Produto.quantidade_minima p /\
     Produto.ativo p' = Produto.ativo p /\
     (forall k, Produto.pk p = Some k -> pid = k) /\
     (Produto.pk p = None -> produtos (atual c) !! pid = None) /\
     produtos db' = <[pid := p']> (produtos (atual c)) /\
     movimentacoes db' = movimentacoes (atual c) /\
     funcionarios db' = funcionarios (atual c) /\
     instituicoes db' = instituicoes (atual c) /\
     seq_movimentacoes (sequencias db') = seq_movimentacoes (sequencias (atual c))).
Proof.
  unfold Produto_save, Produto_valido, Produto_positivos, check_positivos.
  destruct (armazenavel_casos (Produto.quantidade_minima p))
    as [Hm | (Hm & [Hcm | (Hcm & Hnm)])];
    [destruct (armazenavel_casos (Produto.quantidade_atual p))
       as [Ha | (Ha & [Hca | (Hca & Hna)])] | |].
  - (* both stored *)
    right. split; [split; assumption|].
    rewrite (cabe_armazenavel _ Hm), (cabe_armazenavel _ Ha). simpl.
    destruct (Z.ltb_spec (Produto.quantidade_minima p) 0);
      [unfold armazenavel in Hm; lia|].
    destruct (Z.ltb_spec (Produto.quantidade_atual p) 0);
      [unfold armazenavel in Ha; lia|].
    destruct (Produto.pk p) as [k|] eqn:Hk.
    + destruct (produtos (atual c) !! k) eqn:Hrow;
        eexists k, _, _; (split; [reflexivity|]); simpl;
        repeat split; try congruence; discriminate.
    + eexists _, _, _. split; [reflexivity|]. simpl.
      repeat split; try congruence; try discriminate.
      intros _. apply novo_id_livre.
  - left. split; [tauto|]. rewrite Hca, andb_false_r. simpl.
    exists OverflowError.
    destruct (Produto.pk p) as [k|] eqn:Hk; eexists;
      (split; [left; reflexivity|]); (split; [reflexivity|]);
      simpl; repeat split; congruence.
  - left. split; [tauto|]. rewrite (cabe_armazenavel _ Hm), Hca. simpl.
    destruct (Z.ltb_spec (Produto.quantidade_minima p) 0);
      [unfold armazenavel in Hm; lia|].
    destruct (Z.ltb_spec (Produto.quantidade_atual p) 0); [|lia].
    exists (IntegrityError "quantidade_atual").
    destruct (Produto.pk p) as [k|] eqn:Hk;
      [destruct (produtos (atual c) !! k)|];
      eexists; (split; [right; eexists; reflexivity|]);
      (split; [reflexivity|]); simpl; repeat split; congruence.
  - left. split; [tauto|]. rewrite Hcm. simpl.
    exists OverflowError.
    destruct (Produto.pk p) as [k|] eqn:Hk; eexists;
      (split; [left; reflexivity|]); (split; [reflexivity|]);
      simpl; repeat split; congruence.
  - left. split; [tauto|].
    destruct (Z.ltb_spec (Produto.quantidade_minima p) 0); [|lia].
    destruct (cabe (Produto.quantidade_minima p) && cabe (Produto.quantidade_atual p));
      simpl.
    + exists (IntegrityError "quantidade_minima").
      destruct (Produto.pk p) as [k|] eqn:Hk;
        [destruct (produtos (atual c) !! k)|];
        eexists; (split; [right; eexists; reflexivity|]);
        (split; [reflexivity|]); simpl; repeat split; congruence.
    + exists OverflowError.
      destruct (Produto.pk p) as [k|] eqn:Hk; eexists;
        (split; [left; reflexivity|]); (split; [reflexivity|]);
        simpl; repeat split; congruence.
Qed.

(** [Movimentacao.save()] of an instance whose product has a key: the
    database refuses it exactly when the quantity is not a value the
    column stores, and then nothing is written. *)
Lemma Movimentacao_save_casos (m : Movimentacao.t) (c : Conexao) (pid : positive) :
  Produto.pk (Movimentacao.produto m) = Some pid ->
  (~ armazenavel (Movimentacao.quantidade m) /\
   exists e m',
     erro_do_banco e /\
     Movimentacao.save m c = (Levantou e, m', c) /\
     Movimentacao.produto m' = Movimentacao.produto m) \/
  (armazenavel (Movimentacao.quantidade m) /\
   exists mid m' db',
     Movimentacao.save m c = (Concluido, m', gravar db' c) /\
     Movimentacao.pk m' = Some mid /\
     Movimentacao.produto m' = Movimentacao.produto m /\
     Movimentacao.tipo m' = Movimentacao.tipo m /\
     Movimentacao.quantidade m' = Movimentacao.quantidade m /\
     Movimentacao.motivo m' = Movimentacao.motivo m /\
     Movimentacao.funcionario m' = Movimentacao.funcionario m /\
     Movimentacao.observacoes m' = Movimentacao.observacoes m /\
     (Movimentacao.pk m = None ->
        mid = novo_id (seq_movimentacoes (sequencias (atual c)))
                      (movimentacoes (atual c)) /\
        movimentacoes (atual c) !! mid = None /\
        Movimentacao.data_movimentacao m' = Some (relogio c)) /\
     (forall k, Movimentacao.pk m = Some k -> mid = k) /\
     (forall k, Movimentacao.pk m = Some k ->
        is_Some (movimentacoes (atual c) !! k) ->
        Movimentacao.data_movimentacao m' = Movimentacao.data_movimentacao m) /\
     movimentacoes db' = <[mid := Movimentacao.linha pid m']> (movimentacoes (atual c)) /\
     produtos db' = produtos (atual c) /\
     funcionarios db' = funcionarios (atual c) /\
     instituicoes db' = instituicoes (atual c)).
Proof.
  intros Hp. unfold Movimentacao.save, check_positivos. rewrite Hp.
  destruct (armazenavel_casos (Movimentacao.quantidade m))
    as [Hq | (Hq & [Hc | (Hc & Hn)])].
  - right. split; [exact Hq|]. rewrite (cabe_armazenavel _ Hq). simpl.
    destruct (Z.ltb_spec (Movimentacao.quantidade m) 0);
      [unfold armazenavel in Hq; lia|].
    destruct (Movimentacao.pk m) as [k|] eqn:Hk.
    + destruct (movimentacoes (atual c) !! k) eqn:Hrow;
        eexists k, _, _; (split; [reflexivity|]); simpl;
        repeat split; try congruence; try discriminate.
      intros k' [= <-] [x Hx]. congruence.
    + eexists _, _, _. split; [reflexivity|]. simpl.
      repeat split; try congruence; try discriminate.
      apply novo_id_livre.
  - left. split; [exact Hq|]. rewrite Hc. simpl. exists OverflowError.
    destruct (Movimentacao.pk m); eexists;
      (split; [left; reflexivity|]); split; reflexivity.
  - left. split; [exact Hq|]. rewrite Hc. simpl.
    destruct (Z.ltb_spec (Movimentacao.quantidade m) 0); [|lia].
    exists (IntegrityError "quantidade").
    destruct (Movimentacao.pk m) as [k|];
      [destruct (movimentacoes (atual c) !! k)|];
      eexists; (split; [right; eexists; reflexivity|]); split; reflexivity.
Qed.

(** ** The movement-application operation *)

Lemma atualizar_produto_inl (m : Movimentacao.t) (e : excecao) :
  Movimentacao.atualizar_produto m = inl e <->
  e = ValueError (Texto Movimentacao.msg_insuficiente) /\
  Movimentacao.tipo m = "saida" /\
  Movimentacao.quantidade m > Produto.quantidade_atual (Movimentacao.produto m).
Proof.
  unfold Movimentacao.atualizar_produto.
  destruct (String.eqb (Movimentacao.tipo m) "entrada") eqn:He.
  { apply String.eqb_eq in He. rewrite He. split; [discriminate|].
    intros (_ & H & _). discriminate. }
  destruct (String.eqb (Movimentacao.tipo m) "saida") eqn:Hs.
  - apply String.eqb_eq in Hs.
    destruct (Z.geb_spec (Produto.quantidade_atual (Movimentacao.produto m))
                         (Movimentacao.quantidade m)) as [Hge|Hlt].
    + split; [discriminate|]. intros (_ & _ & H). lia.
    + split.
      * intros [= <-]. repeat split; [assumption|lia].
      * intros (-> & _ & _). reflexivity.
  - apply String.eqb_neq in Hs.
    destruct (String.eqb (Movimentacao.tipo m) "ajuste");
      (split; [discriminate|]); intros (_ & H & _); contradiction.
Qed.

(** The method changes nothing of the product object but its current
    quantity. *)
Lemma atualizar_produto_inr (m : Movimentacao.t) (p : Produto.t) :
  Movimentacao.atualizar_produto m = inr p ->
  p = Produto.com_quantidade_atual (Produto.quantidade_atual p)
        (Movimentacao.produto m).
Proof.
  unfold Movimentacao.atualizar_produto.
  destruct (String.eqb (Movimentacao.tipo m) "entrada"); [intros [= <-]; reflexivity|].
  destruct (String.eqb (Movimentacao.tipo m) "saida").
  { destruct (_ >=? _); [intros [= <-]; reflexivity | discriminate]. }
  destruct (String.eqb (Movimentacao.tipo m) "ajuste"); intros [= <-];
    [reflexivity|].
  destruct (Movimentacao.produto m); reflexivity.
Qed.

(** Every way a call can end: the insufficient-stock error before any
    write; the product refused by the database, nothing written; the
    product written and the movement refused; both written, the product
    first. *)
Lemma salvar_casos (m : Movimentacao.t) (c : Conexao) :
  (exists e,
     Movimentacao.atualizar_produto m = inl e /\
     Movimentacao.salvar_e_atualizar_estoque m c = (Levantou e, m, c)) \/
  (exists p,
     Movimentacao.atualizar_produto m = inr p /\
     ((~ Produto_valido p /\
       exists e p',
         erro_do_banco e /\
         Movimentacao.salvar_e_atualizar_estoque m c
           = (Levantou e, Movimentacao.com_produto p' m, c) /\
         Produto.quantidade_atual p' = Produto.quantidade_atual p) \/
      (Produto_valido p /\
       exists pid p' db1,
         Produto_save p c = (Concluido, p', gravar db1 c) /\
         Produto.pk p' = Some pid /\
         Produto.quantidade_atual p' = Produto.quantidade_atual p /\
         Produto.quantidade_minima p' = Produto.quantidade_minima p /\
         (forall k, Produto.pk p = Some k -> pid = k) /\
         (Produto.pk p = None -> produtos (atual c) !! pid = None) /\
         produtos db1 = <[pid := p']> (produtos (atual c)) /\
         movimentacoes db1 = movimentacoes (atual c) /\
         funcionarios db1 = funcionarios (atual c) /\
         instituicoes db1 = instituicoes (atual c) /\
         ((~ armazenavel (Movimentacao.quantidade m) /\
           exists e m',
             erro_do_banco e /\
             Movimentacao.salvar_e_atualizar_estoque m c
               = (Levantou e, m', gravar db1 c) /\
             Movimentacao.produto m' = p') \/
          (armazenavel (Movimentacao.quantidade m) /\
           exists mid m' db2,
             Movimentacao.salvar_e_atualizar_estoque m c
               = (Concluido, m', gravar db2 (gravar db1 c)) /\
             Movimentacao.pk m' = Some mid /\
             Movimentacao.produto m' = p' /\
             Movimentacao.tipo m' = Movimentacao.tipo m /\
             Movimentacao.quantidade m' = Movimentacao.quantidade m /\
             Movimentacao.motivo m' = Movimentacao.motivo m /\
             Movimentacao.funcionario m' = Movimentacao.funcionario m /\
             Movimentacao.observacoes m' = Movimentacao.observacoes m /\
             (Movimentacao.pk m = None ->
                mid = novo_id (seq_movimentacoes (sequencias (atual c)))
                              (movimentacoes (atual c)) /\
                movimentacoes (atual c) !! mid = None /\
                Movimentacao.data_movimentacao m' = Some (relogio c)) /\
             (forall k, Movimentacao.pk m = Some k -> mid = k) /\
             movimentacoes db2
               = <[mid := Movimentacao.linha pid m']> (movimentacoes (atual c)) /\
             produtos db2 = produtos db1 /\
             funcionarios db2 = funcionarios (atual c) /\
             instituicoes db2 = instituicoes (atual c)))))).
Proof.
  unfold Movimentacao.salvar_e_atualizar_estoque.
  destruct (Movimentacao.atualizar_produto m) as [e|p] eqn:Hup.
  { left. exists e. split; reflexivity. }
  right. exists p. split; [reflexivity|].
  destruct (Produto_save_casos p c)
    as [(Hinv & e & p' & He & Hsave & _ & Hqa & _)
       |(Hval & pid & p' & db1 & Hsave & Hpk & Hqa & Hqm & _ & Hkeep & Hfresh
         & Hps & Hms & Hfs & His & Hseq)].
  { left. split; [exact Hinv|]. exists e, p'. rewrite Hsave.
    split; [exact He|]. split; [reflexivity | exact Hqa]. }
  right. split; [exact Hval|]. exists pid, p', db1. rewrite Hsave.
  split; [reflexivity|]. do 9 (split; [assumption|]).
  destruct (Movimentacao_save_casos (Movimentacao.com_produto p' m) (gravar db1 c) pid Hpk)
    as [(Hq & e & m' & He & Hsave2 & Hprod)
       |(Hq & mid & m' & db2 & Hsave2 & Hmpk & Hprod & Ht & Hqm' & Hmot & Hf & Hobs
         & Hnovo & Hmesmo & _ & Hms2 & Hps2 & Hfs2 & His2)].
  { left. split; [exact Hq|]. exists e, m'. rewrite Hsave2.
    split; [exact He|]. split; [reflexivity | exact Hprod]. }
  right. split; [exact Hq|]. exists mid, m', db2. rewrite Hsave2.
  simpl in *. rewrite Hms, Hseq in Hnovo. rewrite Hms in Hms2.
  repeat split; try assumption; try congruence.
  - apply Hnovo; assumption.
  - apply Hnovo; assumption.
  - apply Hnovo; assumption.
Qed.

(** The successful path, step by step: the product is written first, the
    movement second. *)
Lemma salvar_concluido (m : Movimentacao.t) (c : Conexao) (p : Produto.t) :
  Movimentacao.atualizar_produto m = inr p ->
  Produto_valido p ->
  armazenavel (Movimentacao.quantidade m) ->
  exists pid mid m' db1 db2,
    Movimentacao.salvar_e_atualizar_estoque m c
      = (Concluido, m', gravar db2 (gravar db1 c)) /\
    Produto.pk (Movimentacao.produto m') = Some pid /\
    Movimentacao.pk m' = Some mid /\
    Produto.quantidade_atual (Movimentacao.produto m') = Produto.quantidade_atual p /\
    Produto.quantidade_minima (Movimentacao.produto m') = Produto.quantidade_minima p /\
    Movimentacao.tipo m' = Movimentacao.tipo m /\
    Movimentacao.quantidade m' = Movimentacao.quantidade m /\
    Movimentacao.funcionario m' = Movimentacao.funcionario m /\
    (forall k, Produto.pk p = Some k -> pid = k) /\
    (Produto.pk p = None -> produtos (atual c) !! pid = None) /\
    produtos db1 = <[pid := Movimentacao.produto m']> (produtos (atual c)) /\
    movimentacoes db1 = movimentacoes (atual c) /\
    produtos db2 = produtos db1 /\
    movimentacoes db2 = <[mid := Movimentacao.linha pid m']> (movimentacoes (atual c)) /\
    (Movimentacao.pk m = None ->
       movimentacoes (atual c) !! mid = None /\
       Movimentacao.data_movimentacao m' = Some (relogio c)).
Proof.
  intros Hup Hval Hq.
  destruct (salvar_casos m c)
    as [(e & Hup' & _)
       |(p0 & Hup' &
         [(Hinv & _)
         |(_ & pid & p' & db1 & _ & Hpk & Hqa & Hqm & Hkeep & Hfresh & Hps1 & Hms1 & _ & _ &
           [(Hnq & _)
           |(_ & mid & m' & db2 & Hrun & Hmpk & Hprod & Ht & Hqm' & _ & Hf & _
             & Hnovo & _ & Hms2 & Hps2 & _)])])];
    try congruence; try contradiction.
  assert (p0 = p) as -> by congruence.
  exists pid, mid, m', db1, db2. rewrite Hprod.
  repeat split; try assumption.
  - apply Hnovo; assumption.
  - apply Hnovo; assumption.
Qed.

















(** C7. The low-stock predicate is true exactly when the current quantity
    is at most the minimum quantity; it is true at the boundary where the
    two are equal; and after a withdrawal of the whole stock of a product
    whose minimum is 10 the quantity is 0 and the predicate is true (the
    stock being a value the database stores, the withdrawal is
    recorded). *)
Theorem C7_low_stock_predicate (p : Produto.t) :
  (Produto.esta_com_estoque_baixo p = true <->
   Produto.quantidade_atual p <= Produto.quantidade_minima p) /\
  (Produto.quantidade_atual p = Produto.quantidade_minima p ->
   Produto.esta_com_estoque_baixo p = true) /\
  (forall (m : Movimentacao.t) (c : Conexao),
     Movimentacao.produto m = p ->
     Movimentacao.tipo m = "saida" ->
     Movimentacao.quantidade m = Produto.quantidade_atual p ->
     Produto.quantidade_minima p = 10 ->
     armazenavel (Produto.quantidade_atual p) ->
     exists m' c',
       Movimentacao.salvar_e_atualizar_estoque m c = (Concluido, m', c') /\
       Produto.quantidade_atual (Movimentacao.produto m') = 0 /\
       Produto.esta_com_estoque_baixo (Movimentacao.produto m') = true).
Proof.
  unfold Produto.esta_com_estoque_baixo. split; [apply Z.leb_le|]. split.
  - intros H. apply Z.leb_le. lia.
  - intros m c Hp Ht Hq Hmin Hat. subst p.
    assert (Movimentacao.atualizar_produto m
            = inr (Produto.com_quantidade_atual 0 (Movimentacao.produto m))) as Hup.
    { unfold Movimentacao.atualizar_produto. rewrite Ht, Hq, Z.sub_diag. simpl.
      destruct (Z.geb_spec (Produto.quantidade_atual (Movimentacao.produto m))
                           (Produto.quantidade_atual (Movimentacao.produto m)));
        [reflexivity | lia]. }
    assert (Produto_valido (Produto.com_quantidade_atual 0 (Movimentacao.produto m)))
      as Hval.
    { unfold Produto_valido, armazenavel, MAX_INTEIRO. simpl. rewrite Hmin. lia. }
    assert (armazenavel (Movimentacao.quantidade m)) as Hqv by (rewrite Hq; exact Hat).
    destruct (salvar_concluido m c _ Hup Hval Hqv)
      as (pid & mid & m' & db1 & db2 & Hrun & _ & _ & Hqa & Hqm & _).
    exists m', (gravar db2 (gravar db1 c)). split; [exact Hrun|].
    simpl in Hqa, Hqm. split; [exact Hqa|].
    apply Z.leb_le. rewrite Hqa, Hqm, Hmin. lia.
Qed.

Lemma C7_low_stock_predicate_witness :
  exists m' c',
    Movimentacao.salvar_e_atualizar_estoque
      (movimentacao_exemplo "saida" 45) conexao_exemplo = (Concluido, m', c') /\
    Produto.quantidade_atual (Movimentacao.produto m') = 0 /\
    Produto.esta_com_estoque_baixo (Movimentacao.produto m') = true.
Proof.
  apply (proj2 (proj2 (C7_low_stock_predicate produto_exemplo))
           (movimentacao_exemplo "saida" 45) conexao_exemplo);
    try reflexivity.
  unfold armazenavel, MAX_INTEIRO. simpl. lia.
Defined.

(** ** The quantity never becomes negative *)

Lemma atualizar_produto_nao_negativo (m : Movimentacao.t) (p : Produto.t) :
  0 <= Produto.quantidade_atual (Movimentacao.produto m) ->
  0 <= Movimentacao.quantidade m ->
  Movimentacao.atualizar_produto m = inr p ->
  0 <= Produto.quantidade_atual p.
Proof.
  intros Hp Hq. unfold Movimentacao.atualizar_produto.
  destruct (String.eqb (Movimentacao.tipo m) "entrada").
  { intros [= <-]. simpl. lia. }
  destruct (String.eqb (Movimentacao.tipo m) "saida").
  { destruct (Z.geb_spec (Produto.quantidade_atual (Movimentacao.produto m))
                         (Movimentacao.quantidade m)); [|discriminate].
    intros [= <-]. simpl. lia. }
  destruct (String.eqb (Movimentacao.tipo m) "ajuste");
    intros [= <-]; simpl; lia.
Qed.

(** However a call ends, the product object holds the quantity it had or
    the one the method computed, and the product table is as it was or
    has the row of that product object written. *)
Lemma salvar_produtos (m : Movimentacao.t) (c : Conexao) :
  (Movimentacao.produto (Movimentacao.salvar_e_atualizar_estoque m c).1.2
     = Movimentacao.produto m /\
   (Movimentacao.salvar_e_atualizar_estoque m c).2 = c) \/
  (exists p,
     Movimentacao.atualizar_produto m = inr p /\
     Produto.quantidade_atual
       (Movimentacao.produto (Movimentacao.salvar_e_atualizar_estoque m c).1.2)
       = Produto.quantidade_atual p /\
     ((Movimentacao.salvar_e_atualizar_estoque m c).2 = c \/
      exists pid,
        (forall k, Produto.pk (Movimentacao.produto m) = Some k -> pid = k) /\
        produtos (atual (Movimentacao.salvar_e_atualizar_estoque m c).2)
          = <[pid := Movimentacao.produto
                       (Movimentacao.salvar_e_atualizar_estoque m c).1.2]>
              (produtos (atual c)))).
Proof.
  destruct (salvar_casos m c)
    as [(e & Hup & Hrun)
       |(p & Hup &
         [(_ & e & p' & He & Hrun & Hqa)
         |(_ & pid & p' & db1 & _ & Hpk & Hqa & _ & Hkeep & _ & Hps1 & _ & _ & _ &
           [(_ & e & m' & He & Hrun & Hprod)
           |(_ & mid & m' & db2 & Hrun & _ & Hprod & _ & _ & _ & _ & _ & _ & _
             & _ & Hps2 & _)])])];
    rewrite Hrun; simpl.
  - left. split; reflexivity.
  - right. exists p. split; [exact Hup|]. split; [exact Hqa|]. left. reflexivity.
  - right. exists p. split; [exact Hup|]. rewrite Hprod. split; [exact Hqa|].
    right. exists pid. split; [|exact Hps1].
    intros k Hk. apply Hkeep. rewrite (atualizar_produto_inr m p Hup). exact Hk.
  - right. exists p. split; [exact Hup|]. rewrite Hprod. split; [exact Hqa|].
    right. exists pid. split; [|rewrite Hps2; exact Hps1].
    intros k Hk. apply Hkeep. rewrite (atualizar_produto_inr m p Hup). exact Hk.
Qed.

Lemma salvar_nao_negativo (m : Movimentacao.t) (c : Conexao) :
  0 <= Produto.quantidade_atual (Movimentacao.produto m) ->
  0 <= Movimentacao.quantidade m ->
  estoque_nao_negativo (atual c) ->
  0 <= Produto.quantidade_atual
         (Movimentacao.produto (Movimentacao.salvar_e_atualizar_estoque m c).1.2) /\
  estoque_nao_negativo (atual (Movimentacao.salvar_e_atualizar_estoque m c).2).
Proof.
  intros Hp Hq Hdb.
  destruct (salvar_produtos m c) as [[-> ->] | (p & Hup & Hqa & Hc)].
  { split; assumption. }
  pose proof (atualizar_produto_nao_negativo m p Hp Hq Hup) as Hp'.
  rewrite Hqa. split; [exact Hp'|].
  destruct Hc as [-> | (pid & _ & Hps)]; [exact Hdb|].
  intros k x. rewrite Hps, lookup_insert.
  destruct (decide (pid = k)).
  - intros [= <-]. rewrite Hqa. exact Hp'.
  - apply Hdb.
Qed.

(** C5. Starting from a product object and a store whose quantities are
    not negative, any list of movements with quantities that are not
    negative, of any kinds and applied one after the other whether each
    call returns or raises, leaves the quantity of the product object and
    every stored quantity not negative. *)
Theorem C5_quantity_never_negative (ms : list Movimentacao.t)
    (p : Produto.t) (c : Conexao) :
  0 <= Produto.quantidade_atual p ->
  Forall (fun m => 0 <= Movimentacao.quantidade m) ms ->
  estoque_nao_negativo (atual c) ->
  0 <= Produto.quantidade_atual (aplicar_todas ms (p, c)).1 /\
  estoque_nao_negativo (atual (aplicar_todas ms (p, c)).2).
Proof.
  intros Hp Hms. revert p c Hp.
  induction Hms as [|m ms Hm _ IH]; intros p c Hp Hdb.
  - simpl. split; assumption.
  - unfold aplicar_todas in *. simpl.
    pose proof (salvar_nao_negativo (Movimentacao.com_produto p m) c Hp Hm Hdb)
      as [Hp' Hdb'].
    assert (aplicar (p, c) m
            = (Movimentacao.produto
                 (Movimentacao.salvar_e_atualizar_estoque
                    (Movimentacao.com_produto p m) c).1.2,
               (Movimentacao.salvar_e_atualizar_estoque
                  (Movimentacao.com_produto p m) c).2)) as ->.
    { unfold aplicar. simpl.
      destruct (Movimentacao.salvar_e_atualizar_estoque
                  (Movimentacao.com_produto p m) c) as [[d m'] c'].
      reflexivity. }
    apply IH; assumption.
Qed.

Lemma estoque_nao_negativo_exemplo : estoque_nao_negativo db_exemplo.
Proof.
  intros k p H. unfold db_exemplo in H. simpl in H.
  apply lookup_singleton_Some in H. destruct H as [_ <-].
  simpl. lia.
Defined.

Lemma C5_quantity_never_negative_witness :
  0 <= Produto.quantidade_atual
         (aplicar_todas
            [movimentacao_exemplo "saida" 50; movimentacao_exemplo "saida" 45;
             movimentacao_exemplo "entrada" 5; movimentacao_exemplo "ajuste" 0]
            (produto_exemplo, conexao_exemplo)).1 /\
  estoque_nao_negativo
    (atual (aplicar_todas
              [movimentacao_exemplo "saida" 50; movimentacao_exemplo "saida" 45;
               movimentacao_exemplo "entrada" 5; movimentacao_exemplo "ajuste" 0]
              (produto_exemplo, conexao_exemplo)).2).
Proof.
  apply (C5_quantity_never_negative
           [movimentacao_exemplo "saida" 50; movimentacao_exemplo "saida" 45;
            movimentacao_exemplo "entrada" 5; movimentacao_exemplo "ajuste" 0]
           produto_exemplo conexao_exemplo).
  - simpl. lia.
  - repeat constructor; simpl; lia.
  - exact estoque_nao_negativo_exemplo.
Defined.

(** ** Order of the two writes *)

Lemma atualizar_produto_esperado (m : Movimentacao.t) (p : Produto.t) :
  Movimentacao.atualizar_produto m = inr p ->
  estoque_esperado m (Produto.quantidade_atual p).
Proof.
  unfold Movimentacao.atualizar_produto, estoque_esperado.
  destruct (String.eqb (Movimentacao.tipo m) "entrada") eqn:He.
  { apply String.eqb_eq in He. intros [= <-]. rewrite He. simpl.
    repeat split; try discriminate; try contradiction. }
  destruct (String.eqb (Movimentacao.tipo m) "saida") eqn:Hs.
  { apply String.eqb_eq in Hs.
    destruct (Z.geb_spec (Produto.quantidade_atual (Movimentacao.produto m))
                         (Movimentacao.quantidade m)); [|discriminate].
    intros [= <-]. rewrite Hs. simpl.
    repeat split; try discriminate; try contradiction; lia. }
  destruct (String.eqb (Movimentacao.tipo m) "ajuste") eqn:Ha.
  { apply String.eqb_eq in Ha. intros [= <-]. rewrite Ha. simpl.
    repeat split; try discriminate; try contradiction. }
  apply String.eqb_neq in He, Hs, Ha. intros [= <-].
  repeat split; try contradiction.
Qed.

(** C6. In a call that returns normally the product object ends with the
    quantity its kind asks for, and every state the call commits already
    holds the product row with that updated quantity, so none holds the
    movement row next to the product row as it was before.  In autocommit
    mode the call commits twice: first the updated product with the
    movement table as it was, then the movement as well.  Inside
    [transaction.atomic], as the views call it, the two rows are
    committed together, in one state. *)
Theorem C6_product_committed_first (m : Movimentacao.t) (c : Conexao)
    (m' : Movimentacao.t) (c' : Conexao) :
  (Movimentacao.salvar_e_atualizar_estoque m c = (Concluido, m', c') ->
   exists pid q' novos,
     estoque_esperado m q' /\
     Produto.pk (Movimentacao.produto m') = Some pid /\
     Produto.quantidade_atual (Movimentacao.produto m') = q' /\
     novos_confirmados c c' novos /\
     Forall (fun db => produtos db !! pid = Some (Movimentacao.produto m') /\
                       quantidade_em_estoque pid db = Some q') novos /\
     (em_transacao c = false ->
        exists db1, novos = [db1; atual c'] /\
                    movimentacoes db1 = movimentacoes (atual c)) /\
     (em_transacao c = true -> novos = []) /\
     persistidos m' (atual c') /\
     quantidade_em_estoque pid (atual c') = Some q') /\
  (em_transacao c = false ->
   atomic (Movimentacao.salvar_e_atualizar_estoque m) c = (Concluido, m', c') ->
   exists pid q',
     estoque_esperado m q' /\
     Produto.pk (Movimentacao.produto m') = Some pid /\
     novos_confirmados c c' [atual c'] /\
     persistidos m' (atual c') /\
     quantidade_em_estoque pid (atual c') = Some q').
Proof.
  assert (forall c0 m1 c1,
            Movimentacao.salvar_e_atualizar_estoque m c0 = (Concluido, m1, c1) ->
            exists p pid mid db1 db2,
              Movimentacao.atualizar_produto m = inr p /\
              c1 = gravar db2 (gravar db1 c0) /\
              Produto.pk (Movimentacao.produto m1) = Some pid /\
              Movimentacao.pk m1 = Some mid /\
              Produto.quantidade_atual (Movimentacao.produto m1)
                = Produto.quantidade_atual p /\
              produtos db1 = <[pid := Movimentacao.produto m1]> (produtos (atual c0)) /\
              movimentacoes db1 = movimentacoes (atual c0) /\
              produtos db2 = produtos db1 /\
              movimentacoes db2
                = <[mid := Movimentacao.linha pid m1]> (movimentacoes (atual c0)))
    as Hsucesso.
  { intros c0 m1 c1 Hrun.
    destruct (salvar_casos m c0)
      as [(e & Hup & Hrun')
         |(p & Hup &
           [(_ & e & p' & He & Hrun' & _)
           |(_ & pid & p' & db1 & _ & Hpk & Hqa & _ & _ & _ & Hps1 & Hms1 & _ & _ &
             [(_ & e & m2 & He & Hrun' & _)
             |(_ & mid & m2 & db2 & Hrun' & Hmpk & Hprod & _ & _ & _ & _ & _ & _ & _
               & Hms2 & Hps2 & _)])])];
      rewrite Hrun in Hrun'; try discriminate.
    injection Hrun' as -> ->.
    exists p, pid, mid, db1, db2. rewrite Hprod.
    repeat split; assumption. }
  split.
  - intros Hrun.
    destruct (Hsucesso c m' c' Hrun)
      as (p & pid & mid & db1 & db2 & Hup & -> & Hpk & Hmpk & Hqa & Hps1 & Hms1
          & Hps2 & Hms2).
    assert (produtos db1 !! pid = Some (Movimentacao.produto m')) as H1
      by (rewrite Hps1; apply lookup_insert_eq).
    assert (produtos db2 !! pid = Some (Movimentacao.produto m')) as H2
      by (rewrite Hps2; exact H1).
    assert (forall db, produtos db !! pid = Some (Movimentacao.produto m') ->
                       quantidade_em_estoque pid db
                       = Some (Produto.quantidade_atual p)) as Hq.
    { intros db Hdb. unfold quantidade_em_estoque. rewrite Hdb. simpl.
      by rewrite Hqa. }
    exists pid, (Produto.quantidade_atual p), (if em_transacao c then [] else [db1; db2]).
    split; [by apply atualizar_produto_esperado|].
    split; [exact Hpk|]. split; [exact Hqa|]. split.
    { unfold novos_confirmados, gravar; simpl.
      destruct (em_transacao c); [by rewrite app_nil_r | by rewrite <- app_assoc]. }
    split.
    { destruct (em_transacao c); repeat constructor; auto. }
    split.
    { intros ->. exists db1. split; [reflexivity | exact Hms1]. }
    split.
    { intros ->. reflexivity. }
    split; [|apply Hq; exact H2].
    exists pid, mid. simpl. repeat split; try assumption.
    rewrite Hms2. apply lookup_insert_eq.
  - intros Hauto Hrun. unfold atomic in Hrun. rewrite Hauto in Hrun.
    destruct (Movimentacao.salvar_e_atualizar_estoque m (abrir c))
      as [[d m1] c1] eqn:Hcorpo.
    destruct d; [|discriminate]. injection Hrun as <- <-.
    destruct (Hsucesso (abrir c) m1 c1 Hcorpo)
      as (p & pid & mid & db1 & db2 & Hup & -> & Hpk & Hmpk & Hqa & Hps1 & Hms1
          & Hps2 & Hms2).
    assert (produtos db2 !! pid = Some (Movimentacao.produto m1)) as H2
      by (rewrite Hps2, Hps1; apply lookup_insert_eq).
    exists pid, (Produto.quantidade_atual p).
    split; [by apply atualizar_produto_esperado|].
    split; [exact Hpk|]. split; [reflexivity|]. split.
    + exists pid, mid. simpl. repeat split; try assumption.
      rewrite Hms2. apply lookup_insert_eq.
    + unfold quantidade_em_estoque. simpl. rewrite H2. simpl. by rewrite Hqa.
Qed.

Lemma C6_product_committed_first_witness :
  (exists pid q' novos,
     estoque_esperado (movimentacao_exemplo "saida" 45) q' /\
     Produto.pk (Movimentacao.produto
                   (Movimentacao.salvar_e_atualizar_estoque
                      (movimentacao_exemplo "saida" 45) conexao_exemplo).1.2)
       = Some pid /\
     Produto.quantidade_atual
       (Movimentacao.produto
          (Movimentacao.salvar_e_atualizar_estoque
             (movimentacao_exemplo "saida" 45) conexao_exemplo).1.2) = q' /\
     novos_confirmados conexao_exemplo
       (Movimentacao.salvar_e_atualizar_estoque
          (movimentacao_exemplo "saida" 45) conexao_exemplo).2 novos /\
     Forall (fun db =>
               produtos db !! pid
               = Some (Movimentacao.produto
                         (Movimentacao.salvar_e_atualizar_estoque
                            (movimentacao_exemplo "saida" 45) conexao_exemplo).1.2) /\
               quantidade_em_estoque pid db = Some q') novos /\
     (em_transacao conexao_exemplo = false ->
        exists db1,
          novos = [db1; atual (Movimentacao.salvar_e_atualizar_estoque
                                 (movimentacao_exemplo "saida" 45)
                                 conexao_exemplo).2] /\
          movimentacoes db1 = movimentacoes (atual conexao_exemplo)) /\
     (em_transacao conexao_exemplo = true -> novos = []) /\
     persistidos
       (Movimentacao.salvar_e_atualizar_estoque
          (movimentacao_exemplo "saida" 45) conexao_exemplo).1.2
       (atual (Movimentacao.salvar_e_atualizar_estoque
                 (movimentacao_exemplo "saida" 45) conexao_exemplo).2) /\
     quantidade_em_estoque pid
       (atual (Movimentacao.salvar_e_atualizar_estoque
                 (movimentacao_exemplo "saida" 45) conexao_exemplo).2) = Some q') /\
  (exists pid q',
     estoque_esperado (movimentacao_exemplo "saida" 45) q' /\
     Produto.pk (Movimentacao.produto
                   (atomic (Movimentacao.salvar_e_atualizar_estoque
                              (movimentacao_exemplo "saida" 45)) conexao_exemplo).1.2)
       = Some pid /\
     novos_confirmados conexao_exemplo
       (atomic (Movimentacao.salvar_e_atualizar_estoque
                  (movimentacao_exemplo "saida" 45)) conexao_exemplo).2
       [atual (atomic (Movimentacao.salvar_e_atualizar_estoque
                         (movimentacao_exemplo "saida" 45)) conexao_exemplo).2] /\
     persistidos
       (atomic (Movimentacao.salvar_e_atualizar_estoque
                  (movimentacao_exemplo "saida" 45)) conexao_exemplo).1.2
       (atual (atomic (Movimentacao.salvar_e_atualizar_estoque
                         (movimentacao_exemplo "saida" 45)) conexao_exemplo).2) /\
     quantidade_em_estoque pid
       (atual (atomic (Movimentacao.salvar_e_atualizar_estoque
                         (movimentacao_exemplo "saida" 45)) conexao_exemplo).2)
       = Some q').
Proof.
  split.
  - apply (proj1 (C6_product_committed_first
                    (movimentacao_exemplo "saida" 45) conexao_exemplo
                    (Movimentacao.salvar_e_atualizar_estoque
                       (movimentacao_exemplo "saida" 45) conexao_exemplo).1.2
                    (Movimentacao.salvar_e_atualizar_estoque
                       (movimentacao_exemplo "saida" 45) conexao_exemplo).2)).
    vm_compute. reflexivity.
  - apply (proj2 (C6_product_committed_first
                    (movimentacao_exemplo "saida" 45) conexao_exemplo
                    (atomic (Movimentacao.salvar_e_atualizar_estoque
                               (movimentacao_exemplo "saida" 45)) conexao_exemplo).1.2
                    (atomic (Movimentacao.salvar_e_atualizar_estoque
                               (movimentacao_exemplo "saida" 45)) conexao_exemplo).2)).
    + reflexivity.
    + vm_compute. reflexivity.
Defined.

(** ** Existing movement rows *)

Lemma atomic_atual {X : Type} (corpo : Conexao -> desfecho * X * Conexao)
    (c : Conexao) :
  (atomic corpo c).2 = c \/
  (exists x c1, corpo (abrir c) = (Concluido, x, c1) /\
                (atomic corpo c).1 = (Concluido, x) /\
                atual (atomic corpo c).2 = atual c1).
Proof.
  unfold atomic. destruct (corpo (abrir c)) as [[d x] c1].
  destruct d; [|left; reflexivity].
  right. exists x, c1. split; [reflexivity|]. split; [reflexivity|].
  destruct (em_transacao c); reflexivity.
Qed.

(** A call on a newly built instance keeps every row the movement table
    had, and a row it adds carries the time of the call. *)
Lemma salvar_linhas (m : Movimentacao.t) (c : Conexao) :
  Movimentacao.pk m = None ->
  (forall mid l, movimentacoes (atual c) !! mid = Some l ->
                 movimentacoes (atual (Movimentacao.salvar_e_atualizar_estoque m c).2)
                   !! mid = Some l) /\
  (forall mid l', movimentacoes (atual c) !! mid = None ->
                  movimentacoes (atual (Movimentacao.salvar_e_atualizar_estoque m c).2)
                    !! mid = Some l' ->
                  Linha.data_movimentacao l' = Some (relogio c)).
Proof.
  intros Hnovo.
  destruct (salvar_casos m c)
    as [(e & Hup & Hrun)
       |(p & Hup &
         [(_ & e & p' & He & Hrun & _)
         |(_ & pid & p' & db1 & _ & _ & _ & _ & _ & _ & _ & Hms1 & _ & _ &
           [(_ & e & m' & He & Hrun & _)
           |(_ & mid0 & m' & db2 & Hrun & _ & _ & _ & _ & _ & _ & _ & Hfresh & _
             & Hms2 & _)])])];
    rewrite Hrun; simpl.
  - split; [auto | congruence].
  - split; [auto | congruence].
  - rewrite Hms1. split; [auto | congruence].
  - destruct (Hfresh Hnovo) as (_ & Hlivre & Hdata). rewrite Hms2. split.
    + intros mid l Hl. rewrite lookup_insert_ne; [exact Hl | congruence].
    + intros mid l' Hnone. rewrite lookup_insert.
      destruct (decide (mid0 = mid)); [|congruence].
      intros [= <-]. exact Hdata.
Qed.

Lemma atomic_salvar_linhas (m : Movimentacao.t) (c : Conexao) :
  Movimentacao.pk m = None ->
  (forall mid l, movimentacoes (atual c) !! mid = Some l ->
                 movimentacoes
                   (atual (atomic (Movimentacao.salvar_e_atualizar_estoque m) c).2)
                   !! mid = Some l) /\
  (forall mid l', movimentacoes (atual c) !! mid = None ->
                  movimentacoes
                    (atual (atomic (Movimentacao.salvar_e_atualizar_estoque m) c).2)
                    !! mid = Some l' ->
                  Linha.data_movimentacao l' = Some (relogio c)).
Proof.
  intros Hnovo.
  destruct (atomic_atual (Movimentacao.salvar_e_atualizar_estoque m) c)
    as [-> | (m' & c1 & Hrun & _ & ->)].
  { split; [auto | congruence]. }
  pose proof (salvar_linhas m (abrir c) Hnovo) as H.
  rewrite Hrun in H. exact H.
Qed.

Lemma anular_funcionario_casos (removido : positive -> bool) (l : Linha.t) :
  anular_funcionario removido l = l \/
  anular_funcionario removido l = Linha.com_funcionario_id None l.
Proof.
  unfold anular_funcionario.
  destruct (Linha.funcionario_id l); [destruct (removido _)|]; auto.
Qed.

Lemma entrada_com_produto_conexao (f : Formulario) (p : Produto.t) (c : Conexao) :
  (Views.entrada_com_produto f p c).2
  = (atomic (Movimentacao.salvar_e_atualizar_estoque
               (Views.nova_movimentacao p "entrada" f
                  (Views.Funcionario_first (atual c)))) c).2.
Proof.
  unfold Views.entrada_com_produto.
  destruct (atomic _ c) as [[d m'] c']. destruct d; reflexivity.
Qed.

Lemma saida_com_produto_conexao (f : Formulario) (p : Produto.t) (c : Conexao) :
  (Views.saida_com_produto f p c).2 = c \/
  ((Produto.quantidade_atual p <? f_quantidade f) = false /\
   (Views.saida_com_produto f p c).2
   = (atomic (Movimentacao.salvar_e_atualizar_estoque
                (Views.nova_movimentacao p "saida" f
                   (Views.Funcionario_first (atual c)))) c).2).
Proof.
  unfold Views.saida_com_produto.
  destruct (Produto.quantidade_atual p <? f_quantidade f); [left; reflexivity|].
  right. split; [reflexivity|].
  destruct (atomic _ c) as [[d m'] c']. destruct d; reflexivity.
Qed.

Lemma entrada_com_produto_linhas f p c mid l :
  movimentacoes (atual c) !! mid = Some l ->
  movimentacoes (atual (Views.entrada_com_produto f p c).2) !! mid = Some l.
Proof.
  rewrite entrada_com_produto_conexao. by apply atomic_salvar_linhas.
Qed.

Lemma saida_com_produto_linhas f p c mid l :
  movimentacoes (atual c) !! mid = Some l ->
  movimentacoes (atual (Views.saida_com_produto f p c).2) !! mid = Some l.
Proof.
  destruct (saida_com_produto_conexao f p c) as [-> | [_ ->]]; [auto|].
  by apply atomic_salvar_linhas.
Qed.

Lemma entrada_com_produto_novas f p c mid l' :
  movimentacoes (atual c) !! mid = None ->
  movimentacoes (atual (Views.entrada_com_produto f p c).2) !! mid = Some l' ->
  Linha.data_movimentacao l' = Some (relogio c).
Proof.
  rewrite entrada_com_produto_conexao. by apply atomic_salvar_linhas.
Qed.

Lemma saida_com_produto_novas f p c mid l' :
  movimentacoes (atual c) !! mid = None ->
  movimentacoes (atual (Views.saida_com_produto f p c).2) !! mid = Some l' ->
  Linha.data_movimentacao l' = Some (relogio c).
Proof.
  destruct (saida_com_produto_conexao f p c) as [-> | [_ ->]]; [congruence|].
  by apply atomic_salvar_linhas.
Qed.

Lemma Produto_save_linhas (p : Produto.t) (c : Conexao) :
  movimentacoes (atual (Produto_save p c).2) = movimentacoes (atual c).
Proof.
  destruct (Produto_save_casos p c)
    as [(_ & e & p' & _ & -> & _) | (_ & pid & p' & db' & -> & _ & _ & _ & _ & _ & _ & _ & Hms & _)].
  - reflexivity.
  - exact Hms.
Qed.

(** What a view makes of the outcome of [produto.save()]. *)
Lemma resposta_de_Produto_save (p : Produto.t) (c : Conexao) (nome : string) :
  (match Produto_save p c with
   | (Concluido, _, c') => (@inr excecao Resposta (Redirect nome), c')
   | (Levantou e, _, c') => (inl e, c')
   end).2 = (Produto_save p c).2.
Proof. destruct (Produto_save p c) as [[[|e] p'] c']; reflexivity. Qed.

Lemma deletar_produto_linhas (r : Pedido) (id : Z) (c : Conexao) :
  movimentacoes (atual (Views.deletar_produto r id c).2) = movimentacoes (atual c).
Proof.
  unfold Views.deletar_produto.
  destruct (autenticado r); [|reflexivity].
  destruct id as [|k|k]; try reflexivity.
  destruct (produtos (atual c) !! k); [|reflexivity].
  destruct (String.eqb (method r) "POST"); [|reflexivity].
  cbn [negb]. rewrite resposta_de_Produto_save. apply Produto_save_linhas.
Qed.

(** The rows of the movement table after [Movimentacao.save()]: every
    row under another key is as it was, and a row the save overwrites
    takes the creation time of the instance. *)
Lemma Movimentacao_save_linhas (m : Movimentacao.t) (c : Conexao)
    (mid : positive) (l : Linha.t) :
  movimentacoes (atual c) !! mid = Some l ->
  let depois := movimentacoes (atual (Movimentacao.save m c).2) in
  (Movimentacao.pk m <> Some mid -> depois !! mid = Some l) /\
  (Movimentacao.pk m = Some mid ->
   exists l', depois !! mid = Some l' /\
              (l' = l \/
               Linha.data_movimentacao l' = Movimentacao.data_movimentacao m)).
Proof.
  intros Hl.
  destruct (Produto.pk (Movimentacao.produto m)) as [pid|] eqn:Hpk.
  2:{ unfold Movimentacao.save. rewrite Hpk. simpl.
      split; [auto|]. intros _. exists l. auto. }
  destruct (Movimentacao_save_casos m c pid Hpk)
    as [(_ & e & m' & _ & -> & _)
       |(_ & k & m' & db' & -> & _ & _ & _ & _ & _ & _ & _ & Hnovo & Hmesmo & Hdata
         & Hms & _)]; simpl.
  { split; [auto|]. intros _. exists l. auto. }
  rewrite Hms. split.
  - intros Hne. rewrite lookup_insert_ne; [exact Hl|].
    intros ->. destruct (Movimentacao.pk m) as [k'|] eqn:Hk.
    + apply Hne. f_equal. symmetry. by apply Hmesmo.
    + destruct (Hnovo eq_refl) as (_ & Hlivre & _). congruence.
  - intros Hk. assert (k = mid) as -> by (by apply Hmesmo).
    rewrite lookup_insert_eq. eexists. split; [reflexivity|]. right.
    simpl. apply (Hdata mid Hk). by exists l.
Qed.

Lemma Admin_salvar_formulario_linhas (k : option positive) (data : option Z)
    (f : Admin.Campos) (c : Conexao) (mid : positive) (l : Linha.t) :
  movimentacoes (atual c) !! mid = Some l ->
  let depois := movimentacoes (atual (Admin.salvar_formulario k data f c)) in
  (k <> Some mid -> depois !! mid = Some l) /\
  (k = Some mid ->
   exists l', depois !! mid = Some l' /\
              (l' = l \/ Linha.data_movimentacao l' = data)).
Proof.
  intros Hl. unfold Admin.salvar_formulario.
  assert ((k <> Some mid -> movimentacoes (atual c) !! mid = Some l) /\
          (k = Some mid ->
           exists l', movimentacoes (atual c) !! mid = Some l' /\
                      (l' = l \/ Linha.data_movimentacao l' = data))) as Hc.
  { split; [auto|]. intros _. exists l. auto. }
  destruct (Admin.valido (atual c) f); [|exact Hc].
  destruct (produtos (atual c) !! Admin.produto f) as [p|]; [|exact Hc].
  destruct (atomic_atual
              (Movimentacao.save
                 (Admin.instancia k (Produto.com_pk (Admin.produto f) p) data f)) c)
    as [-> | (m' & c1 & Hrun & _ & Hat)]; [exact Hc|].
  cbv zeta. rewrite Hat.
  pose proof (Movimentacao_save_linhas
                (Admin.instancia k (Produto.com_pk (Admin.produto f) p) data f)
                (abrir c) mid l Hl) as H.
  rewrite Hrun in H. exact H.
Qed.

(** A row that is kept, kept but for its employee, or removed, keeps its
    creation time as long as it is there. *)
Lemma linha_mantida (mid : positive) (l : Linha.t)
    (tabela : gmap positive Linha.t) (P : Prop) :
  (tabela !! mid = Some l \/
   tabela !! mid = Some (Linha.com_funcionario_id None l) \/
   tabela !! mid = None) ->
  P ->
  (forall l', tabela !! mid = Some l' ->
              Linha.data_movimentacao l' = Linha.data_movimentacao l) /\ P.
Proof.
  intros [H | [H | H]] HP; (split; [|exact HP]); intros l' Hl';
    rewrite H in Hl'; try discriminate; injection Hl' as <-; reflexivity.
Qed.

(** C9 (amended).  The creation time of an existing movement row is
    fixed: no writing request of the system, through a view of the
    application or through the admin site, changes it.  A view that
    records a movement keeps every existing row as it is and stamps the
    row it adds with the time of the request; so does a view that saves
    an institution, an employee or a product.  Deleting an employee keeps
    every existing row, except that its reference to that employee
    becomes null ([on_delete=SET_NULL]); deleting an institution or a
    product may in addition remove rows ([on_delete=CASCADE]).  The
    change form of the admin site, the one update path, leaves every row
    but the one it edits as it is; so does
    [salvar_e_atualizar_estoque] on a new instance, which only adds a
    row. *)
Theorem C9_existing_rows_keep_their_data
    (strip : string -> string) (int : string -> option Z)
    (e : Escrita) (c : Conexao) (mid : positive) (l : Linha.t) :
  movimentacoes (atual c) !! mid = Some l ->
  let depois := movimentacoes (atual (escrever strip int e c)) in
  (forall m, Movimentacao.pk m = None ->
             movimentacoes (atual (Movimentacao.salvar_e_atualizar_estoque m c).2)
               !! mid = Some l) /\
  (forall l', depois !! mid = Some l' ->
              Linha.data_movimentacao l' = Linha.data_movimentacao l) /\
  match e with
  | PelaAplicacao (Views.ExcluirFuncionarios _ _)
  | PeloAdmin _ (Admin.ExcluirFuncionario _) =>
      depois !! mid = Some l \/
      depois !! mid = Some (Linha.com_funcionario_id None l)
  | PelaAplicacao (Views.ExcluirInstituicao _ _)
  | PeloAdmin _ (Admin.ExcluirInstituicao _) =>
      depois !! mid = Some l \/
      depois !! mid = Some (Linha.com_funcionario_id None l) \/
      depois !! mid = None
  | PelaAplicacao _ =>
      depois !! mid = Some l /\
      (forall k l', movimentacoes (atual c) !! k = None ->
                    depois !! k = Some l' ->
                    Linha.data_movimentacao l' = Some (relogio c))
  | PeloAdmin _ (Admin.AdicionarMovimentacao _) => depois !! mid = Some l
  | PeloAdmin _ (Admin.AlterarMovimentacao k _) => k <> mid -> depois !! mid = Some l
  | PeloAdmin _ (Admin.ExcluirMovimentacao k) =>
      depois !! mid = Some l \/ (k = mid /\ depois !! mid = None)
  | PeloAdmin _ (Admin.ExcluirProduto k) =>
      depois !! mid = Some l \/ (k = Linha.produto_id l /\ depois !! mid = None)
  end.
Proof.
  intros Hl depois.
  pose proof (linha_mantida mid l) as Hdata.
  split; [intros m Hm; by apply salvar_linhas|].
  subst depois.
  destruct e as [op | staff op]; cbv beta iota zeta delta [escrever].
  - destruct op as [r|r|r pk|r pk|r id|i|f|p];
      cbv beta iota zeta delta [Views.executar].
    + unfold Views.registrar_entrada.
      destruct (Views.ate_consulta _ _ _ r c) as [resposta|[f p]]; cbn [snd].
      * apply Hdata; [auto|]. split; [exact Hl | congruence].
      * apply Hdata; [left; by apply entrada_com_produto_linhas|].
        split; [by apply entrada_com_produto_linhas|].
        intros k l'. apply entrada_com_produto_novas.
    + unfold Views.registrar_saida.
      destruct (Views.ate_consulta _ _ _ r c) as [resposta|[f p]]; cbn [snd].
      * apply Hdata; [auto|]. split; [exact Hl | congruence].
      * apply Hdata; [left; by apply saida_com_produto_linhas|].
        split; [by apply saida_com_produto_linhas|].
        intros k l'. apply saida_com_produto_novas.
    + assert (movimentacoes (atual (Views.excluir_funcionarios r pk c).2) !! mid
                = Some l \/
              movimentacoes (atual (Views.excluir_funcionarios r pk c).2) !! mid
                = Some (Linha.com_funcionario_id None l)) as H.
      { unfold Views.excluir_funcionarios.
        destruct pk as [|k|k]; simpl; auto.
        destruct (funcionarios (atual c) !! k); simpl; auto.
        destruct (String.eqb (method r) "POST"); simpl; auto.
        rewrite lookup_fmap, Hl. simpl.
        destruct (anular_funcionario_casos (Pos.eqb k) l) as [-> | ->]; auto. }
      apply Hdata; [tauto | exact H].
    + assert (movimentacoes (atual (Views.excluir_instituicao r pk c).2) !! mid
                = Some l \/
              movimentacoes (atual (Views.excluir_instituicao r pk c).2) !! mid
                = Some (Linha.com_funcionario_id None l) \/
              movimentacoes (atual (Views.excluir_instituicao r pk c).2) !! mid
                = None) as H.
      { unfold Views.excluir_instituicao.
        destruct pk as [|k|k]; simpl; auto.
        destruct (instituicoes (atual c) !! k); simpl; auto.
        destruct (String.eqb (method r) "POST"); simpl; auto.
        rewrite lookup_fmap.
        destruct (filter _ (movimentacoes (atual c)) !! mid) as [l0|] eqn:Hf;
          simpl; auto.
        apply map_lookup_filter_Some in Hf. destruct Hf as [Hl0 _].
        assert (l0 = l) as -> by congruence.
        destruct (anular_funcionario_casos (funcionario_da_instituicao (atual c) k) l)
          as [-> | ->]; auto. }
      apply Hdata; [exact H | exact H].
    + rewrite deletar_produto_linhas.
      apply Hdata; [auto|]. split; [exact Hl | congruence].
    + apply Hdata.
      * left. unfold Instituicao_save.
        destruct (Instituicao.pk i) as [k|];
          [destruct (instituicoes (atual c) !! k)|]; exact Hl.
      * unfold Instituicao_save.
        destruct (Instituicao.pk i) as [k|];
          [destruct (instituicoes (atual c) !! k)|];
          (split; [exact Hl | simpl; congruence]).
    + apply Hdata.
      * left. unfold Funcionario_save.
        destruct (Funcionario.pk f) as [k|];
          [destruct (funcionarios (atual c) !! k)|]; exact Hl.
      * unfold Funcionario_save.
        destruct (Funcionario.pk f) as [k|];
          [destruct (funcionarios (atual c) !! k)|];
          (split; [exact Hl | simpl; congruence]).
    + rewrite resposta_de_Produto_save, Produto_save_linhas.
      apply Hdata; [auto|]. split; [exact Hl | congruence].
  - unfold Admin.executar. destruct staff; cbn [negb].
    2:{ destruct op; apply Hdata; auto. }
    destruct op as [f|k f|k|k|k|k].
    + destruct (Admin_salvar_formulario_linhas None None f c mid l Hl) as [H _].
      apply Hdata; [left|]; apply H; discriminate.
    + destruct (movimentacoes (atual c) !! k) as [l0|] eqn:Hk.
      2:{ apply Hdata; auto. }
      destruct (Admin_salvar_formulario_linhas
                  (Some k) (Linha.data_movimentacao l0) f c mid l Hl) as [H1 H2].
      split.
      * intros l' Hl'. destruct (decide (k = mid)) as [->|Hne].
        -- destruct (H2 eq_refl) as (l1 & Hl1 & [-> | Hd]); rewrite Hl1 in Hl';
             injection Hl' as <-; [reflexivity|].
           rewrite Hd. congruence.
        -- rewrite H1 in Hl' by congruence. injection Hl' as <-. reflexivity.
      * intros Hne. apply H1. congruence.
    + destruct (movimentacoes (atual c) !! k) as [l0|] eqn:Hk.
      2:{ apply Hdata; auto. }
      unfold Movimentacao_delete. simpl.
      destruct (decide (k = mid)) as [->|Hne].
      * rewrite lookup_delete_eq.
        split; [intros l'; discriminate | right; auto].
      * rewrite lookup_delete_ne by exact Hne. apply Hdata; auto.
    + destruct (produtos (atual c) !! k) as [p0|] eqn:Hk.
      2:{ apply Hdata; auto. }
      unfold Produto_delete. simpl.
      destruct (decide (k = Linha.produto_id l)) as [->|Hne].
      * rewrite map_lookup_filter_None_2;
          [split; [intros l'; discriminate | right; auto]|].
        right. intros l0 Hl0 Hp. simpl in Hp. apply Hp. congruence.
      * assert (filter (fun x : positive * Linha.t => Linha.produto_id x.2 <> k)
                       (movimentacoes (atual c)) !! mid = Some l) as ->.
        { apply map_lookup_filter_Some. split; [exact Hl|]. simpl. congruence. }
        split; [intros l' [= <-]; reflexivity | left; reflexivity].
    + assert (movimentacoes
                (atual match funcionarios (atual c) !! k with
                       | Some _ => Funcionario_delete k c
                       | None => c
                       end) !! mid = Some l \/
              movimentacoes
                (atual match funcionarios (atual c) !! k with
                       | Some _ => Funcionario_delete k c
                       | None => c
                       end) !! mid = Some (Linha.com_funcionario_id None l)) as H.
      { destruct (funcionarios (atual c) !! k); simpl; auto.
        rewrite lookup_fmap, Hl. simpl.
        destruct (anular_funcionario_casos (Pos.eqb k) l) as [-> | ->]; auto. }
      apply Hdata; [tauto | exact H].
    + assert (movimentacoes
                (atual match instituicoes (atual c) !! k with
                       | Some _ => Instituicao_delete k c
                       | None => c
                       end) !! mid = Some l \/
              movimentacoes
                (atual match instituicoes (atual c) !! k with
                       | Some _ => Instituicao_delete k c
                       | None => c
                       end) !! mid = Some (Linha.com_funcionario_id None l) \/
              movimentacoes
                (atual match instituicoes (atual c) !! k with
                       | Some _ => Instituicao_delete k c
                       | None => c
                       end) !! mid = None) as H.
      { destruct (instituicoes (atual c) !! k); simpl; auto.
        rewrite lookup_fmap.
        destruct (filter _ (movimentacoes (atual c)) !! mid) as [l0|] eqn:Hf;
          simpl; auto.
        apply map_lookup_filter_Some in Hf. destruct Hf as [Hl0 _].
        assert (l0 = l) as -> by congruence.
        destruct (anular_funcionario_casos (funcionario_da_instituicao (atual c) k) l)
          as [-> | ->]; auto. }
      apply Hdata; [exact H | exact H].
Qed.

(** C9, as stated, fails in three ways on the store with one employee
    and one recorded receipt.  The view that deletes employee 1 changes
    the existing movement row 1, whose reference to the employee becomes
    null.  The change form of the admin site, submitted for row 1, stores
    the quantity 1 where the row had 100.  And
    [salvar_e_atualizar_estoque], called on the instance read from row 1
    with its quantity set to 7, adds no row and overwrites row 1. *)
Lemma C9_counterexample :
  movimentacoes (atual conexao_com_funcionario) !! 1%positive = Some linha_exemplo /\
  movimentacoes
    (atual (escrever strip_ascii int_ascii (PelaAplicacao excluir_ana)
              conexao_com_funcionario)) !! 1%positive
    = Some (Linha.Build 1%positive "entrada" 100 "Compra" None (Some 0) EmptyString) /\
  movimentacoes
    (atual (escrever strip_ascii int_ascii
              (PeloAdmin true (Admin.AlterarMovimentacao 1 campos_alterados))
              conexao_com_funcionario)) !! 1%positive
    = Some (Linha.Build 1%positive "entrada" 1 "Compra" (Some 1%positive) (Some 0)
                        EmptyString) /\
  movimentacoes
    (atual (Movimentacao.salvar_e_atualizar_estoque
              movimentacao_relida conexao_com_funcionario).2)
    = {[1%positive :=
          Linha.Build 1%positive "entrada" 7 "Compra" (Some 1%positive) (Some 0)
                      EmptyString]} /\
  ~ (forall (e : Escrita) (c : Conexao) (mid : positive) (l : Linha.t),
       movimentacoes (atual c) !! mid = Some l ->
       movimentacoes (atual (escrever strip_ascii int_ascii e c)) !! mid = Some l).
Proof.
  split; [reflexivity|]. split; [vm_compute; reflexivity|].
  split; [vm_compute; reflexivity|]. split; [vm_compute; reflexivity|].
  intros H.
  specialize (H (PelaAplicacao excluir_ana) conexao_com_funcionario
                1%positive linha_exemplo eq_refl).
  vm_compute in H. discriminate H.
Qed.

Lemma C9_existing_rows_keep_their_data_witness :
  (forall m, Movimentacao.pk m = None ->
             movimentacoes
               (atual (Movimentacao.salvar_e_atualizar_estoque m
                         conexao_com_funcionario).2) !! 1%positive
             = Some linha_exemplo) /\
  (forall l',
     movimentacoes
       (atual (escrever strip_ascii int_ascii
                 (PeloAdmin true (Admin.AlterarMovimentacao 1 campos_alterados))
                 conexao_com_funcionario)) !! 1%positive = Some l' ->
     Linha.data_movimentacao l' = Linha.data_movimentacao linha_exemplo) /\
  (1%positive <> 1%positive ->
   movimentacoes
     (atual (escrever strip_ascii int_ascii
               (PeloAdmin true (Admin.AlterarMovimentacao 1 campos_alterados))
               conexao_com_funcionario)) !! 1%positive = Some linha_exemplo).
Proof.
  apply (C9_existing_rows_keep_their_data strip_ascii int_ascii
           (PeloAdmin true (Admin.AlterarMovimentacao 1 campos_alterados))
           conexao_com_funcionario 1%positive linha_exemplo).
  reflexivity.
Defined.

(** ** Withdrawals served at the same time *)

Lemma salvar_saida_nao_negativo (m : Movimentacao.t) (c : Conexao) :
  Movimentacao.tipo m = "saida" ->
  estoque_nao_negativo (atual c) ->
  estoque_nao_negativo (atual (Movimentacao.salvar_e_atualizar_estoque m c).2).
Proof.
  intros Ht Hdb.
  destruct (salvar_produtos m c) as [[_ ->] | (p & Hup & Hqa & Hc)]; [exact Hdb|].
  assert (0 <= Produto.quantidade_atual p) as Hp.
  { revert Hup. unfold Movimentacao.atualizar_produto. rewrite Ht. simpl.
    destruct (Z.geb_spec (Produto.quantidade_atual (Movimentacao.produto m))
                         (Movimentacao.quantidade m)); [|discriminate].
    intros [= <-]. simpl. lia. }
  destruct Hc as [-> | (pid & _ & Hps)]; [exact Hdb|].
  intros k x. rewrite Hps, lookup_insert.
  destruct (decide (pid = k)); [intros [= <-]; lia | apply Hdb].
Qed.

Lemma saida_com_produto_nao_negativo (f : Formulario) (p : Produto.t) (c : Conexao) :
  estoque_nao_negativo (atual c) ->
  estoque_nao_negativo (atual (Views.saida_com_produto f p c).2).
Proof.
  intros Hdb.
  destruct (saida_com_produto_conexao f p c) as [-> | [_ ->]]; [exact Hdb|].
  destruct (atomic_atual
              (Movimentacao.salvar_e_atualizar_estoque
                 (Views.nova_movimentacao p "saida" f
                    (Views.Funcionario_first (atual c)))) c)
    as [-> | (m' & c1 & Hrun & _ & ->)]; [exact Hdb|].
  pose proof (salvar_saida_nao_negativo
                (Views.nova_movimentacao p "saida" f (Views.Funcionario_first (atual c)))
                (abrir c) eq_refl Hdb) as H.
  rewrite Hrun in H. exact H.
Qed.

(** X8. Whatever the schedule of the steps of any number of withdrawal
    requests, and whatever the requests, a store whose quantities are not
    negative stays so. *)
Lemma concorrencia_nao_negativo (strip : string -> string)
    (int : string -> option Z) (agenda : list nat) (s : Concorrencia.Sistema) :
  estoque_nao_negativo (atual (Concorrencia.conexao s)) ->
  estoque_nao_negativo
    (atual (Concorrencia.conexao (Concorrencia.executar strip int agenda s))).
Proof.
  revert s. induction agenda as [|i agenda IH]; intros s Hdb; [exact Hdb|].
  unfold Concorrencia.executar in *. simpl. apply IH.
  unfold Concorrencia.avancar.
  destruct (Concorrencia.pedidos s !! i) as [fase|]; [|exact Hdb].
  destruct fase as [r|f p|resposta]; simpl.
  - destruct (Views.ate_consulta _ _ _ r _) as [resposta|[f p]]; exact Hdb.
  - pose proof (saida_com_produto_nao_negativo f p _ Hdb) as H.
    destruct (Views.saida_com_produto f p _) as [resposta c']. exact H.
  - exact Hdb.
Qed.

(** C8 (evaluation at the failing schedule).  Two withdrawals of 8 units
    against a stock of 10, each reading the product before the other's
    transaction: both are accepted, the movement table records 16 units
    withdrawn from a stock of 10, and the stored quantity ends at 2.
    Served one after the other, the second request is refused and 8 units
    are withdrawn. *)
Theorem C8_interleaved_withdrawals_both_accepted :
  quantidade_em_estoque 1 (atual (Concorrencia.conexao dois_pedidos)) = Some 10 /\
  (let s := Concorrencia.executar strip_ascii int_ascii agenda_intercalada dois_pedidos in
   Concorrencia.pedidos s
     = [Concorrencia.Fim (inr (Redirect "lista_movimentacoes"));
        Concorrencia.Fim (inr (Redirect "lista_movimentacoes"))] /\
   total_retirado 1 (atual (Concorrencia.conexao s)) = 16 /\
   quantidade_em_estoque 1 (atual (Concorrencia.conexao s)) = Some 2) /\
  (let s := Concorrencia.executar strip_ascii int_ascii agenda_em_serie dois_pedidos in
   (exists erros val,
      Concorrencia.pedidos s
        = [Concorrencia.Fim (inr (Redirect "lista_movimentacoes"));
           Concorrencia.Fim (inr (Render "movimentacao/saida.html" erros val))] /\
      erros !! "quantidade" = Some "Estoque insuficiente. Disponível: 2") /\
   total_retirado 1 (atual (Concorrencia.conexao s)) = 8 /\
   quantidade_em_estoque 1 (atual (Concorrencia.conexao s)) = Some 2).
Proof.
  split; [reflexivity|]. split.
  - vm_compute. repeat split.
  - split; [|vm_compute; repeat split].
    eexists _, _. split; [vm_compute; reflexivity|]. vm_compute. reflexivity.
Qed.

(** ** The withdrawal view, one request at a time *)

(** With less in stock than requested, the view answers with the form
    again, the message under ['quantidade'] and the submitted values, and
    writes nothing. *)
Lemma saida_com_produto_insuficiente (f : Formulario) (p : Produto.t) (c : Conexao) :
  Produto.quantidade_atual p < f_quantidade f ->
  Views.saida_com_produto f p c
  = (inr (Render "movimentacao/saida.html"
            (<["quantidade" :=
                 "Estoque insuficiente. Disponível: " +:+
                   pretty (Produto.quantidade_atual p)]> (f_erros f))
            (f_val f)), c).
Proof.
  intros H. unfold Views.saida_com_produto.
  destruct (Z.ltb_spec (Produto.quantidade_atual p) (f_quantidade f));
    [reflexivity | lia].
Qed.

Lemma total_retirado_insert (pid mid : positive) (l : Linha.t) (db db' : DB) :
  movimentacoes db !! mid = None ->
  movimentacoes db' = <[mid := l]> (movimentacoes db) ->
  total_retirado pid db'
  = total_retirado pid db
    + (if String.eqb (Linha.tipo l) "saida" && Pos.eqb (Linha.produto_id l) pid
       then Linha.quantidade l else 0).
Proof.
  intros Hnone Hms. unfold total_retirado. rewrite Hms.
  rewrite map_fold_insert_L; [|
    intros j1 j2 z1 z2 y _ _ _;
      destruct (_ && _); destruct (_ && _); lia | exact Hnone].
  destruct (_ && _); lia.
Qed.

Lemma Produto_get_inr (int : string -> option Z) (db : DB) (texto : string)
    (p : Produto.t) :
  Views.Produto_get int db texto = inr p ->
  exists k row, produtos db !! k = Some row /\ p = Produto.com_pk k row.
Proof.
  unfold Views.Produto_get.
  destruct (int texto) as [[|k|k]|]; try discriminate.
  destruct (produtos db !! k) as [row|] eqn:Hrow; [|discriminate].
  intros [= <-]. eauto.
Qed.

Lemma ate_consulta_inr (strip : string -> string) (int : string -> option Z)
    (template : string) (r : Pedido) (c : Conexao) (f : Formulario) (p : Produto.t) :
  Views.ate_consulta strip int template r c = inr (f, p) ->
  exists k row, produtos (atual c) !! k = Some row /\ p = Produto.com_pk k row.
Proof.
  unfold Views.ate_consulta.
  destruct (negb (autenticado r)); [discriminate|].
  destruct (String.eqb (method r) "POST"); [|discriminate].
  destruct (bool_decide _); [|discriminate].
  destruct (Views.Produto_get int (atual c) _) as [[]|p0] eqn:Hget; try discriminate.
  intros [= _ <-]. exact (Produto_get_inr int _ _ _ Hget).
Qed.

(** A call that returns normally wrote values the database stores. *)
Lemma salvar_concluido_inv (m : Movimentacao.t) (c : Conexao)
    (m' : Movimentacao.t) (c' : Conexao) :
  Movimentacao.salvar_e_atualizar_estoque m c = (Concluido, m', c') ->
  exists p,
    Movimentacao.atualizar_produto m = inr p /\
    Produto_valido p /\
    armazenavel (Movimentacao.quantidade m).
Proof.
  intros Hrun.
  destruct (salvar_casos m c)
    as [(e & Hup & Hrun')
       |(p & Hup &
         [(_ & e & p' & He & Hrun' & _)
         |(Hval & pid & p' & db1 & _ & _ & _ & _ & _ & _ & _ & _ & _ & _ &
           [(_ & e & m2 & He & Hrun' & _)
           |(Hq & mid & m2 & db2 & Hrun' & _)])])];
    rewrite Hrun in Hrun'; try discriminate.
  exists p. auto.
Qed.

(** Served on its own, a withdrawal request on a product it has just read
    keeps the sum of the stored quantity and of the units recorded as
    withdrawn, for every product. *)
Lemma saida_com_produto_conserva (pid k : positive) (row : Produto.t)
    (f : Formulario) (c : Conexao) (q0 : Z) :
  produtos (atual c) !! k = Some row ->
  quantidade_em_estoque pid (atual c) = Some q0 ->
  exists q1,
    quantidade_em_estoque pid
      (atual (Views.saida_com_produto f (Produto.com_pk k row) c).2) = Some q1 /\
    q1 + total_retirado pid
           (atual (Views.saida_com_produto f (Produto.com_pk k row) c).2)
    = q0 + total_retirado pid (atual c).
Proof.
  intros Hrow Hq0.
  destruct (saida_com_produto_conexao f (Produto.com_pk k row) c)
    as [-> | [Hge ->]].
  { exists q0. split; [exact Hq0 | reflexivity]. }
  apply Z.ltb_ge in Hge.
  set (m := Views.nova_movimentacao (Produto.com_pk k row) "saida" f
              (Views.Funcionario_first (atual c))).
  destruct (atomic_atual (Movimentacao.salvar_e_atualizar_estoque m) c)
    as [-> | (m' & c1 & Hrun & _ & ->)].
  { exists q0. split; [exact Hq0 | reflexivity]. }
  assert (Movimentacao.atualizar_produto m
          = inr (Produto.com_quantidade_atual
                   (Produto.quantidade_atual row - f_quantidade f)
                   (Produto.com_pk k row))) as Hup.
  { unfold Movimentacao.atualizar_produto, m. simpl in *.
    destruct (Z.geb_spec (Produto.quantidade_atual row) (f_quantidade f));
      [reflexivity | lia]. }
  destruct (salvar_concluido_inv m (abrir c) m' c1 Hrun) as (p0 & Hup0 & Hval & Hqv).
  assert (p0 = Produto.com_quantidade_atual
                 (Produto.quantidade_atual row - f_quantidade f)
                 (Produto.com_pk k row)) as -> by congruence.
  destruct (salvar_concluido m (abrir c) _ Hup Hval Hqv)
    as (pid0 & mid & m1 & db1 & db2 & Hrun1 & _ & _ & Hqa & _ & Ht & Hqm & _ & Hkey
        & _ & Hps1 & _ & Hps2 & Hms2 & Hnovo).
  rewrite Hrun in Hrun1. injection Hrun1 as -> ->.
  destruct (Hnovo eq_refl) as [Hlivre _].
  assert (pid0 = k) as -> by (apply Hkey; reflexivity).
  simpl atual.
  rewrite (total_retirado_insert pid mid (Movimentacao.linha k m1) (atual c) db2
             Hlivre Hms2).
  unfold quantidade_em_estoque in *. rewrite Hps2, Hps1. simpl in *.
  rewrite Ht, Hqm. simpl.
  rewrite lookup_insert. destruct (decide (k = pid)) as [->|Hne].
  - rewrite Hrow in Hq0. injection Hq0 as <-. rewrite Pos.eqb_refl.
    eexists. split; [reflexivity|]. rewrite Hqa. lia.
  - apply Pos.eqb_neq in Hne. rewrite Hne. exists q0. split; [exact Hq0 | lia].
Qed.

(** X7. Served on its own, a request to [registrar_saida] keeps, for
    every stored product, the sum of the stored quantity and of the units
    that the movement table records as withdrawn from it: what leaves the
    stock is what the new row records. *)
Lemma registrar_saida_conserva (strip : string -> string)
    (int : string -> option Z) (r : Pedido) (c : Conexao) (pid : positive) (q0 : Z) :
  quantidade_em_estoque pid (atual c) = Some q0 ->
  exists q1,
    quantidade_em_estoque pid (atual (Views.registrar_saida strip int r c).2)
      = Some q1 /\
    q1 + total_retirado pid (atual (Views.registrar_saida strip int r c).2)
    = q0 + total_retirado pid (atual c).
Proof.
  intros Hq0. unfold Views.registrar_saida.
  destruct (Views.ate_consulta strip int _ r c) as [resposta|[f p]] eqn:Hate.
  - exists q0. split; [exact Hq0 | reflexivity].
  - destruct (ate_consulta_inr _ _ _ _ _ _ _ Hate) as (k & row & Hrow & ->).
    exact (saida_com_produto_conserva pid k row f c q0 Hrow Hq0).
Qed.

(** ** The example of the specification, evaluated

    A product with 45 units and a minimum of 10: a withdrawal of 50 is
    refused and leaves everything as it was; a withdrawal of 45 is accepted
    by the view and leaves 0 units, which is low stock. *)

Example retirada_de_50_recusada :
  Movimentacao.salvar_e_atualizar_estoque
    (movimentacao_exemplo "saida" 50) conexao_exemplo
  = (Levantou (ValueError (Texto "Quantidade insuficiente em estoque")),
     movimentacao_exemplo "saida" 50, conexao_exemplo).
Proof. reflexivity. Qed.

Example pedido_de_50_reapresentado :
  exists erros val,
    Views.registrar_saida strip_ascii int_ascii
      (pedido_post [("produto", "1"); ("quantidade", "50"); ("motivo", "uso")])
      conexao_exemplo
    = (inr (Render "movimentacao/saida.html" erros val), conexao_exemplo) /\
    erros !! "quantidade" = Some "Estoque insuficiente. Disponível: 45" /\
    val !! "quantidade" = Some "50".
Proof. eexists _, _. split; [vm_compute; reflexivity|]. split; vm_compute; reflexivity. Qed.

Example pedido_de_45_aceito :
  let r := Views.registrar_saida strip_ascii int_ascii
             (pedido_post [("produto", " 1 "); ("quantidade", "45"); ("motivo", "uso")])
             conexao_exemplo in
  r.1 = inr (Redirect "lista_movimentacoes") /\
  quantidade_em_estoque 1 (atual r.2) = Some 0 /\
  (Produto.esta_com_estoque_baixo <$> produtos (atual r.2) !! 1%positive) = Some true /\
  movimentacoes (atual r.2) !! 1%positive
  = Some (Linha.Build 1 "saida" 45 "uso" None (Some 100) EmptyString) /\
  confirmados r.2 = [db_exemplo; atual r.2].
Proof. vm_compute. repeat split. Qed.

(** * Further properties of the views *)

(** ** Validation of the movement form *)

(** X1. The movement form is accepted (no error is recorded) exactly when
    the product field and the reason are not empty after stripping and the
    quantity reads as an integer greater than zero; the accepted quantity
    is that integer. *)
Theorem X1_form_accepted_iff (strip : string -> string)
    (int : string -> option Z) (r : Pedido) :
  f_erros (Views.validar strip int r) = ∅ <->
  f_produto_id (Views.validar strip int r) <> EmptyString /\
  f_motivo (Views.validar strip int r) <> EmptyString /\
  int (strip (Views.POST_get r "quantidade" "0"))
    = Some (f_quantidade (Views.validar strip int r)) /\
  0 < f_quantidade (Views.validar strip int r).
Proof.
  unfold Views.validar.
  destruct (String.eqb_spec (strip (Views.POST_get r "produto" EmptyString)) EmptyString)
    as [Hp|Hp];
  destruct (int (strip (Views.POST_get r "quantidade" "0"))) as [q|] eqn:Hq;
  try destruct (Z.leb_spec q 0) as [Hle|Hgt];
  destruct (String.eqb_spec (strip (Views.POST_get r "motivo" EmptyString)) EmptyString)
    as [Hm|Hm];
  cbn [f_erros f_produto_id f_motivo f_quantidade];
  (split;
   [ intros He;
     first [ exfalso; exact (insert_non_empty _ _ _ He)
           | exfalso; exact (map_non_empty_singleton _ _ He)
           | repeat split; (assumption || lia || reflexivity) ]
   | intros (H1 & H2 & H3 & H4);
     first [ reflexivity | contradiction | discriminate | exfalso; lia ] ]).
Qed.

(** An accepted form carries a quantity greater than zero. *)
Lemma validar_quantidade_positiva (strip : string -> string)
    (int : string -> option Z) (r : Pedido) :
  f_erros (Views.validar strip int r) = ∅ ->
  0 < f_quantidade (Views.validar strip int r).
Proof.
  unfold Views.validar.
  destruct (String.eqb (strip (Views.POST_get r "produto" EmptyString)) EmptyString);
  destruct (int (strip (Views.POST_get r "quantidade" "0"))) as [q|];
  try destruct (Z.leb_spec q 0) as [Hle|Hgt];
  destruct (String.eqb (strip (Views.POST_get r "motivo" EmptyString)) EmptyString);
  cbn [f_erros f_quantidade]; intros He;
  first [ exfalso; exact (insert_non_empty _ _ _ He)
        | exfalso; exact (map_non_empty_singleton _ _ He)
        | lia ].
Qed.

(** ** The movement views, one request at a time *)

(** [save()] of a product that is stored under its key and holds values
    the database stores, written out. *)
Lemma Produto_save_update (p row : Produto.t) (k : positive) (c : Conexao) :
  Produto_valido p ->
  Produto.pk p = Some k ->
  produtos (atual c) !! k = Some row ->
  Produto_save p c
  = (Concluido, Produto.com_data_atualizacao (relogio c) p,
     gravar (com_produtos
               (<[k := Produto.com_data_atualizacao (relogio c) p]>
                  (produtos (atual c)))
               (atual c)) c).
Proof.
  intros [Hm Ha] Hpk Hrow.
  unfold Produto_save, Produto_positivos, check_positivos.
  rewrite Hpk, (cabe_armazenavel _ Hm), (cabe_armazenavel _ Ha), Hrow. simpl.
  destruct (Z.ltb_spec (Produto.quantidade_minima p) 0);
    [unfold armazenavel in Hm; lia|].
  destruct (Z.ltb_spec (Produto.quantidade_atual p) 0);
    [unfold armazenavel in Ha; lia|].
  reflexivity.
Qed.

(** [save()] of a new movement with a quantity the database stores,
    written out. *)
Lemma Movimentacao_save_insert (m : Movimentacao.t) (pid : positive) (c : Conexao) :
  Produto.pk (Movimentacao.produto m) = Some pid ->
  Movimentacao.pk m = None ->
  armazenavel (Movimentacao.quantidade m) ->
  let k := novo_id (seq_movimentacoes (sequencias (atual c)))
                   (movimentacoes (atual c)) in
  let m' := Movimentacao.com_pk k (Movimentacao.com_data_movimentacao (relogio c) m) in
  Movimentacao.save m c
  = (Concluido, m',
     gravar (inserir_movimentacao k (Movimentacao.linha pid m') (atual c)) c).
Proof.
  intros Hpk Hm Hq. unfold Movimentacao.save, check_positivos.
  rewrite Hpk, Hm, (cabe_armazenavel _ Hq). simpl.
  destruct (Z.ltb_spec (Movimentacao.quantidade m) 0);
    [unfold armazenavel in Hq; lia|].
  reflexivity.
Qed.

(** The successful call on a newly built instance whose product is
    stored under [k], written out in full. *)
Lemma salvar_novo (m : Movimentacao.t) (c : Conexao) (p row : Produto.t)
    (k : positive) :
  Movimentacao.atualizar_produto m = inr p ->
  Produto.pk p = Some k ->
  produtos (atual c) !! k = Some row ->
  Movimentacao.pk m = None ->
  Produto_valido p ->
  armazenavel (Movimentacao.quantidade m) ->
  let mid := novo_id (seq_movimentacoes (sequencias (atual c)))
                     (movimentacoes (atual c)) in
  let db1 :=
    com_produtos
      (<[k := Produto.com_data_atualizacao (relogio c) p]> (produtos (atual c)))
      (atual c) in
  Movimentacao.salvar_e_atualizar_estoque m c
  = (Concluido,
     Movimentacao.Build
       (Some mid)
       (Produto.com_data_atualizacao (relogio c) p)
       (Movimentacao.tipo m) (Movimentacao.quantidade m) (Movimentacao.motivo m)
       (Movimentacao.funcionario m) (Some (relogio c)) (Movimentacao.observacoes m),
     gravar
       (inserir_movimentacao mid
          (Linha.Build k (Movimentacao.tipo m) (Movimentacao.quantidade m)
             (Movimentacao.motivo m) (Movimentacao.funcionario m)
             (Some (relogio c)) (Movimentacao.observacoes m))
          db1)
       (gravar db1 c)).
Proof.
  intros Hup Hpk Hrow Hm Hval Hq.
  unfold Movimentacao.salvar_e_atualizar_estoque. rewrite Hup.
  rewrite (Produto_save_update p row k c Hval Hpk Hrow).
  rewrite (Movimentacao_save_insert
             (Movimentacao.com_produto (Produto.com_data_atualizacao (relogio c) p) m)
             k);
    [reflexivity | exact Hpk | exact Hm | exact Hq].
Qed.

Lemma movimento_atomico (k : positive) (row : Produto.t) (tipo : string)
    (q' : Z) (f : Formulario) (c : Conexao) :
  produtos (atual c) !! k = Some row ->
  em_transacao c = false ->
  Movimentacao.atualizar_produto
    (Views.nova_movimentacao (Produto.com_pk k row) tipo f
       (Views.Funcionario_first (atual c)))
  = inr (Produto.com_quantidade_atual q' (Produto.com_pk k row)) ->
  armazenavel (Produto.quantidade_minima row) ->
  armazenavel q' ->
  armazenavel (f_quantidade f) ->
  exists m',
    atomic (Movimentacao.salvar_e_atualizar_estoque
              (Views.nova_movimentacao (Produto.com_pk k row) tipo f
                 (Views.Funcionario_first (atual c)))) c
    = (Concluido, m',
       BuildConexao (apos_movimento k row tipo q' f c)
                    (confirmados c ++ [apos_movimento k row tipo q' f c])
                    false (relogio c)).
Proof.
  intros Hrow Hauto Hup Hmin Hq' Hq. unfold atomic.
  rewrite (salvar_novo _ (abrir c) _ row k Hup eq_refl Hrow eq_refl);
    [|split; assumption | exact Hq].
  rewrite Hauto. eexists. reflexivity.
Qed.

Lemma ate_consulta_aceito (strip : string -> string) (int : string -> option Z)
    (template : string) (r : Pedido) (c : Conexao) (k : positive) (row : Produto.t) :
  autenticado r = true ->
  method r = "POST" ->
  f_erros (Views.validar strip int r) = ∅ ->
  int (f_produto_id (Views.validar strip int r)) = Some (Zpos k) ->
  produtos (atual c) !! k = Some row ->
  Views.ate_consulta strip int template r c
  = inr (Views.validar strip int r, Produto.com_pk k row).
Proof.
  intros Haut Hpost Herros Hint Hrow. unfold Views.ate_consulta.
  rewrite Haut, Hpost. cbn [negb String.eqb Ascii.eqb Bool.eqb andb].
  rewrite (bool_decide_eq_true_2 _ Herros).
  unfold Views.Produto_get. rewrite Hint, Hrow. reflexivity.
Qed.

(** X2. An authenticated POST to [registrar_entrada] with an accepted form
    whose product key names a stored product, when the stock after the
    receipt is a value the database stores, is answered by a redirect to
    the list of movements.  The store then holds that product with its
    quantity raised by exactly the submitted quantity, every other product
    as before, and one more movement row, under a key that was free: kind
    ['entrada'], the submitted quantity, reason and notes, the first
    employee as author, the time of the request.  Both writes are committed
    together, as one state. *)
Theorem X2_receipt_request_recorded (strip : string -> string)
    (int : string -> option Z) (r : Pedido) (c : Conexao)
    (k : positive) (row : Produto.t) :
  autenticado r = true ->
  method r = "POST" ->
  f_erros (Views.validar strip int r) = ∅ ->
  int (f_produto_id (Views.validar strip int r)) = Some (Zpos k) ->
  produtos (atual c) !! k = Some row ->
  Produto_valido row ->
  Produto.quantidade_atual row + f_quantidade (Views.validar strip int r)
    <= MAX_INTEIRO ->
  em_transacao c = false ->
  let f := Views.validar strip int r in
  let db' :=
    apos_movimento k row "entrada"
      (Produto.quantidade_atual row + f_quantidade f) f c in
  Views.registrar_entrada strip int r c
  = (inr (Redirect "lista_movimentacoes"),
     BuildConexao db' (confirmados c ++ [db']) false (relogio c)) /\
  movimentacoes (atual c)
    !! novo_id (seq_movimentacoes (sequencias (atual c))) (movimentacoes (atual c))
    = None /\
  (Produto.quantidade_atual <$> produtos db' !! k)
  = Some (Produto.quantidade_atual row + f_quantidade f) /\
  (forall j, j <> k -> produtos db' !! j = produtos (atual c) !! j).
Proof.
  intros Haut Hpost Herros Hint Hrow [Hmin Hat] Hmax Hauto f db'. subst f db'.
  pose proof (validar_quantidade_positiva strip int r Herros) as Hpos.
  split; [|split; [apply novo_id_livre|split]].
  - unfold Views.registrar_entrada.
    rewrite (ate_consulta_aceito strip int _ r c k row Haut Hpost Herros Hint Hrow).
    unfold Views.entrada_com_produto.
    destruct (movimento_atomico k row "entrada"
                (Produto.quantidade_atual row
                 + f_quantidade (Views.validar strip int r))
                (Views.validar strip int r) c Hrow Hauto eq_refl)
      as [m' ->]; unfold armazenavel in *; try lia.
    reflexivity.
  - unfold apos_movimento. cbn. rewrite lookup_insert_eq. reflexivity.
  - intros j Hj. unfold apos_movimento. cbn.
    rewrite lookup_insert_ne; [reflexivity | congruence].
Qed.

(** X3. An authenticated POST to [registrar_saida] with an accepted form,
    for a stored product with at least the submitted quantity in stock, is
    answered by a redirect to the list of movements.  The store then holds
    that product with its quantity lowered by exactly the submitted
    quantity, every other product as before, and one more movement row of
    kind ['saida'] under a key that was free; both writes are committed
    together, as one state.  (The stored product holds values the
    database stores.) *)
Theorem X3_withdrawal_request_recorded (strip : string -> string)
    (int : string -> option Z) (r : Pedido) (c : Conexao)
    (k : positive) (row : Produto.t) :
  autenticado r = true ->
  method r = "POST" ->
  f_erros (Views.validar strip int r) = ∅ ->
  int (f_produto_id (Views.validar strip int r)) = Some (Zpos k) ->
  produtos (atual c) !! k = Some row ->
  Produto_valido row ->
  f_quantidade (Views.validar strip int r) <= Produto.quantidade_atual row ->
  em_transacao c = false ->
  let f := Views.validar strip int r in
  let db' :=
    apos_movimento k row "saida"
      (Produto.quantidade_atual row - f_quantidade f) f c in
  Views.registrar_saida strip int r c
  = (inr (Redirect "lista_movimentacoes"),
     BuildConexao db' (confirmados c ++ [db']) false (relogio c)) /\
  movimentacoes (atual c)
    !! novo_id (seq_movimentacoes (sequencias (atual c))) (movimentacoes (atual c))
    = None /\
  (Produto.quantidade_atual <$> produtos db' !! k)
  = Some (Produto.quantidade_atual row - f_quantidade f) /\
  (forall j, j <> k -> produtos db' !! j = produtos (atual c) !! j).
Proof.
  intros Haut Hpost Herros Hint Hrow [Hmin Hat] Hq Hauto f db'. subst f db'.
  pose proof (validar_quantidade_positiva strip int r Herros) as Hpos.
  split; [|split; [apply novo_id_livre|split]].
  - unfold Views.registrar_saida.
    rewrite (ate_consulta_aceito strip int _ r c k row Haut Hpost Herros Hint Hrow).
    unfold Views.saida_com_produto.
    destruct (Z.ltb_spec (Produto.quantidade_atual (Produto.com_pk k row))
                         (f_quantidade (Views.validar strip int r))) as [Hlt|_];
      [simpl in Hlt; lia|].
    assert (Movimentacao.atualizar_produto
              (Views.nova_movimentacao (Produto.com_pk k row) "saida"
                 (Views.validar strip int r) (Views.Funcionario_first (atual c)))
            = inr (Produto.com_quantidade_atual
                     (Produto.quantidade_atual row
                      - f_quantidade (Views.validar strip int r))
                     (Produto.com_pk k row))) as Hup.
    { unfold Movimentacao.atualizar_produto. cbn.
      destruct (Z.geb_spec (Produto.quantidade_atual row)
                           (f_quantidade (Views.validar strip int r)));
        [reflexivity | lia]. }
    destruct (movimento_atomico k row "saida" _ _ c Hrow Hauto Hup) as [m' ->];
      unfold armazenavel in *; try lia.
    reflexivity.
  - unfold apos_movimento. cbn. rewrite lookup_insert_eq. reflexivity.
  - intros j Hj. unfold apos_movimento. cbn.
    rewrite lookup_insert_ne; [reflexivity | congruence].
Qed.

(** X4. An authenticated POST to [registrar_saida] with an accepted form,
    for a stored product with less in stock than the submitted quantity,
    writes nothing: the answer is the withdrawal form again, with the
    message that tells the available quantity under ['quantidade'] as its
    only error and with the submitted values. *)
Theorem X4_withdrawal_request_refused (strip : string -> string)
    (int : string -> option Z) (r : Pedido) (c : Conexao)
    (k : positive) (row : Produto.t) :
  autenticado r = true ->
  method r = "POST" ->
  f_erros (Views.validar strip int r) = ∅ ->
  int (f_produto_id (Views.validar strip int r)) = Some (Zpos k) ->
  produtos (atual c) !! k = Some row ->
  Produto.quantidade_atual row < f_quantidade (Views.validar strip int r) ->
  Views.registrar_saida strip int r c
  = (inr (Render "movimentacao/saida.html"
            {["quantidade" :=
                "Estoque insuficiente. Disponível: " +:+
                  pretty (Produto.quantidade_atual row)]}
            (f_val (Views.validar strip int r))), c).
Proof.
  intros Haut Hpost Herros Hint Hrow Hq.
  unfold Views.registrar_saida.
  rewrite (ate_consulta_aceito strip int _ r c k row Haut Hpost Herros Hint Hrow).
  rewrite saida_com_produto_insuficiente; [|exact Hq].
  rewrite Herros. reflexivity.
Qed.

Lemma ate_consulta_inr_completo (strip : string -> string)
    (int : string -> option Z) (template : string) (r : Pedido) (c : Conexao)
    (f : Formulario) (p : Produto.t) :
  Views.ate_consulta strip int template r c = inr (f, p) ->
  autenticado r = true /\
  method r = "POST" /\
  f = Views.validar strip int r /\
  f_erros f = ∅ /\
  exists k row,
    int (f_produto_id f) = Some (Zpos k) /\
    produtos (atual c) !! k = Some row /\
    p = Produto.com_pk k row.
Proof.
  unfold Views.ate_consulta.
  destruct (autenticado r); [|discriminate]. cbn [negb].
  destruct (String.eqb_spec (method r) "POST") as [Hpost|]; [|discriminate].
  destruct (bool_decide_reflect (f_erros (Views.validar strip int r) = ∅))
    as [Herros|]; [|discriminate].
  unfold Views.Produto_get.
  destruct (int (f_produto_id (Views.validar strip int r))) as [[|k|k]|] eqn:Hint;
    try discriminate.
  destruct (produtos (atual c) !! k) as [row|] eqn:Hrow; [|discriminate].
  intros [= <- <-]. repeat split; try assumption. eauto.
Qed.

Lemma ate_consulta_excecao (strip : string -> string)
    (int : string -> option Z) (template : string) (r : Pedido) (c : Conexao)
    (e : excecao) :
  Views.ate_consulta strip int template r c = inl (inl e) ->
  int (f_produto_id (Views.validar strip int r)) = None /\
  e = ValueError
        (CampoEsperavaNumero "id" (f_produto_id (Views.validar strip int r))).
Proof.
  unfold Views.ate_consulta.
  destruct (autenticado r); [|discriminate]. cbn [negb].
  destruct (String.eqb (method r) "POST"); [|discriminate].
  destruct (bool_decide (f_erros (Views.validar strip int r) = ∅)); [|discriminate].
  unfold Views.Produto_get.
  destruct (int (f_produto_id (Views.validar strip int r))) as [[|k|k]|] eqn:Hint;
    try discriminate.
  - destruct (produtos (atual c) !! k); discriminate.
  - intros [= <-]. split; reflexivity.
Qed.

(** An [IntegrityError] tells of a negative value. *)
Lemma Produto_save_integridade (p : Produto.t) (c : Conexao) (coluna : string)
    (p' : Produto.t) (c' : Conexao) :
  Produto_save p c = (Levantou (IntegrityError coluna), p', c') ->
  Produto.quantidade_minima p < 0 \/ Produto.quantidade_atual p < 0.
Proof.
  unfold Produto_save, Produto_positivos, check_positivos.
  destruct (Z.ltb_spec (Produto.quantidade_minima p) 0); [auto|].
  destruct (Z.ltb_spec (Produto.quantidade_atual p) 0); [auto|].
  destruct (Produto.pk p) as [k|]; destruct (negb _); try discriminate;
    try destruct (produtos (atual c) !! k); discriminate.
Qed.

Lemma Movimentacao_save_integridade (m : Movimentacao.t) (c : Conexao)
    (coluna : string) (m' : Movimentacao.t) (c' : Conexao) :
  Movimentacao.save m c = (Levantou (IntegrityError coluna), m', c') ->
  Movimentacao.quantidade m < 0.
Proof.
  unfold Movimentacao.save, check_positivos.
  destruct (Z.ltb_spec (Movimentacao.quantidade m) 0); [auto|].
  destruct (Produto.pk (Movimentacao.produto m)); [|discriminate].
  destruct (Movimentacao.pk m) as [k|]; destruct (negb _); try discriminate;
    try destruct (movimentacoes (atual c) !! k); discriminate.
Qed.

(** What [transaction.atomic] around the method lets through is the
    insufficient-stock error or a refusal of the database, of a value
    that it does not store; the connection is then as it was. *)
Lemma atomic_salvar_excecao (m : Movimentacao.t) (c : Conexao) (e : excecao) :
  (atomic (Movimentacao.salvar_e_atualizar_estoque m) c).1.1 = Levantou e ->
  (atomic (Movimentacao.salvar_e_atualizar_estoque m) c).2 = c /\
  (Movimentacao.atualizar_produto m = inl e \/
   exists p, Movimentacao.atualizar_produto m = inr p /\
             erro_do_banco e /\
             ~ (Produto_valido p /\ armazenavel (Movimentacao.quantidade m)) /\
             (forall coluna, e = IntegrityError coluna ->
                Produto.quantidade_minima p < 0 \/
                Produto.quantidade_atual p < 0 \/
                Movimentacao.quantidade m < 0)).
Proof.
  unfold atomic.
  destruct (Movimentacao.salvar_e_atualizar_estoque m (abrir c))
    as [[d m'] c1] eqn:Hrun.
  destruct d as [|e0]; [destruct (em_transacao c); discriminate|].
  simpl. intros [= ->]. split; [reflexivity|].
  revert Hrun. unfold Movimentacao.salvar_e_atualizar_estoque.
  destruct (Movimentacao.atualizar_produto m) as [e1|p] eqn:Hup.
  { intros [= <- _ _]. left. reflexivity. }
  intros Hrun. right. exists p. split; [reflexivity|].
  destruct (Produto_save_casos p (abrir c))
    as [(Hinv & e1 & p' & He & Hsave & _)
       |(Hval & pid & p' & db1 & Hsave & Hpk & _)].
  - rewrite Hsave in Hrun. injection Hrun as <- _ _.
    split; [exact He|]. split; [tauto|].
    intros coluna ->.
    destruct (Produto_save_integridade _ _ _ _ _ Hsave); auto.
  - rewrite Hsave in Hrun.
    destruct (Movimentacao_save_casos (Movimentacao.com_produto p' m)
                (gravar db1 (abrir c)) pid Hpk)
      as [(Hq & e1 & m1 & He & Hsave2 & _) | (_ & mid & m1 & db2 & Hsave2 & _)];
      rewrite Hsave2 in Hrun; [|discriminate].
    injection Hrun as <- _ _.
    split; [exact He|]. split; [simpl in Hq; tauto|].
    intros coluna ->. right. right.
    exact (Movimentacao_save_integridade _ _ _ _ _ Hsave2).
Qed.

(** X5. The two movement views write only for an accepted request: if
    [registrar_entrada] or [registrar_saida] leaves the connection other
    than it found it, then the request was authenticated, it was a POST,
    its form had no error, and its product key names a stored product;
    for [registrar_saida], moreover, the stock of that product covered the
    submitted quantity. *)
Theorem X5_movement_views_write_only_when_accepted (strip : string -> string)
    (int : string -> option Z) (r : Pedido) (c : Conexao) :
  (Views.registrar_entrada strip int r c).2 <> c \/
  (Views.registrar_saida strip int r c).2 <> c ->
  autenticado r = true /\
  method r = "POST" /\
  f_erros (Views.validar strip int r) = ∅ /\
  exists k row,
    int (f_produto_id (Views.validar strip int r)) = Some (Zpos k) /\
    produtos (atual c) !! k = Some row /\
    ((Views.registrar_saida strip int r c).2 <> c ->
     f_quantidade (Views.validar strip int r) <= Produto.quantidade_atual row).
Proof.
  intros Hmudou.
  assert (exists template f p,
            Views.ate_consulta strip int template r c = inr (f, p)) as (t & f & p & Hate).
  { destruct Hmudou as [H|H].
    - unfold Views.registrar_entrada in H.
      destruct (Views.ate_consulta strip int _ r c) as [resposta|[f p]] eqn:Hate;
        [contradiction H; reflexivity | eauto].
    - unfold Views.registrar_saida in H.
      destruct (Views.ate_consulta strip int _ r c) as [resposta|[f p]] eqn:Hate;
        [contradiction H; reflexivity | eauto]. }
  destruct (ate_consulta_inr_completo _ _ _ _ _ _ _ Hate)
    as (Haut & Hpost & -> & Herros & k & row & Hint & Hrow & ->).
  repeat split; try assumption.
  exists k, row. repeat split; try assumption.
  intros Hsaida. unfold Views.registrar_saida in Hsaida.
  rewrite (ate_consulta_aceito strip int _ r c k row Haut Hpost Herros Hint Hrow)
    in Hsaida.
  destruct (Z.le_gt_cases (f_quantidade (Views.validar strip int r))
                          (Produto.quantidade_atual row)) as [Hle|Hgt];
    [exact Hle|].
  rewrite saida_com_produto_insuficiente in Hsaida; [|simpl; lia].
  contradiction Hsaida. reflexivity.
Qed.

Lemma entrada_com_produto_excecao (f : Formulario) (p : Produto.t) (c : Conexao)
    (e : excecao) :
  (Views.entrada_com_produto f p c).1 = inl e ->
  (atomic (Movimentacao.salvar_e_atualizar_estoque
             (Views.nova_movimentacao p "entrada" f
                (Views.Funcionario_first (atual c)))) c).1.1 = Levantou e.
Proof.
  unfold Views.entrada_com_produto.
  destruct (atomic _ c) as [[d m'] c']. destruct d; [discriminate|].
  intros [= ->]. reflexivity.
Qed.

Lemma saida_com_produto_excecao (f : Formulario) (p : Produto.t) (c : Conexao)
    (e : excecao) :
  (Views.saida_com_produto f p c).1 = inl e ->
  f_quantidade f <= Produto.quantidade_atual p /\
  (Views.saida_com_produto f p c).2
  = (atomic (Movimentacao.salvar_e_atualizar_estoque
               (Views.nova_movimentacao p "saida" f
                  (Views.Funcionario_first (atual c)))) c).2 /\
  (atomic (Movimentacao.salvar_e_atualizar_estoque
             (Views.nova_movimentacao p "saida" f
                (Views.Funcionario_first (atual c)))) c).1.1 = Levantou e.
Proof.
  unfold Views.saida_com_produto.
  destruct (Z.ltb_spec (Produto.quantidade_atual p) (f_quantidade f));
    [discriminate|].
  destruct (atomic _ c) as [[d m'] c']. destruct d; [discriminate|].
  intros [= ->]. repeat split. lia.
Qed.

(** The template plays no role in whether the first part of a movement
    view raises, answers or goes on. *)
Lemma ate_consulta_template (strip : string -> string) (int : string -> option Z)
    (t t' : string) (r : Pedido) (c : Conexao) :
  match Views.ate_consulta strip int t r c with
  | inl (inl e) => Views.ate_consulta strip int t' r c = inl (inl e)
  | inl (inr _) => exists resposta,
                     Views.ate_consulta strip int t' r c = inl (inr resposta)
  | inr fp => Views.ate_consulta strip int t' r c = inr fp
  end.
Proof.
  unfold Views.ate_consulta.
  destruct (negb (autenticado r)); [eauto|].
  destruct (String.eqb (method r) "POST"); [|eauto].
  destruct (bool_decide _); [|eauto].
  destruct (Views.Produto_get int (atual c) _) as [[]|]; eauto.
Qed.

(** X6. When one of the two movement views lets an exception through,
    nothing is written, and the exception is never the insufficient-stock
    error of [salvar_e_atualizar_estoque]: the view compares stock and
    quantity itself, on the same product object, before it calls the
    method.  The exception is the [ValueError] of a product key that does
    not read as an integer, or a refusal of the database for the product
    the key names; when that product holds values the database stores,
    the refusal is an [OverflowError], raised by [registrar_entrada] only,
    for a stock that the receipt takes beyond the integers of the
    database. *)
Theorem X6_movement_views_exceptions (strip : string -> string)
    (int : string -> option Z) (r : Pedido) (c : Conexao) (e : excecao) :
  (Views.registrar_entrada strip int r c).1 = inl e \/
  (Views.registrar_saida strip int r c).1 = inl e ->
  e <> ValueError (Texto Movimentacao.msg_insuficiente) /\
  ((Views.registrar_entrada strip int r c).1 = inl e ->
   (Views.registrar_entrada strip int r c).2 = c) /\
  ((Views.registrar_saida strip int r c).1 = inl e ->
   (Views.registrar_saida strip int r c).2 = c) /\
  ((int (f_produto_id (Views.validar strip int r)) = None /\
    e = ValueError
          (CampoEsperavaNumero "id" (f_produto_id (Views.validar strip int r)))) \/
   (exists k row,
      int (f_produto_id (Views.validar strip int r)) = Some (Zpos k) /\
      produtos (atual c) !! k = Some row /\
      erro_do_banco e /\
      (Produto_valido row ->
       e = OverflowError /\
       (Views.registrar_saida strip int r c).1 <> inl e /\
       MAX_INTEIRO
       < Produto.quantidade_atual row + f_quantidade (Views.validar strip int r)))).
Proof.
  intros Hexc.
  pose proof (ate_consulta_template strip int "movimentacao/entrada.html"
                "movimentacao/saida.html" r c) as Htemplate.
  unfold Views.registrar_entrada, Views.registrar_saida in *.
  destruct (Views.ate_consulta strip int "movimentacao/entrada.html" r c)
    as [[e1|resposta]|[f p]] eqn:Hate.
  - (* the key is not a number *)
    rewrite Htemplate in *. simpl in *.
    assert (e1 = e) as -> by (destruct Hexc; congruence).
    destruct (ate_consulta_excecao _ _ _ _ _ _ Hate) as [Hint ->].
    split; [discriminate|]. split; [reflexivity|]. split; [reflexivity|].
    left. split; [exact Hint | reflexivity].
  - destruct Htemplate as [resposta' Hs]. rewrite Hs in *. simpl in *.
    destruct Hexc; discriminate.
  - rewrite Htemplate in *.
    destruct (ate_consulta_inr_completo _ _ _ _ _ _ _ Hate)
      as (Haut & Hpost & -> & Herros & k & row & Hint & Hrow & ->).
    pose proof (validar_quantidade_positiva strip int r Herros) as Hpos.
    set (f := Views.validar strip int r) in *.
    (* what either view raises is a refusal of the database *)
    assert ((Views.entrada_com_produto f (Produto.com_pk k row) c).1 = inl e ->
            (Views.entrada_com_produto f (Produto.com_pk k row) c).2 = c /\
            erro_do_banco e /\
            (Produto_valido row ->
             e = OverflowError /\
             MAX_INTEIRO < Produto.quantidade_atual row + f_quantidade f)) as Hentrada.
    { intros He. rewrite entrada_com_produto_conexao.
      apply entrada_com_produto_excecao in He.
      destruct (atomic_salvar_excecao _ _ _ He)
        as [Hc [Hinl | (p & Hup & Hbanco & Hnao & Hneg)]]; [discriminate Hinl|].
      injection Hup as <-. simpl in Hnao, Hneg.
      split; [exact Hc|]. split; [exact Hbanco|].
      intros [Hmin Hat]. unfold Produto_valido, armazenavel in *. simpl in Hnao.
      split; [|lia].
      destruct Hbanco as [-> | [coluna ->]]; [reflexivity|].
      specialize (Hneg coluna eq_refl). lia. }
    assert ((Views.saida_com_produto f (Produto.com_pk k row) c).1 = inl e ->
            (Views.saida_com_produto f (Produto.com_pk k row) c).2 = c /\
            erro_do_banco e /\
            ~ Produto_valido row) as Hsaida.
    { intros He. apply saida_com_produto_excecao in He.
      destruct He as (Hge & -> & He). simpl in Hge.
      destruct (atomic_salvar_excecao _ _ _ He)
        as [Hc [Hinl | (p & Hup & Hbanco & Hnao & _)]].
      { apply atualizar_produto_inl in Hinl. simpl in Hinl. lia. }
      split; [exact Hc|]. split; [exact Hbanco|].
      revert Hup. unfold Movimentacao.atualizar_produto. simpl.
      destruct (Z.geb_spec (Produto.quantidade_atual row) (f_quantidade f));
        [|lia].
      intros [= <-]. simpl in Hnao.
      unfold Produto_valido, armazenavel in *. simpl in Hnao. lia. }
    assert (erro_do_banco e) as Hbanco.
    { destruct Hexc as [H|H]; [apply Hentrada in H | apply Hsaida in H]; tauto. }
    split.
    { destruct Hbanco as [-> | [coluna ->]]; discriminate. }
    split; [intros H; apply Hentrada in H; tauto|].
    split; [intros H; apply Hsaida in H; tauto|].
    right. exists k, row. split; [exact Hint|]. split; [exact Hrow|].
    split; [exact Hbanco|].
    intros Hval.
    assert ((Views.saida_com_produto f (Produto.com_pk k row) c).1 <> inl e) as Hns.
    { intros H. apply Hsaida in H. tauto. }
    destruct Hexc as [H|H]; [|contradiction].
    apply Hentrada in H. destruct H as (_ & _ & H). specialize (H Hval).
    tauto.
Qed.

Lemma X2_receipt_request_recorded_witness :
  (Views.registrar_entrada strip_ascii int_ascii pedido_entrada_de_cem
     conexao_exemplo).1 = inr (Redirect "lista_movimentacoes") /\
  quantidade_em_estoque 1
    (atual (Views.registrar_entrada strip_ascii int_ascii pedido_entrada_de_cem
              conexao_exemplo).2) = Some 145.
Proof.
  destruct (X2_receipt_request_recorded strip_ascii int_ascii
              pedido_entrada_de_cem conexao_exemplo 1%positive produto_exemplo)
    as (H & _); try reflexivity.
  - unfold Produto_valido, armazenavel, MAX_INTEIRO. simpl. lia.
  - vm_compute. discriminate.
  - rewrite H. split; reflexivity.
Defined.

Lemma X3_withdrawal_request_recorded_witness :
  (Views.registrar_saida strip_ascii int_ascii pedido_saida_de_45
     conexao_exemplo).1 = inr (Redirect "lista_movimentacoes") /\
  quantidade_em_estoque 1
    (atual (Views.registrar_saida strip_ascii int_ascii pedido_saida_de_45
              conexao_exemplo).2) = Some 0.
Proof.
  destruct (X3_withdrawal_request_recorded strip_ascii int_ascii
              pedido_saida_de_45 conexao_exemplo 1%positive produto_exemplo)
    as (H & _); try reflexivity.
  - unfold Produto_valido, armazenavel, MAX_INTEIRO. simpl. lia.
  - rewrite H. split; reflexivity.
Defined.

Lemma X4_withdrawal_request_refused_witness :
  Views.registrar_saida strip_ascii int_ascii pedido_saida_de_50 conexao_exemplo
  = (inr (Render "movimentacao/saida.html"
            {["quantidade" := "Estoque insuficiente. Disponível: 45"]}
            (f_val (Views.validar strip_ascii int_ascii pedido_saida_de_50))),
     conexao_exemplo).
Proof.
  apply (X4_withdrawal_request_refused strip_ascii int_ascii pedido_saida_de_50
           conexao_exemplo 1%positive produto_exemplo); reflexivity.
Defined.

Lemma X5_movement_views_write_only_when_accepted_witness :
  autenticado pedido_saida_de_45 = true /\
  method pedido_saida_de_45 = "POST" /\
  f_erros (Views.validar strip_ascii int_ascii pedido_saida_de_45) = ∅ /\
  exists k row,
    int_ascii (f_produto_id (Views.validar strip_ascii int_ascii pedido_saida_de_45))
      = Some (Zpos k) /\
    produtos (atual conexao_exemplo) !! k = Some row /\
    ((Views.registrar_saida strip_ascii int_ascii pedido_saida_de_45
        conexao_exemplo).2 <> conexao_exemplo ->
     f_quantidade (Views.validar strip_ascii int_ascii pedido_saida_de_45)
       <= Produto.quantidade_atual row).
Proof.
  apply (X5_movement_views_write_only_when_accepted strip_ascii int_ascii
           pedido_saida_de_45 conexao_exemplo).
  right. intros H. apply (f_equal (fun c => length (confirmados c))) in H.
  vm_compute in H. discriminate H.
Defined.

Lemma X6_movement_views_exceptions_witness :
  OverflowError <> ValueError (Texto Movimentacao.msg_insuficiente) /\
  ((Views.registrar_entrada strip_ascii int_ascii pedido_entrada_excessiva
      conexao_exemplo).1 = inl OverflowError ->
   (Views.registrar_entrada strip_ascii int_ascii pedido_entrada_excessiva
      conexao_exemplo).2 = conexao_exemplo) /\
  ((Views.registrar_saida strip_ascii int_ascii pedido_entrada_excessiva
      conexao_exemplo).1 = inl OverflowError ->
   (Views.registrar_saida strip_ascii int_ascii pedido_entrada_excessiva
      conexao_exemplo).2 = conexao_exemplo) /\
  ((int_ascii (f_produto_id
                 (Views.validar strip_ascii int_ascii pedido_entrada_excessiva)) = None /\
    OverflowError
    = ValueError
        (CampoEsperavaNumero "id"
           (f_produto_id
              (Views.validar strip_ascii int_ascii pedido_entrada_excessiva)))) \/
   (exists k row,
      int_ascii (f_produto_id
                   (Views.validar strip_ascii int_ascii pedido_entrada_excessiva))
        = Some (Zpos k) /\
      produtos (atual conexao_exemplo) !! k = Some row /\
      erro_do_banco OverflowError /\
      (Produto_valido row ->
       OverflowError = OverflowError /\
       (Views.registrar_saida strip_ascii int_ascii pedido_entrada_excessiva
          conexao_exemplo).1 <> inl OverflowError /\
       MAX_INTEIRO
       < Produto.quantidade_atual row
         + f_quantidade
             (Views.validar strip_ascii int_ascii pedido_entrada_excessiva)))).
Proof.
  apply (X6_movement_views_exceptions strip_ascii int_ascii pedido_entrada_excessiva
           conexao_exemplo OverflowError).
  left. vm_compute. reflexivity.
Defined.

Lemma registrar_saida_conserva_witness :
  exists q1,
    quantidade_em_estoque 1
      (atual (Views.registrar_saida strip_ascii int_ascii pedido_saida_de_45
                conexao_exemplo).2) = Some q1 /\
    q1 + total_retirado 1
           (atual (Views.registrar_saida strip_ascii int_ascii pedido_saida_de_45
                     conexao_exemplo).2)
    = 45 + total_retirado 1 (atual conexao_exemplo).
Proof.
  apply (registrar_saida_conserva strip_ascii int_ascii pedido_saida_de_45
           conexao_exemplo 1%positive 45).
  reflexivity.
Defined.

Lemma estoque_nao_negativo_dez : estoque_nao_negativo db_dez.
Proof.
  intros k p H. unfold db_dez in H. simpl in H.
  apply lookup_singleton_Some in H. destruct H as [_ <-].
  simpl. lia.
Defined.

Lemma concorrencia_nao_negativo_witness :
  estoque_nao_negativo
    (atual (Concorrencia.conexao
              (Concorrencia.executar strip_ascii int_ascii agenda_intercalada
                 dois_pedidos))).
Proof.
  apply (concorrencia_nao_negativo strip_ascii int_ascii
           agenda_intercalada dois_pedidos).
  exact estoque_nao_negativo_dez.
Defined.

(** ** Deleting employees and institutions *)

(** X9. A POST to [excluir_funcionarios] for a stored employee, whether
    the request is authenticated or not, is answered by a redirect to the
    list of employees and removes the employee.  No movement row is
    removed: the rows recorded by that employee stay, with their employee
    reference null and every other column as it was, and all other rows,
    the products and the institutions are untouched. *)
Theorem X9_employee_deletion_keeps_history (r : Pedido) (k : positive) (c : Conexao) :
  is_Some (funcionarios (atual c) !! k) ->
  method r = "POST" ->
  (Views.excluir_funcionarios r (Zpos k) c).1 = inr (Redirect "lista_funcionarios") /\
  funcionarios (atual (Views.excluir_funcionarios r (Zpos k) c).2)
    = delete k (funcionarios (atual c)) /\
  produtos (atual (Views.excluir_funcionarios r (Zpos k) c).2) = produtos (atual c) /\
  instituicoes (atual (Views.excluir_funcionarios r (Zpos k) c).2)
    = instituicoes (atual c) /\
  (forall mid l,
     movimentacoes (atual c) !! mid = Some l ->
     movimentacoes (atual (Views.excluir_funcionarios r (Zpos k) c).2) !! mid
     = Some (if decide (Linha.funcionario_id l = Some k)
             then Linha.com_funcionario_id None l else l)) /\
  (forall mid,
     movimentacoes (atual c) !! mid = None ->
     movimentacoes (atual (Views.excluir_funcionarios r (Zpos k) c).2) !! mid = None) /\
  (forall mid l',
     movimentacoes (atual (Views.excluir_funcionarios r (Zpos k) c).2) !! mid = Some l' ->
     Linha.funcionario_id l' <> Some k).
Proof.
  intros [func Hfunc] Hpost. unfold Views.excluir_funcionarios.
  rewrite Hfunc, Hpost. cbn.
  assert (forall l,
            anular_funcionario (Pos.eqb k) l
            = if decide (Linha.funcionario_id l = Some k)
              then Linha.com_funcionario_id None l else l) as Hanular.
  { intros l. unfold anular_funcionario.
    destruct (Linha.funcionario_id l) as [f|] eqn:Hf.
    - destruct (Pos.eqb_spec k f) as [->|Hne].
      + rewrite decide_True; reflexivity.
      + rewrite decide_False; [reflexivity | congruence].
    - rewrite decide_False; [reflexivity | discriminate]. }
  repeat split.
  - intros mid l Hl. rewrite lookup_fmap, Hl. cbn. rewrite Hanular. reflexivity.
  - intros mid Hnone. rewrite lookup_fmap, Hnone. reflexivity.
  - intros mid l'. rewrite lookup_fmap.
    destruct (movimentacoes (atual c) !! mid) as [l|]; [|discriminate].
    cbn. intros [= <-]. rewrite Hanular.
    destruct (decide (Linha.funcionario_id l = Some k)); [discriminate | assumption].
Qed.

(** X10. The two deletion views refuse what they should not serve: a key
    that names no stored row raises [Http404], and a request that is not a
    POST is answered by the redirect; in both cases nothing is written.
    Neither view looks at the authentication of the request. *)
Theorem X10_deletion_views_refusals (r : Pedido) (pk : Z) (c : Conexao) :
  ((forall k, pk = Zpos k -> funcionarios (atual c) !! k = None) ->
   Views.excluir_funcionarios r pk c = (inl Http404, c)) /\
  ((forall k, pk = Zpos k -> instituicoes (atual c) !! k = None) ->
   Views.excluir_instituicao r pk c = (inl Http404, c)) /\
  (method r <> "POST" ->
   (Views.excluir_funcionarios r pk c).2 = c /\
   (Views.excluir_instituicao r pk c).2 = c) /\
  (forall a,
     Views.excluir_funcionarios (BuildPedido a (method r) (POST r)) pk c
     = Views.excluir_funcionarios r pk c /\
     Views.excluir_instituicao (BuildPedido a (method r) (POST r)) pk c
     = Views.excluir_instituicao r pk c).
Proof.
  unfold Views.excluir_funcionarios, Views.excluir_instituicao.
  split; [|split; [|split]].
  - intros H. destruct pk as [|k|k]; try reflexivity.
    rewrite (H k eq_refl). reflexivity.
  - intros H. destruct pk as [|k|k]; try reflexivity.
    rewrite (H k eq_refl). reflexivity.
  - intros H. apply String.eqb_neq in H. rewrite H.
    destruct pk as [|k|k]; try (split; reflexivity).
    destruct (funcionarios (atual c) !! k), (instituicoes (atual c) !! k);
      split; reflexivity.
  - intros a. split; reflexivity.
Qed.

(** X11. A POST to [excluir_instituicao] for a stored institution removes
    it together with exactly its employees and its products, and with the
    movement rows of those products.  A movement row of another
    institution's product stays, and loses its employee reference when the
    employee belonged to the removed institution. *)
Theorem X11_institution_deletion_cascades (r : Pedido) (k : positive) (c : Conexao) :
  is_Some (instituicoes (atual c) !! k) ->
  method r = "POST" ->
  (Views.excluir_instituicao r (Zpos k) c).1 = inr (Redirect "lista_instituicoes") /\
  instituicoes (atual (Views.excluir_instituicao r (Zpos k) c).2)
    = delete k (instituicoes (atual c)) /\
  (forall j f,
     funcionarios (atual (Views.excluir_instituicao r (Zpos k) c).2) !! j = Some f <->
     funcionarios (atual c) !! j = Some f /\ Funcionario.instituicao f <> k) /\
  (forall j p,
     produtos (atual (Views.excluir_instituicao r (Zpos k) c).2) !! j = Some p <->
     produtos (atual c) !! j = Some p /\ Produto.instituicao p <> k) /\
  (forall mid l,
     movimentacoes (atual c) !! mid = Some l ->
     movimentacoes (atual (Views.excluir_instituicao r (Zpos k) c).2) !! mid
     = if produto_da_instituicao (atual c) k (Linha.produto_id l) then None
       else Some (anular_funcionario (funcionario_da_instituicao (atual c) k) l)) /\
  (forall mid,
     movimentacoes (atual c) !! mid = None ->
     movimentacoes (atual (Views.excluir_instituicao r (Zpos k) c).2) !! mid = None).
Proof.
  intros [inst Hinst] Hpost. unfold Views.excluir_instituicao.
  rewrite Hinst, Hpost. cbn.
  split; [reflexivity|]. split; [reflexivity|].
  split; [intros j f; apply map_lookup_filter_Some|].
  split; [intros j p; apply map_lookup_filter_Some|].
  split.
  - intros mid l Hl. rewrite lookup_fmap.
    destruct (produto_da_instituicao (atual c) k (Linha.produto_id l)) eqn:Hp.
    + rewrite map_lookup_filter_None_2; [reflexivity|].
      right. intros l0 Hl0. cbn. rewrite Hl in Hl0. injection Hl0 as <-.
      rewrite Hp. discriminate.
    + erewrite map_lookup_filter_Some_2; [reflexivity | exact Hl | exact Hp].
  - intros mid Hnone. rewrite lookup_fmap.
    rewrite map_lookup_filter_None_2; [reflexivity | left; exact Hnone].
Qed.

(** ** Referential integrity *)

Lemma foldl_menor_nome_in (x : positive * Funcionario.t)
    (l : list (positive * Funcionario.t)) :
  foldl Views.menor_nome x l ∈ x :: l.
Proof.
  revert x. induction l as [|y l IH]; intros x; simpl.
  - apply list_elem_of_here.
  - specialize (IH (Views.menor_nome x y)).
    apply elem_of_cons in IH. destruct IH as [Heq|Hin].
    + rewrite Heq. unfold Views.menor_nome.
      destruct (String.ltb _ _);
        [apply list_elem_of_further, list_elem_of_here|].
      destruct (String.ltb _ _); [apply list_elem_of_here|].
      destruct (Pos.ltb _ _);
        [apply list_elem_of_further, list_elem_of_here | apply list_elem_of_here].
    + apply list_elem_of_further, list_elem_of_further, Hin.
Qed.

Lemma Funcionario_first_existe (db : DB) (k : positive) :
  Views.Funcionario_first db = Some k -> is_Some (funcionarios db !! k).
Proof.
  unfold Views.Funcionario_first.
  destruct (map_to_list (funcionarios db)) as [|x l] eqn:Hl; [discriminate|].
  intros [= <-].
  pose proof (foldl_menor_nome_in x l) as Hin. rewrite <- Hl in Hin.
  destruct (foldl Views.menor_nome x l) as [j f].
  apply elem_of_map_to_list in Hin. simpl. eauto.
Qed.

(** A movement view either leaves the connection as it found it or
    leaves the store with the movement recorded. *)
Lemma atual_atomico (k : positive) (row : Produto.t) (tipo : string)
    (q' : Z) (f : Formulario) (c : Conexao) :
  produtos (atual c) !! k = Some row ->
  Movimentacao.atualizar_produto
    (Views.nova_movimentacao (Produto.com_pk k row) tipo f
       (Views.Funcionario_first (atual c)))
  = inr (Produto.com_quantidade_atual q' (Produto.com_pk k row)) ->
  (atomic (Movimentacao.salvar_e_atualizar_estoque
             (Views.nova_movimentacao (Produto.com_pk k row) tipo f
                (Views.Funcionario_first (atual c)))) c).2 = c \/
  ((atomic (Movimentacao.salvar_e_atualizar_estoque
              (Views.nova_movimentacao (Produto.com_pk k row) tipo f
                 (Views.Funcionario_first (atual c)))) c).1.1 = Concluido /\
   armazenavel (Produto.quantidade_minima row) /\
   armazenavel q' /\
   armazenavel (f_quantidade f) /\
   atual (atomic (Movimentacao.salvar_e_atualizar_estoque
                    (Views.nova_movimentacao (Produto.com_pk k row) tipo f
                       (Views.Funcionario_first (atual c)))) c).2
   = apos_movimento k row tipo q' f c).
Proof.
  intros Hrow Hup.
  destruct (atomic_atual
              (Movimentacao.salvar_e_atualizar_estoque
                 (Views.nova_movimentacao (Produto.com_pk k row) tipo f
                    (Views.Funcionario_first (atual c)))) c)
    as [H | (m' & c1 & Hrun & Hd & Hat)]; [left; exact H|].
  right. rewrite Hd, Hat.
  destruct (salvar_concluido_inv _ _ _ _ Hrun) as (p & Hup' & [Hmin Hqa] & Hq).
  assert (p = Produto.com_quantidade_atual q' (Produto.com_pk k row)) as ->
    by congruence.
  rewrite (salvar_novo _ (abrir c) _ row k Hup eq_refl Hrow eq_refl) in Hrun;
    [|split; assumption | exact Hq].
  injection Hrun as _ <-.
  split; [reflexivity|]. split; [exact Hmin|]. split; [exact Hqa|].
  split; [exact Hq | reflexivity].
Qed.

Lemma integro_apos_movimento (k : positive) (row : Produto.t) (tipo : string)
    (q' : Z) (f : Formulario) (c : Conexao) :
  integro (atual c) ->
  integro (apos_movimento k row tipo q' f c).
Proof.
  intros Hint mid l. unfold apos_movimento. cbn.
  rewrite lookup_insert.
  destruct (decide (novo_id (seq_movimentacoes (sequencias (atual c)))
                            (movimentacoes (atual c)) = mid)).
  - intros [= <-]. cbn. split.
    + rewrite lookup_insert_eq. eauto.
    + intros fk Hfk. apply Funcionario_first_existe. exact Hfk.
  - intros Hl. destruct (Hint mid l Hl) as [Hp Hf]. split; [|exact Hf].
    rewrite lookup_insert. destruct (decide (k = Linha.produto_id l)); eauto.
Qed.

Lemma entrada_com_produto_atual (k : positive) (row : Produto.t)
    (f : Formulario) (c : Conexao) :
  produtos (atual c) !! k = Some row ->
  (Views.entrada_com_produto f (Produto.com_pk k row) c).2 = c \/
  atual (Views.entrada_com_produto f (Produto.com_pk k row) c).2
  = apos_movimento k row "entrada"
      (Produto.quantidade_atual row + f_quantidade f) f c.
Proof.
  intros Hrow. rewrite entrada_com_produto_conexao.
  destruct (atual_atomico k row "entrada"
              (Produto.quantidade_atual row + f_quantidade f) f c Hrow eq_refl)
    as [H | (_ & _ & _ & _ & H)]; auto.
Qed.

Lemma saida_com_produto_atual (k : positive) (row : Produto.t)
    (f : Formulario) (c : Conexao) :
  produtos (atual c) !! k = Some row ->
  (Views.saida_com_produto f (Produto.com_pk k row) c).2 = c \/
  (f_quantidade f <= Produto.quantidade_atual row /\
   atual (Views.saida_com_produto f (Produto.com_pk k row) c).2
   = apos_movimento k row "saida"
       (Produto.quantidade_atual row - f_quantidade f) f c).
Proof.
  intros Hrow.
  destruct (saida_com_produto_conexao f (Produto.com_pk k row) c)
    as [H | [Hge ->]]; [left; exact H|].
  apply Z.ltb_ge in Hge. simpl in Hge.
  assert (Movimentacao.atualizar_produto
            (Views.nova_movimentacao (Produto.com_pk k row) "saida" f
               (Views.Funcionario_first (atual c)))
          = inr (Produto.com_quantidade_atual
                   (Produto.quantidade_atual row - f_quantidade f)
                   (Produto.com_pk k row))) as Hup.
  { unfold Movimentacao.atualizar_produto. cbn.
    destruct (Z.geb_spec (Produto.quantidade_atual row) (f_quantidade f));
      [reflexivity | lia]. }
  destruct (atual_atomico k row "saida" _ f c Hrow Hup)
    as [H | (_ & _ & _ & _ & H)]; auto.
Qed.

Lemma integro_tabelas (db db' : DB) :
  movimentacoes db' = movimentacoes db ->
  (forall j, is_Some (produtos db !! j) -> is_Some (produtos db' !! j)) ->
  (forall j, is_Some (funcionarios db !! j) -> is_Some (funcionarios db' !! j)) ->
  integro db -> integro db'.
Proof.
  intros Hm Hp Hf Hint mid l. rewrite Hm. intros Hl.
  destruct (Hint mid l Hl) as [H1 H2]. split; [apply Hp, H1|].
  intros fk Hfk. apply Hf, H2, Hfk.
Qed.

Lemma integro_Produto_save (p : Produto.t) (c : Conexao) :
  integro (atual c) -> integro (atual (Produto_save p c).2).
Proof.
  destruct (Produto_save_casos p c)
    as [(_ & e & p' & _ & -> & _)
       |(_ & pid & p' & db' & -> & _ & _ & _ & _ & _ & _ & Hps & Hms & Hfs & _)];
    [auto|].
  apply integro_tabelas; cbn.
  - exact Hms.
  - intros j Hj. rewrite Hps, lookup_insert. destruct (decide (pid = j)); eauto.
  - intros j Hj. rewrite Hfs. exact Hj.
Qed.

(** X12. Every request of the application that writes keeps the movement
    table referentially intact: if each movement row refers to a stored
    product, and to a stored employee when its employee reference is not
    null, then the same holds after the request. *)
Theorem X12_requests_keep_references (strip : string -> string)
    (int : string -> option Z) (op : Views.Operacao) (c : Conexao) :
  integro (atual c) ->
  integro (atual (Views.executar strip int op c).2).
Proof.
  intros Hint.
  destruct op as [r|r|r pk|r pk|r id|i|f|p];
    cbv beta iota zeta delta [Views.executar].
  - unfold Views.registrar_entrada.
    destruct (Views.ate_consulta strip int _ r c) as [resposta|[f p]] eqn:Hate;
      [exact Hint|].
    destruct (ate_consulta_inr _ _ _ _ _ _ _ Hate) as (k & row & Hrow & ->).
    destruct (entrada_com_produto_atual k row f c Hrow) as [-> | ->];
      [exact Hint | apply integro_apos_movimento, Hint].
  - unfold Views.registrar_saida.
    destruct (Views.ate_consulta strip int _ r c) as [resposta|[f p]] eqn:Hate;
      [exact Hint|].
    destruct (ate_consulta_inr _ _ _ _ _ _ _ Hate) as (k & row & Hrow & ->).
    destruct (saida_com_produto_atual k row f c Hrow) as [-> | [_ ->]];
      [exact Hint | apply integro_apos_movimento, Hint].
  - unfold Views.excluir_funcionarios.
    destruct pk as [|k|k]; try exact Hint.
    destruct (funcionarios (atual c) !! k); [|exact Hint].
    destruct (String.eqb (method r) "POST"); [|exact Hint].
    cbn. intros mid l'. cbn. rewrite lookup_fmap.
    destruct (movimentacoes (atual c) !! mid) as [l|] eqn:Hl; [|discriminate].
    cbn. intros [= <-]. destruct (Hint mid l Hl) as [Hp Hf].
    unfold anular_funcionario.
    destruct (Linha.funcionario_id l) as [fk|] eqn:Hfk.
    + destruct (Pos.eqb_spec k fk) as [->|Hne]; cbn.
      * split; [exact Hp | discriminate].
      * split; [exact Hp|]. rewrite Hfk. intros f0 [= <-].
        rewrite lookup_delete_ne; [apply Hf; reflexivity | exact Hne].
    + split; [exact Hp|]. rewrite Hfk. discriminate.
  - unfold Views.excluir_instituicao.
    destruct pk as [|k|k]; try exact Hint.
    destruct (instituicoes (atual c) !! k); [|exact Hint].
    destruct (String.eqb (method r) "POST"); [|exact Hint].
    cbn. intros mid l'. cbn. rewrite lookup_fmap.
    destruct (filter _ (movimentacoes (atual c)) !! mid) as [l|] eqn:Hfl;
      [|discriminate].
    apply map_lookup_filter_Some in Hfl. destruct Hfl as [Hl Hkeep]. cbn in Hkeep.
    cbn. intros [= <-]. destruct (Hint mid l Hl) as [[x Hx] Hf].
    assert (is_Some (filter (fun y : positive * Produto.t => Produto.instituicao y.2 ≠ k)
                            (produtos (atual c)) !! Linha.produto_id l)) as Hprod.
    { exists x. apply map_lookup_filter_Some. split; [exact Hx|]. cbn.
      unfold produto_da_instituicao in Hkeep. rewrite Hx in Hkeep.
      apply Pos.eqb_neq in Hkeep. exact Hkeep. }
    unfold anular_funcionario.
    destruct (Linha.funcionario_id l) as [fk|] eqn:Hfk.
    + destruct (funcionario_da_instituicao (atual c) k fk) eqn:Hrem; cbn.
      * split; [exact Hprod | discriminate].
      * split; [exact Hprod|]. rewrite Hfk. intros f0 [= <-].
        destruct (Hf fk eq_refl) as [y Hy]. exists y.
        apply map_lookup_filter_Some. split; [exact Hy|]. cbn.
        unfold funcionario_da_instituicao in Hrem. rewrite Hy in Hrem.
        apply Pos.eqb_neq in Hrem. exact Hrem.
    + split; [exact Hprod|]. rewrite Hfk. discriminate.
  - unfold Views.deletar_produto.
    destruct (autenticado r); [|exact Hint]. cbn [negb].
    destruct id as [|k|k]; try exact Hint.
    destruct (produtos (atual c) !! k); [|exact Hint].
    destruct (String.eqb (method r) "POST"); [|exact Hint].
    rewrite resposta_de_Produto_save. apply integro_Produto_save, Hint.
  - cbn [snd]. revert Hint. unfold Instituicao_save.
    destruct (Instituicao.pk i) as [k|]; [destruct (instituicoes (atual c) !! k)|];
      apply integro_tabelas; cbn; try reflexivity; auto.
  - cbn [snd]. revert Hint. unfold Funcionario_save.
    destruct (Funcionario.pk f) as [k|]; [destruct (funcionarios (atual c) !! k)|];
      apply integro_tabelas; cbn; try reflexivity; auto;
      intros j Hj; rewrite lookup_insert; destruct (decide (_ = j)); eauto.
  - rewrite resposta_de_Produto_save. apply integro_Produto_save, Hint.
Qed.

(** ** Soft deletion of a product *)

(** X13. An authenticated POST to [deletar_produto] for a stored product
    (whose quantities are values the database stores) deletes nothing:
    the product stays stored under its key with the same quantity,
    minimum, code and institution, only marked inactive and with the time
    of the request as its last update; the other products, the employees
    and the movement table are untouched. *)
Theorem X13_product_deletion_is_soft (r : Pedido) (k : positive) (c : Conexao)
    (row : Produto.t) :
  autenticado r = true ->
  method r = "POST" ->
  produtos (atual c) !! k = Some row ->
  Produto_valido row ->
  (Views.deletar_produto r (Zpos k) c).1 = inr (Redirect "lista_produtos") /\
  produtos (atual (Views.deletar_produto r (Zpos k) c).2)
  = <[k := Produto.com_data_atualizacao (relogio c)
             (Produto.com_ativo false (Produto.com_pk k row))]>
      (produtos (atual c)) /\
  quantidade_em_estoque k (atual (Views.deletar_produto r (Zpos k) c).2)
  = Some (Produto.quantidade_atual row) /\
  movimentacoes (atual (Views.deletar_produto r (Zpos k) c).2)
  = movimentacoes (atual c) /\
  funcionarios (atual (Views.deletar_produto r (Zpos k) c).2)
  = funcionarios (atual c).
Proof.
  intros Haut Hpost Hrow Hval. unfold Views.deletar_produto.
  rewrite Haut, Hpost, Hrow. cbn [negb String.eqb Ascii.eqb Bool.eqb andb fst snd].
  rewrite (Produto_save_update (Produto.com_ativo false (Produto.com_pk k row))
             row k c Hval eq_refl Hrow).
  cbn. repeat split. unfold quantidade_em_estoque. cbn.
  rewrite lookup_insert_eq. reflexivity.
Qed.


(** ** Dashboard and stock alert *)

Lemma instancias_elem (db : DB) (p : Produto.t) :
  p ∈ instancias db <->
  exists k row, produtos db !! k = Some row /\ p = Produto.com_pk k row.
Proof.
  unfold instancias. rewrite list_elem_of_fmap. split.
  - intros ([k row] & -> & Hin). apply elem_of_map_to_list in Hin. eauto.
  - intros (k & row & Hrow & ->). exists (k, row). split; [reflexivity|].
    apply elem_of_map_to_list. exact Hrow.
Qed.

(** X14. For an authenticated request the stock alert lists exactly the
    stored products that are active and for which
    [esta_com_estoque_baixo] holds, in ascending order of current
    quantity; its [total] is the length of that list, and it is the number
    the dashboard shows as [produtos_estoque_baixo]. *)
Theorem X14_stock_alert_agrees_with_predicate (r : Pedido) (db : DB) :
  autenticado r = true ->
  exists l ctx,
    DashboardViews.produtos_estoque_baixo r db = inr (l, length l) /\
    (forall p,
       p ∈ l <->
       (exists k row, produtos db !! k = Some row /\ p = Produto.com_pk k row) /\
       Produto.ativo p = true /\
       Produto.esta_com_estoque_baixo p = true) /\
    StronglySorted menor_estoque l /\
    DashboardViews.dashboard r db = inr ctx /\
    DashboardViews.Contexto.produtos_estoque_baixo ctx = length l /\
    (DashboardViews.Contexto.produtos_estoque_baixo ctx <= DashboardViews.Contexto.total_produtos ctx)%nat.
Proof.
  intros Haut. unfold DashboardViews.produtos_estoque_baixo, DashboardViews.dashboard.
  rewrite Haut. cbn [negb].
  eexists _, _. split; [reflexivity|]. split; [|split; [|split; [reflexivity|split]]].
  - intros p. rewrite merge_sort_Permutation.
    unfold filtro_estoque_baixo, filtro_ativo.
    rewrite !list_elem_of_filter, instancias_elem.
    unfold Produto.esta_com_estoque_baixo. rewrite Z.leb_le. tauto.
  - apply StronglySorted_merge_sort; apply _.
  - cbn. rewrite merge_sort_Permutation. reflexivity.
  - cbn. apply length_filter.
Qed.

Lemma contagem_por_tipo (l : list (positive * Linha.t)) :
  (length (filter (fun x => Linha.tipo x.2 = "entrada") l)
   + length (filter (fun x => Linha.tipo x.2 = "saida") l)
   + length (filter (fun x => Linha.tipo x.2 = "ajuste") l) <= length l)%nat /\
  (length (filter (fun x => Linha.tipo x.2 = "entrada") l)
   + length (filter (fun x => Linha.tipo x.2 = "saida") l)
   + length (filter (fun x => Linha.tipo x.2 = "ajuste") l) = length l
   <-> Forall (fun x => Linha.tipo x.2 = "entrada" \/ Linha.tipo x.2 = "saida"
                        \/ Linha.tipo x.2 = "ajuste") l)%nat.
Proof.
  induction l as [|x l [IH1 IH2]]; [split; [reflexivity | split; [constructor | reflexivity]]|].
  rewrite !filter_cons.
  destruct (decide (Linha.tipo x.2 = "entrada")) as [He|He];
  destruct (decide (Linha.tipo x.2 = "saida")) as [Hs|Hs];
  destruct (decide (Linha.tipo x.2 = "ajuste")) as [Ha|Ha];
    try (rewrite He in Hs; discriminate Hs);
    try (rewrite He in Ha; discriminate Ha);
    try (rewrite Hs in Ha; discriminate Ha);
    cbn [length]; (split; [lia|]); rewrite Forall_cons, <- IH2; split;
    try (intros H; split; [tauto | lia]);
    try (intros [_ H]; lia);
    try (intros H; exfalso; lia);
    intros [[H|[H|H]] _]; contradiction.
Qed.

(** X15. The three counts by kind that the dashboard shows never exceed
    the number of stored movements, and they add up to it exactly when
    every stored movement has one of the kinds ['entrada'], ['saida'],
    ['ajuste']: a movement of another kind is stored but counted
    nowhere. *)
Theorem X15_dashboard_counts_by_kind (r : Pedido) (db : DB)
    (ctx : DashboardViews.Contexto.t) :
  DashboardViews.dashboard r db = inr ctx ->
  (DashboardViews.Contexto.entradas ctx + DashboardViews.Contexto.saidas ctx
   + DashboardViews.Contexto.ajustes ctx <= size (movimentacoes db))%nat /\
  ((DashboardViews.Contexto.entradas ctx + DashboardViews.Contexto.saidas ctx
    + DashboardViews.Contexto.ajustes ctx = size (movimentacoes db))%nat <->
   forall mid l,
     movimentacoes db !! mid = Some l ->
     Linha.tipo l = "entrada" \/ Linha.tipo l = "saida" \/ Linha.tipo l = "ajuste").
Proof.
  unfold DashboardViews.dashboard.
  destruct (negb (autenticado r)); [discriminate|]. intros [= <-]. cbn.
  unfold contar_tipo. rewrite <- length_map_to_list.
  destruct (contagem_por_tipo (map_to_list (movimentacoes db))) as [H1 H2].
  split; [exact H1|]. rewrite H2, Forall_forall. split.
  - intros H mid l Hl. apply (H (mid, l)), elem_of_map_to_list, Hl.
  - intros H [mid l] Hin. apply elem_of_map_to_list in Hin. exact (H mid l Hin).
Qed.

Lemma contar_tipo_insert (db db' : DB) (mid : positive) (l : Linha.t) (t : string) :
  movimentacoes db !! mid = None ->
  movimentacoes db' = <[mid := l]> (movimentacoes db) ->
  contar_tipo t db'
  = (contar_tipo t db + (if decide (Linha.tipo l = t) then 1 else 0))%nat.
Proof.
  intros Hnone Hms. unfold contar_tipo. rewrite Hms.
  rewrite (map_to_list_insert _ _ _ Hnone), filter_cons. cbn [snd].
  destruct (decide (Linha.tipo l = t)); cbn [length]; lia.
Qed.

(** The instances of the product table before and after one row is
    overwritten: the same list but for that row. *)
Lemma instancias_insert (db db' : DB) (k : positive) (row row' : Produto.t) :
  produtos db !! k = Some row ->
  produtos db' = <[k := row']> (produtos db) ->
  exists l,
    instancias db ≡ₚ Produto.com_pk k row :: l /\
    instancias db' ≡ₚ Produto.com_pk k row' :: l.
Proof.
  intros Hrow Hps.
  exists ((fun x : positive * Produto.t => Produto.com_pk x.1 x.2)
            <$> map_to_list (delete k (produtos db))).
  unfold instancias. split.
  - rewrite <- (map_to_list_delete (produtos db) k row Hrow). reflexivity.
  - rewrite Hps, <- (insert_delete_eq (produtos db) k row').
    rewrite (map_to_list_insert (delete k (produtos db)) k row')
      by apply lookup_delete_eq.
    reflexivity.
Qed.

Lemma painel_apos_movimento (k : positive) (row : Produto.t) (tipo : string)
    (q' : Z) (f : Formulario) (c : Conexao) :
  produtos (atual c) !! k = Some row ->
  length (filtro_ativo (instancias (apos_movimento k row tipo q' f c)))
  = length (filtro_ativo (instancias (atual c))) /\
  (Produto.quantidade_atual row <= q' ->
   (length (filtro_estoque_baixo
              (filtro_ativo (instancias (apos_movimento k row tipo q' f c))))
    <= length (filtro_estoque_baixo (filtro_ativo (instancias (atual c)))))%nat) /\
  (q' <= Produto.quantidade_atual row ->
   (length (filtro_estoque_baixo (filtro_ativo (instancias (atual c))))
    <= length (filtro_estoque_baixo
                 (filtro_ativo (instancias (apos_movimento k row tipo q' f c)))))%nat) /\
  (forall t,
     contar_tipo t (apos_movimento k row tipo q' f c)
     = (contar_tipo t (atual c) + (if decide (tipo = t) then 1 else 0))%nat).
Proof.
  intros Hrow.
  destruct (instancias_insert (atual c) (apos_movimento k row tipo q' f c) k row
              (Produto.com_data_atualizacao (relogio c)
                 (Produto.com_quantidade_atual q' (Produto.com_pk k row)))
              Hrow eq_refl) as (l & H1 & H2).
  unfold filtro_estoque_baixo, filtro_ativo.
  rewrite H1, H2, !filter_cons. cbn.
  split; [|split; [|split]].
  - destruct (decide (Produto.ativo row = true)); reflexivity.
  - intros Hq. destruct (decide (Produto.ativo row = true)); [|reflexivity].
    rewrite !filter_cons. cbn.
    destruct (decide (q' <= Produto.quantidade_minima row));
      destruct (decide (Produto.quantidade_atual row <= Produto.quantidade_minima row));
      cbn [length]; lia.
  - intros Hq. destruct (decide (Produto.ativo row = true)); [|reflexivity].
    rewrite !filter_cons. cbn.
    destruct (decide (q' <= Produto.quantidade_minima row));
      destruct (decide (Produto.quantidade_atual row <= Produto.quantidade_minima row));
      cbn [length]; lia.
  - intros t.
    rewrite (contar_tipo_insert (atual c) (apos_movimento k row tipo q' f c)
               (novo_id (seq_movimentacoes (sequencias (atual c)))
                        (movimentacoes (atual c)))
               (Linha.Build k tipo (f_quantidade f) (f_motivo f)
                  (Views.Funcionario_first (atual c)) (Some (relogio c))
                  (f_observacoes f))
               t (novo_id_livre _ (movimentacoes (atual c))) eq_refl).
    reflexivity.
Qed.

(** The store a movement view leaves when the database stores the values
    it writes. *)
Lemma atual_atomico_valido (k : positive) (row : Produto.t) (tipo : string)
    (q' : Z) (f : Formulario) (c : Conexao) :
  produtos (atual c) !! k = Some row ->
  Movimentacao.atualizar_produto
    (Views.nova_movimentacao (Produto.com_pk k row) tipo f
       (Views.Funcionario_first (atual c)))
  = inr (Produto.com_quantidade_atual q' (Produto.com_pk k row)) ->
  armazenavel (Produto.quantidade_minima row) ->
  armazenavel q' ->
  armazenavel (f_quantidade f) ->
  atual (atomic (Movimentacao.salvar_e_atualizar_estoque
                   (Views.nova_movimentacao (Produto.com_pk k row) tipo f
                      (Views.Funcionario_first (atual c)))) c).2
  = apos_movimento k row tipo q' f c.
Proof.
  intros Hrow Hup Hmin Hq' Hq. unfold atomic.
  rewrite (salvar_novo _ (abrir c) _ row k Hup eq_refl Hrow eq_refl);
    [|split; assumption | exact Hq].
  destruct (em_transacao c); reflexivity.
Qed.

(** X16. After a recorded request to [registrar_entrada] (an accepted
    form for a stored product, with a stock after the receipt that the
    database stores) the dashboard follows: the count of receipts has
    grown by one, the counts of withdrawals and adjustments and the
    number of products are as before, and the number of products low on
    stock has not grown. *)
Theorem X16_dashboard_after_receipt (strip : string -> string)
    (int : string -> option Z) (r d : Pedido) (c : Conexao)
    (k : positive) (row : Produto.t) (ctx ctx' : DashboardViews.Contexto.t) :
  autenticado r = true ->
  method r = "POST" ->
  f_erros (Views.validar strip int r) = ∅ ->
  int (f_produto_id (Views.validar strip int r)) = Some (Zpos k) ->
  produtos (atual c) !! k = Some row ->
  Produto_valido row ->
  Produto.quantidade_atual row + f_quantidade (Views.validar strip int r)
    <= MAX_INTEIRO ->
  DashboardViews.dashboard d (atual c) = inr ctx ->
  DashboardViews.dashboard d (atual (Views.registrar_entrada strip int r c).2)
    = inr ctx' ->
  DashboardViews.Contexto.entradas ctx' = S (DashboardViews.Contexto.entradas ctx) /\
  DashboardViews.Contexto.saidas ctx' = DashboardViews.Contexto.saidas ctx /\
  DashboardViews.Contexto.ajustes ctx' = DashboardViews.Contexto.ajustes ctx /\
  DashboardViews.Contexto.total_produtos ctx'
  = DashboardViews.Contexto.total_produtos ctx /\
  (DashboardViews.Contexto.produtos_estoque_baixo ctx'
   <= DashboardViews.Contexto.produtos_estoque_baixo ctx)%nat.
Proof.
  intros Haut Hpost Herros Hint Hrow [Hmin Hat] Hmax Hctx Hctx'.
  pose proof (validar_quantidade_positiva strip int r Herros) as Hpos.
  unfold Views.registrar_entrada in Hctx'.
  rewrite (ate_consulta_aceito strip int _ r c k row Haut Hpost Herros Hint Hrow)
    in Hctx'.
  rewrite entrada_com_produto_conexao in Hctx'.
  rewrite (atual_atomico_valido k row "entrada"
             (Produto.quantidade_atual row
              + f_quantidade (Views.validar strip int r))
             (Views.validar strip int r) c Hrow eq_refl) in Hctx';
    [|unfold armazenavel in *; lia ..].
  unfold DashboardViews.dashboard in *.
  destruct (negb (autenticado d)); [discriminate|].
  injection Hctx as <-. injection Hctx' as <-. cbn.
  destruct (painel_apos_movimento k row "entrada"
              (Produto.quantidade_atual row
               + f_quantidade (Views.validar strip int r))
              (Views.validar strip int r) c Hrow) as (Ht & Hb & _ & Hn).
  rewrite !Hn, Ht.
  rewrite decide_True by reflexivity. rewrite !decide_False by discriminate.
  repeat split; try lia; apply Hb; lia.
Qed.

(** X17. After a recorded request to [registrar_saida] (an accepted form
    for a stored product whose stock covers the submitted quantity) the
    dashboard follows: the count of withdrawals has grown by one, the
    counts of receipts and adjustments and the number of products are as
    before, and the number of products low on stock has not fallen. *)
Theorem X17_dashboard_after_withdrawal (strip : string -> string)
    (int : string -> option Z) (r d : Pedido) (c : Conexao)
    (k : positive) (row : Produto.t) (ctx ctx' : DashboardViews.Contexto.t) :
  autenticado r = true ->
  method r = "POST" ->
  f_erros (Views.validar strip int r) = ∅ ->
  int (f_produto_id (Views.validar strip int r)) = Some (Zpos k) ->
  produtos (atual c) !! k = Some row ->
  Produto_valido row ->
  f_quantidade (Views.validar strip int r) <= Produto.quantidade_atual row ->
  DashboardViews.dashboard d (atual c) = inr ctx ->
  DashboardViews.dashboard d (atual (Views.registrar_saida strip int r c).2)
    = inr ctx' ->
  DashboardViews.Contexto.saidas ctx' = S (DashboardViews.Contexto.saidas ctx) /\
  DashboardViews.Contexto.entradas ctx' = DashboardViews.Contexto.entradas ctx /\
  DashboardViews.Contexto.ajustes ctx' = DashboardViews.Contexto.ajustes ctx /\
  DashboardViews.Contexto.total_produtos ctx'
  = DashboardViews.Contexto.total_produtos ctx /\
  (DashboardViews.Contexto.produtos_estoque_baixo ctx
   <= DashboardViews.Contexto.produtos_estoque_baixo ctx')%nat.
Proof.
  intros Haut Hpost Herros Hint Hrow [Hmin Hat] Hq Hctx Hctx'.
  pose proof (validar_quantidade_positiva strip int r Herros) as Hpos.
  unfold Views.registrar_saida in Hctx'.
  rewrite (ate_consulta_aceito strip int _ r c k row Haut Hpost Herros Hint Hrow)
    in Hctx'.
  assert ((Views.saida_com_produto (Views.validar strip int r)
             (Produto.com_pk k row) c).2
          = (atomic (Movimentacao.salvar_e_atualizar_estoque
                       (Views.nova_movimentacao (Produto.com_pk k row) "saida"
                          (Views.validar strip int r)
                          (Views.Funcionario_first (atual c)))) c).2) as Hc.
  { unfold Views.saida_com_produto.
    destruct (Z.ltb_spec (Produto.quantidade_atual (Produto.com_pk k row))
                         (f_quantidade (Views.validar strip int r))) as [Hlt|_];
      [simpl in Hlt; lia|].
    destruct (atomic _ c) as [[[|e] m'] c']; reflexivity. }
  rewrite Hc in Hctx'.
  assert (Movimentacao.atualizar_produto
            (Views.nova_movimentacao (Produto.com_pk k row) "saida"
               (Views.validar strip int r) (Views.Funcionario_first (atual c)))
          = inr (Produto.com_quantidade_atual
                   (Produto.quantidade_atual row
                    - f_quantidade (Views.validar strip int r))
                   (Produto.com_pk k row))) as Hup.
  { unfold Movimentacao.atualizar_produto. cbn.
    destruct (Z.geb_spec (Produto.quantidade_atual row)
                         (f_quantidade (Views.validar strip int r)));
      [reflexivity | lia]. }
  rewrite (atual_atomico_valido k row "saida" _ _ c Hrow Hup) in Hctx';
    [|unfold armazenavel in *; lia ..].
  unfold DashboardViews.dashboard in *.
  destruct (negb (autenticado d)); [discriminate|].
  injection Hctx as <-. injection Hctx' as <-. cbn.
  destruct (painel_apos_movimento k row "saida"
              (Produto.quantidade_atual row
               - f_quantidade (Views.validar strip int r))
              (Views.validar strip int r) c Hrow) as (Ht & _ & Hb & Hn).
  rewrite !Hn, Ht.
  rewrite decide_True by reflexivity. rewrite !decide_False by discriminate.
  repeat split; try lia; apply Hb; lia.
Qed.

(** ** Product views *)

Lemma Produto_save_estoque (p : Produto.t) (c : Conexao) :
  (forall k row,
     Produto.pk p = Some k -> produtos (atual c) !! k = Some row ->
     Produto.quantidade_atual p = Produto.quantidade_atual row) ->
  forall pid q,
    quantidade_em_estoque pid (atual c) = Some q ->
    quantidade_em_estoque pid (atual (Produto_save p c).2) = Some q.
Proof.
  intros Hsame pid q. unfold quantidade_em_estoque.
  destruct (Produto_save_casos p c)
    as [(_ & e & p' & _ & -> & _)
       |(_ & pid0 & p' & db' & -> & _ & Hqa & _ & _ & Hkeep & Hfresh & Hps & _)];
    [tauto|].
  cbn. rewrite Hps, lookup_insert.
  destruct (decide (pid0 = pid)) as [<-|Hne]; [|tauto].
  destruct (Produto.pk p) as [k|] eqn:Hk.
  - assert (pid0 = k) as -> by (apply Hkeep; reflexivity).
    destruct (produtos (atual c) !! k) as [row|] eqn:Hrow; [|discriminate].
    cbn. rewrite Hqa, (Hsame k row eq_refl Hrow). tauto.
  - rewrite (Hfresh eq_refl). discriminate.
Qed.

(** [save()] of a new product that holds values the database stores,
    written out. *)
Lemma Produto_save_insert (p : Produto.t) (c : Conexao) :
  Produto_valido p ->
  Produto.pk p = None ->
  let k := novo_id (seq_produtos (sequencias (atual c))) (produtos (atual c)) in
  let p' :=
    Produto.com_pk k
      (Produto.com_data_atualizacao (relogio c)
         (Produto.com_data_criacao (relogio c) p)) in
  Produto_save p c = (Concluido, p', gravar (inserir_produto k p' (atual c)) c).
Proof.
  intros [Hm Ha] Hpk.
  unfold Produto_save, Produto_positivos, check_positivos.
  rewrite Hpk, (cabe_armazenavel _ Hm), (cabe_armazenavel _ Ha). simpl.
  destruct (Z.ltb_spec (Produto.quantidade_minima p) 0);
    [unfold armazenavel in Hm; lia|].
  destruct (Z.ltb_spec (Produto.quantidade_atual p) 0);
    [unfold armazenavel in Ha; lia|].
  reflexivity.
Qed.

(** X18. The three product views never change the stock: whatever the
    request, after [cadastrar_produto], [editar_produto] or
    [deletar_produto] every stored product has the current quantity it
    had, and the movement table is as it was.  Stock changes only through
    recorded movements. *)
Theorem X18_product_views_keep_stock (strip : string -> string)
    (int float : string -> option Z) (categorias : gset positive)
    (r : Pedido) (id : Z) (c : Conexao) :
  forall c',
    c' = (ProdutosViews.cadastrar_produto strip int float categorias r c).2 \/
    c' = (ProdutosViews.editar_produto strip int float categorias r id c).2 \/
    c' = (Views.deletar_produto r id c).2 ->
    (forall pid q,
       quantidade_em_estoque pid (atual c) = Some q ->
       quantidade_em_estoque pid (atual c') = Some q) /\
    movimentacoes (atual c') = movimentacoes (atual c).
Proof.
  assert (forall p,
            (forall k row,
               Produto.pk p = Some k -> produtos (atual c) !! k = Some row ->
               Produto.quantidade_atual p = Produto.quantidade_atual row) ->
            (forall pid q,
               quantidade_em_estoque pid (atual c) = Some q ->
               quantidade_em_estoque pid (atual (Produto_save p c).2) = Some q) /\
            movimentacoes (atual (Produto_save p c).2) = movimentacoes (atual c))
    as Hsave.
  { intros p Hp. split; [apply Produto_save_estoque, Hp | apply Produto_save_linhas]. }
  assert ((forall pid q : _,
             quantidade_em_estoque pid (atual c) = Some q ->
             quantidade_em_estoque pid (atual c) = Some q) /\
          movimentacoes (atual c) = movimentacoes (atual c)) as Hnada
    by (split; [tauto | reflexivity]).
  intros c' [-> | [-> | ->]].
  - unfold ProdutosViews.cadastrar_produto.
    destruct (negb (autenticado r)); [exact Hnada|].
    destruct (String.eqb (method r) "POST"); [|exact Hnada].
    destruct (int (strip (Views.POST_get r "quantidade_minima" "0")));
      destruct (float (strip (Views.POST_get r "preco_unitario" "0")));
      (destruct (bool_decide _); [|exact Hnada]);
      (destruct (ProdutosViews.Instituicao_get _ _ _); [exact Hnada|]);
      (destruct (ProdutosViews.categoria_escolhida _ _ _ _); [exact Hnada|]);
      rewrite resposta_de_Produto_save; apply Hsave; intros k row; discriminate.
  - unfold ProdutosViews.editar_produto.
    destruct (negb (autenticado r)); [exact Hnada|].
    destruct id as [|k|k]; try exact Hnada.
    destruct (produtos (atual c) !! k) as [linha|] eqn:Hlinha; [|exact Hnada].
    destruct (String.eqb (method r) "POST"); [|exact Hnada].
    destruct (int (strip (Views.POST_get r "quantidade_minima" "0")));
      destruct (float (strip (Views.POST_get r "preco_unitario" "0")));
      try exact Hnada.
    destruct (bool_decide _); [|exact Hnada].
    destruct (ProdutosViews.categoria_escolhida _ _ _ _); [exact Hnada|].
    rewrite resposta_de_Produto_save. apply Hsave. intros k0 row [= <-] Hrow.
    rewrite Hlinha in Hrow. injection Hrow as <-. reflexivity.
  - unfold Views.deletar_produto.
    destruct (negb (autenticado r)); [exact Hnada|].
    destruct id as [|k|k]; try exact Hnada.
    destruct (produtos (atual c) !! k) as [linha|] eqn:Hlinha; [|exact Hnada].
    destruct (String.eqb (method r) "POST"); [|exact Hnada].
    rewrite resposta_de_Produto_save. apply Hsave. intros k0 row [= <-] Hrow.
    rewrite Hlinha in Hrow. injection Hrow as <-. reflexivity.
Qed.

(** X19. [cadastrar_produto] never overwrites: every product stored after
    the request either was stored before, unchanged, or is new under a key
    that was free, and a new product starts active with a current quantity
    of zero, created at the time of the request. *)
Theorem X19_new_product_starts_empty (strip : string -> string)
    (int float : string -> option Z) (categorias : gset positive)
    (r : Pedido) (c : Conexao) (pid : positive) (p' : Produto.t) :
  produtos (atual (ProdutosViews.cadastrar_produto strip int float categorias r c).2)
    !! pid = Some p' ->
  produtos (atual c) !! pid = Some p' \/
  (produtos (atual c) !! pid = None /\
   Produto.quantidade_atual p' = 0 /\
   Produto.ativo p' = true /\
   Produto.pk p' = Some pid /\
   Produto.data_criacao p' = Some (relogio c)).
Proof.
  unfold ProdutosViews.cadastrar_produto.
  destruct (negb (autenticado r)); [tauto|].
  destruct (String.eqb (method r) "POST"); [|tauto].
  destruct (int (strip (Views.POST_get r "quantidade_minima" "0")));
    destruct (float (strip (Views.POST_get r "preco_unitario" "0")));
    (destruct (bool_decide _); [|tauto]);
    (destruct (ProdutosViews.Instituicao_get _ _ _); [tauto|]);
    (destruct (ProdutosViews.categoria_escolhida _ _ _ _); [tauto|]);
    rewrite resposta_de_Produto_save;
    (match goal with
     | |- context [Produto_save ?p c] =>
         destruct (Produto_save_casos p c)
           as [(_ & e & p0 & _ & -> & _) | (Hval & _)];
           [tauto | rewrite (Produto_save_insert p c Hval eq_refl)]
     end);
    cbn; rewrite lookup_insert;
    (destruct (decide (novo_id (seq_produtos (sequencias (atual c)))
                               (produtos (atual c)) = pid)) as [<-|Hne]; [|tauto]);
    intros [= <-]; right; (split; [apply novo_id_livre|]); repeat split.
Qed.

(** X20. An authenticated POST to [cadastrar_produto] whose fields all
    pass the validation but whose institution key names no stored
    institution raises [Instituicao.DoesNotExist] to the caller (the only
    handler of the view is for [Produto.DoesNotExist]) and writes
    nothing. *)
Theorem X20_new_product_unknown_institution (strip : string -> string)
    (int float : string -> option Z) (categorias : gset positive)
    (r : Pedido) (c : Conexao) (k : positive) (minima preco : Z) :
  autenticado r = true ->
  method r = "POST" ->
  strip (Views.POST_get r "codigo" EmptyString) <> EmptyString ->
  strip (Views.POST_get r "nome" EmptyString) <> EmptyString ->
  strip (Views.POST_get r "instituicao" EmptyString) <> EmptyString ->
  int (strip (Views.POST_get r "quantidade_minima" "0")) = Some minima ->
  float (strip (Views.POST_get r "preco_unitario" "0")) = Some preco ->
  int (strip (Views.POST_get r "instituicao" EmptyString)) = Some (Zpos k) ->
  instituicoes (atual c) !! k = None ->
  ProdutosViews.cadastrar_produto strip int float categorias r c
  = (inl (DoesNotExist "Instituicao"), c).
Proof.
  intros Haut Hpost Hcod Hnome Hinst Hmin Hpreco Hk Hnone.
  unfold ProdutosViews.cadastrar_produto.
  rewrite Haut, Hpost. cbn [negb String.eqb Ascii.eqb Bool.eqb andb].
  apply String.eqb_neq in Hcod, Hnome, Hinst.
  rewrite Hcod, Hnome, Hinst, Hmin, Hpreco.
  rewrite bool_decide_eq_true_2 by reflexivity.
  unfold ProdutosViews.Instituicao_get. rewrite Hk, Hnone. reflexivity.
Qed.

(** ** The method called again on the same instance *)

(** [save()] of a movement that is stored under its key, with a
    quantity the database stores, written out. *)
Lemma Movimentacao_save_update (m : Movimentacao.t) (pid k : positive)
    (l : Linha.t) (c : Conexao) :
  Produto.pk (Movimentacao.produto m) = Some pid ->
  Movimentacao.pk m = Some k ->
  movimentacoes (atual c) !! k = Some l ->
  armazenavel (Movimentacao.quantidade m) ->
  Movimentacao.save m c
  = (Concluido, m,
     gravar (com_movimentacoes
               (<[k := Movimentacao.linha pid m]> (movimentacoes (atual c)))
               (atual c)) c).
Proof.
  intros Hpk Hm Hl Hq. unfold Movimentacao.save, check_positivos.
  rewrite Hpk, Hm, (cabe_armazenavel _ Hq), Hl. simpl.
  destruct (Z.ltb_spec (Movimentacao.quantidade m) 0);
    [unfold armazenavel in Hq; lia|].
  reflexivity.
Qed.

(** X21. [salvar_e_atualizar_estoque] is not idempotent.  Called a second
    time on the instance that a first call has just recorded, a receipt
    adds its quantity to the stock once more, while the movement table
    stays as the first call left it: the second [save()] overwrites the
    row of the instance with the same contents.  The stock is then two
    quantities above where it started, against a single recorded
    movement.  (The quantities are values the database stores, the stock
    after the second call included.) *)
Theorem X21_second_call_counts_again (m : Movimentacao.t) (c : Conexao)
    (k : positive) (row : Produto.t) :
  Movimentacao.tipo m = "entrada" ->
  Movimentacao.pk m = None ->
  Produto.pk (Movimentacao.produto m) = Some k ->
  produtos (atual c) !! k = Some row ->
  Produto_valido (Movimentacao.produto m) ->
  armazenavel (Movimentacao.quantidade m) ->
  Produto.quantidade_atual (Movimentacao.produto m) + 2 * Movimentacao.quantidade m
    <= MAX_INTEIRO ->
  exists m1 c1 m2 c2,
    Movimentacao.salvar_e_atualizar_estoque m c = (Concluido, m1, c1) /\
    Movimentacao.salvar_e_atualizar_estoque m1 c1 = (Concluido, m2, c2) /\
    quantidade_em_estoque k (atual c1)
    = Some (Produto.quantidade_atual (Movimentacao.produto m)
            + Movimentacao.quantidade m) /\
    quantidade_em_estoque k (atual c2)
    = Some (Produto.quantidade_atual (Movimentacao.produto m)
            + 2 * Movimentacao.quantidade m) /\
    movimentacoes (atual c2) = movimentacoes (atual c1) /\
    Movimentacao.pk m2 = Movimentacao.pk m1.
Proof.
  intros Ht Hm Hk Hrow [Hmin Hat] Hq Hmax.
  assert (Movimentacao.atualizar_produto m
          = inr (Produto.com_quantidade_atual
                   (Produto.quantidade_atual (Movimentacao.produto m)
                    + Movimentacao.quantidade m) (Movimentacao.produto m))) as Hup.
  { unfold Movimentacao.atualizar_produto. rewrite Ht. reflexivity. }
  eexists _, _, _, _. split.
  { apply (salvar_novo m c _ row k Hup Hk Hrow Hm); [|exact Hq].
    split; [exact Hmin|]. unfold armazenavel in *. simpl. lia. }
  split.
  { unfold Movimentacao.salvar_e_atualizar_estoque, Movimentacao.atualizar_produto.
    cbn [Movimentacao.tipo Movimentacao.produto Movimentacao.quantidade].
    rewrite Ht. cbn [String.eqb Ascii.eqb Bool.eqb andb].
    erewrite Produto_save_update;
      [| split; [exact Hmin | unfold armazenavel in *; simpl; lia]
       | exact Hk
       | cbn; apply lookup_insert_eq ].
    erewrite Movimentacao_save_update;
      [ reflexivity | exact Hk | reflexivity | cbn; apply lookup_insert_eq | exact Hq ]. }
  unfold quantidade_em_estoque. cbn. rewrite !lookup_insert_eq. cbn.
  rewrite insert_insert_eq.
  repeat split.
  - f_equal. lia.
  - rewrite Ht. reflexivity.
Qed.

Lemma X21_second_call_counts_again_witness :
  exists m1 c1 m2 c2,
    Movimentacao.salvar_e_atualizar_estoque
      (movimentacao_exemplo "entrada" 100) conexao_exemplo = (Concluido, m1, c1) /\
    Movimentacao.salvar_e_atualizar_estoque m1 c1 = (Concluido, m2, c2) /\
    quantidade_em_estoque 1 (atual c1) = Some (45 + 100) /\
    quantidade_em_estoque 1 (atual c2) = Some (45 + 2 * 100) /\
    movimentacoes (atual c2) = movimentacoes (atual c1) /\
    Movimentacao.pk m2 = Movimentacao.pk m1.
Proof.
  apply (X21_second_call_counts_again (movimentacao_exemplo "entrada" 100)
           conexao_exemplo 1%positive produto_exemplo); try reflexivity.
  - unfold Produto_valido, armazenavel, MAX_INTEIRO. simpl. lia.
  - unfold armazenavel, MAX_INTEIRO. simpl. lia.
  - unfold MAX_INTEIRO. simpl. lia.
Defined.

(** ** The further properties on concrete requests *)

Lemma X9_employee_deletion_keeps_history_witness :
  movimentacoes
    (atual (Views.excluir_funcionarios (BuildPedido false "POST" ∅) 1
              conexao_com_funcionario).2) !! 1%positive
  = Some (Linha.com_funcionario_id None linha_exemplo).
Proof.
  destruct (X9_employee_deletion_keeps_history (BuildPedido false "POST" ∅)
              1%positive conexao_com_funcionario)
    as (_ & _ & _ & _ & H & _).
  - eexists. reflexivity.
  - reflexivity.
  - rewrite (H 1%positive linha_exemplo eq_refl). reflexivity.
Defined.

Lemma X11_institution_deletion_cascades_witness :
  movimentacoes
    (atual (Views.excluir_instituicao (pedido_post []) 1
              conexao_com_funcionario).2) !! 1%positive = None /\
  produtos
    (atual (Views.excluir_instituicao (pedido_post []) 1
              conexao_com_funcionario).2) !! 1%positive = None.
Proof.
  destruct (X11_institution_deletion_cascades (pedido_post []) 1%positive
              conexao_com_funcionario)
    as (_ & _ & _ & Hp & Hm & _).
  - eexists. reflexivity.
  - reflexivity.
  - split.
    + rewrite (Hm 1%positive linha_exemplo eq_refl). reflexivity.
    + destruct (produtos (atual (Views.excluir_instituicao (pedido_post []) 1
                                   conexao_com_funcionario).2) !! 1%positive)
        as [p|] eqn:Hrow; [|reflexivity].
      apply Hp in Hrow. destruct Hrow as [Hrow Hne].
      injection Hrow as <-. contradiction Hne. reflexivity.
Defined.

Lemma integro_com_funcionario : integro db_com_funcionario.
Proof.
  intros mid l H. unfold db_com_funcionario in H. cbn in H.
  apply lookup_singleton_Some in H. destruct H as [_ <-]. cbn. split.
  - eexists. reflexivity.
  - intros f [= <-]. eexists. reflexivity.
Defined.

Lemma X12_requests_keep_references_witness :
  integro
    (atual (Views.executar strip_ascii int_ascii excluir_ana
              conexao_com_funcionario).2).
Proof.
  apply (X12_requests_keep_references strip_ascii int_ascii excluir_ana
           conexao_com_funcionario).
  exact integro_com_funcionario.
Defined.

Lemma X13_product_deletion_is_soft_witness :
  quantidade_em_estoque 1
    (atual (Views.deletar_produto (pedido_post []) 1 conexao_exemplo).2) = Some 45 /\
  (Produto.ativo <$>
     produtos (atual (Views.deletar_produto (pedido_post []) 1 conexao_exemplo).2)
       !! 1%positive) = Some false.
Proof.
  destruct (X13_product_deletion_is_soft (pedido_post []) 1%positive
              conexao_exemplo produto_exemplo)
    as (_ & Hp & Hq & _); try reflexivity.
  - unfold Produto_valido, armazenavel, MAX_INTEIRO. simpl. lia.
  - split; [exact Hq|]. rewrite Hp, lookup_insert_eq. reflexivity.
Defined.

Lemma X14_stock_alert_agrees_with_predicate_witness :
  exists l ctx,
    DashboardViews.produtos_estoque_baixo (pedido_post []) db_painel
      = inr (l, length l) /\
    (forall p,
       p ∈ l <->
       (exists k row, produtos db_painel !! k = Some row /\ p = Produto.com_pk k row) /\
       Produto.ativo p = true /\
       Produto.esta_com_estoque_baixo p = true) /\
    StronglySorted menor_estoque l /\
    DashboardViews.dashboard (pedido_post []) db_painel = inr ctx /\
    DashboardViews.Contexto.produtos_estoque_baixo ctx = length l /\
    (DashboardViews.Contexto.produtos_estoque_baixo ctx <= DashboardViews.Contexto.total_produtos ctx)%nat.
Proof.
  apply (X14_stock_alert_agrees_with_predicate (pedido_post []) db_painel).
  reflexivity.
Defined.

Lemma X15_dashboard_counts_by_kind_witness :
  (DashboardViews.Contexto.entradas ctx_painel + DashboardViews.Contexto.saidas ctx_painel
   + DashboardViews.Contexto.ajustes ctx_painel <= size (movimentacoes db_painel))%nat.
Proof.
  apply (X15_dashboard_counts_by_kind (pedido_post []) db_painel ctx_painel).
  vm_compute. reflexivity.
Defined.

Lemma X16_dashboard_after_receipt_witness :
  DashboardViews.Contexto.entradas ctx_apos_entrada
  = S (DashboardViews.Contexto.entradas ctx_painel) /\
  DashboardViews.Contexto.saidas ctx_apos_entrada
  = DashboardViews.Contexto.saidas ctx_painel /\
  DashboardViews.Contexto.ajustes ctx_apos_entrada
  = DashboardViews.Contexto.ajustes ctx_painel /\
  DashboardViews.Contexto.total_produtos ctx_apos_entrada
  = DashboardViews.Contexto.total_produtos ctx_painel /\
  (DashboardViews.Contexto.produtos_estoque_baixo ctx_apos_entrada
   <= DashboardViews.Contexto.produtos_estoque_baixo ctx_painel)%nat.
Proof.
  apply (X16_dashboard_after_receipt strip_ascii int_ascii
           pedido_entrada_de_cem (pedido_post []) conexao_painel
           1%positive produto_exemplo ctx_painel ctx_apos_entrada);
    try reflexivity; try (vm_compute; reflexivity).
  - unfold Produto_valido, armazenavel, MAX_INTEIRO. simpl. lia.
  - vm_compute. discriminate.
Defined.

Lemma X17_dashboard_after_withdrawal_witness :
  DashboardViews.Contexto.saidas ctx_apos_saida
  = S (DashboardViews.Contexto.saidas ctx_painel) /\
  DashboardViews.Contexto.entradas ctx_apos_saida
  = DashboardViews.Contexto.entradas ctx_painel /\
  DashboardViews.Contexto.ajustes ctx_apos_saida
  = DashboardViews.Contexto.ajustes ctx_painel /\
  DashboardViews.Contexto.total_produtos ctx_apos_saida
  = DashboardViews.Contexto.total_produtos ctx_painel /\
  (DashboardViews.Contexto.produtos_estoque_baixo ctx_painel
   <= DashboardViews.Contexto.produtos_estoque_baixo ctx_apos_saida)%nat.
Proof.
  apply (X17_dashboard_after_withdrawal strip_ascii int_ascii
           pedido_saida_de_45 (pedido_post []) conexao_painel
           1%positive produto_exemplo ctx_painel ctx_apos_saida);
    try reflexivity; try (vm_compute; reflexivity).
  unfold Produto_valido, armazenavel, MAX_INTEIRO. simpl. lia.
Defined.

Lemma X18_product_views_keep_stock_witness :
  quantidade_em_estoque 1
    (atual (ProdutosViews.editar_produto strip_ascii int_ascii float_ascii ∅
              (pedido_post [("nome", "Seringa 5ml"); ("quantidade_minima", "20");
                            ("preco_unitario", "2")]) 1 conexao_exemplo).2)
  = Some 45.
Proof.
  apply (X18_product_views_keep_stock strip_ascii int_ascii float_ascii ∅
           (pedido_post [("nome", "Seringa 5ml"); ("quantidade_minima", "20");
                         ("preco_unitario", "2")]) 1 conexao_exemplo).
  - right. left. reflexivity.
  - reflexivity.
Defined.

Lemma X19_new_product_starts_empty_witness :
  produtos (atual conexao_com_funcionario) !! 2%positive
  = Some produto_novo_esperado \/
  (produtos (atual conexao_com_funcionario) !! 2%positive = None /\
   Produto.quantidade_atual produto_novo_esperado = 0 /\
   Produto.ativo produto_novo_esperado = true /\
   Produto.pk produto_novo_esperado = Some 2%positive /\
   Produto.data_criacao produto_novo_esperado
   = Some (relogio conexao_com_funcionario)).
Proof.
  apply (X19_new_product_starts_empty strip_ascii int_ascii float_ascii ∅
           (pedido_novo_produto "1") conexao_com_funcionario 2%positive
           produto_novo_esperado).
  vm_compute. reflexivity.
Defined.

Lemma X20_new_product_unknown_institution_witness :
  ProdutosViews.cadastrar_produto strip_ascii int_ascii float_ascii ∅
    (pedido_novo_produto "9") conexao_com_funcionario
  = (inl (DoesNotExist "Instituicao"), conexao_com_funcionario).
Proof.
  apply (X20_new_product_unknown_institution strip_ascii int_ascii float_ascii ∅
           (pedido_novo_produto "9") conexao_com_funcionario 9%positive 5 300);
    try reflexivity; vm_compute; discriminate.
Defined.

(** ** The checks of the columns hold in every store the system reaches *)

Lemma consistente_tabelas (db db' : DB) :
  (forall k p, produtos db' !! k = Some p -> produtos db !! k = Some p) ->
  (forall mid l, movimentacoes db' !! mid = Some l ->
                 exists l0, movimentacoes db !! mid = Some l0 /\
                            Linha.quantidade l = Linha.quantidade l0) ->
  consistente db -> consistente db'.
Proof.
  intros Hp Hm [H1 H2]. split.
  - intros k p Hk. exact (H1 k p (Hp k p Hk)).
  - intros mid l Hl. destruct (Hm mid l Hl) as (l0 & Hl0 & ->).
    exact (H2 mid l0 Hl0).
Qed.

Lemma consistente_Produto_save (p : Produto.t) (c : Conexao) :
  consistente (atual c) -> consistente (atual (Produto_save p c).2).
Proof.
  intros [H1 H2].
  destruct (Produto_save_casos p c)
    as [(_ & e & p' & _ & -> & _)
       |([Hmin Hat] & pid & p' & db' & -> & _ & Hqa & Hqm & _ & _ & _ & Hps & Hms & _)];
    [split; assumption|].
  cbn. split.
  - intros k x. rewrite Hps, lookup_insert.
    destruct (decide (pid = k)); [|apply H1].
    intros [= <-]. unfold Produto_valido. rewrite Hqa, Hqm. split; assumption.
  - rewrite Hms. exact H2.
Qed.

Lemma consistente_Movimentacao_save (m : Movimentacao.t) (c : Conexao) :
  consistente (atual c) -> consistente (atual (Movimentacao.save m c).2).
Proof.
  intros [H1 H2].
  destruct (Produto.pk (Movimentacao.produto m)) as [pid|] eqn:Hpk.
  2:{ unfold Movimentacao.save. rewrite Hpk. split; assumption. }
  destruct (Movimentacao_save_casos m c pid Hpk)
    as [(_ & e & m' & _ & -> & _)
       |(Hq & mid & m' & db' & -> & _ & _ & _ & Hqm & _ & _ & _ & _ & _ & _
         & Hms & Hps & _)];
    [split; assumption|].
  cbn. split.
  - rewrite Hps. exact H1.
  - intros k l. rewrite Hms, lookup_insert.
    destruct (decide (mid = k)); [|apply H2].
    intros [= <-]. cbn. rewrite Hqm. exact Hq.
Qed.

Lemma consistente_salvar (m : Movimentacao.t) (c : Conexao) :
  consistente (atual c) ->
  consistente (atual (Movimentacao.salvar_e_atualizar_estoque m c).2).
Proof.
  intros Hc. unfold Movimentacao.salvar_e_atualizar_estoque.
  destruct (Movimentacao.atualizar_produto m) as [e|p]; [exact Hc|].
  pose proof (consistente_Produto_save p c Hc) as H1.
  destruct (Produto_save p c) as [[[|e] p'] c1]; [|exact H1].
  apply consistente_Movimentacao_save. exact H1.
Qed.

Lemma consistente_atomic {X : Type} (corpo : Conexao -> desfecho * X * Conexao)
    (c : Conexao) :
  (forall c0, consistente (atual c0) -> consistente (atual (corpo c0).2)) ->
  consistente (atual c) -> consistente (atual (atomic corpo c).2).
Proof.
  intros Hcorpo Hc.
  destruct (atomic_atual corpo c) as [-> | (x & c1 & Hrun & _ & ->)]; [exact Hc|].
  specialize (Hcorpo (abrir c) Hc). rewrite Hrun in Hcorpo. exact Hcorpo.
Qed.

Lemma consistente_anular (removido : positive -> bool)
    (ms : gmap positive Linha.t) (mid : positive) (l : Linha.t) :
  (anular_funcionario removido <$> ms) !! mid = Some l ->
  exists l0, ms !! mid = Some l0 /\ Linha.quantidade l = Linha.quantidade l0.
Proof.
  rewrite lookup_fmap. destruct (ms !! mid) as [l0|]; [|discriminate].
  cbn. intros [= <-]. exists l0. split; [reflexivity|].
  destruct (anular_funcionario_casos removido l0) as [-> | ->]; reflexivity.
Qed.

Lemma consistente_Funcionario_delete (k : positive) (c : Conexao) :
  consistente (atual c) -> consistente (atual (Funcionario_delete k c)).
Proof.
  apply consistente_tabelas; cbn; [auto|].
  intros mid l. apply consistente_anular.
Qed.

Lemma consistente_Instituicao_delete (k : positive) (c : Conexao) :
  consistente (atual c) -> consistente (atual (Instituicao_delete k c)).
Proof.
  apply consistente_tabelas; cbn.
  - intros j p Hj. apply map_lookup_filter_Some in Hj. tauto.
  - intros mid l Hl. apply consistente_anular in Hl.
    destruct Hl as (l0 & Hl0 & Hq). apply map_lookup_filter_Some in Hl0.
    exists l0. tauto.
Qed.

(** X22. The checks of the columns hold in every store the system
    reaches: if every stored product and every stored movement holds
    quantities its [PositiveIntegerField] columns store, so it is after
    any writing request, through a view of the application or through
    the admin site. *)
Theorem X22_stored_quantities_stay_in_range (strip : string -> string)
    (int : string -> option Z) (e : Escrita) (c : Conexao) :
  consistente (atual c) ->
  consistente (atual (escrever strip int e c)).
Proof.
  intros Hc.
  destruct e as [op | staff op]; cbv beta iota zeta delta [escrever].
  - destruct op as [r|r|r pk|r pk|r id|i|f|p];
      cbv beta iota zeta delta [Views.executar].
    + unfold Views.registrar_entrada.
      destruct (Views.ate_consulta strip int _ r c) as [resposta|[f p]];
        [exact Hc|].
      rewrite entrada_com_produto_conexao.
      apply consistente_atomic; [|exact Hc].
      intros c0. apply consistente_salvar.
    + unfold Views.registrar_saida.
      destruct (Views.ate_consulta strip int _ r c) as [resposta|[f p]];
        [exact Hc|].
      destruct (saida_com_produto_conexao f p c) as [-> | [_ ->]]; [exact Hc|].
      apply consistente_atomic; [|exact Hc].
      intros c0. apply consistente_salvar.
    + unfold Views.excluir_funcionarios.
      destruct pk as [|k|k]; try exact Hc.
      destruct (funcionarios (atual c) !! k); [|exact Hc].
      destruct (String.eqb (method r) "POST"); [|exact Hc].
      apply consistente_Funcionario_delete, Hc.
    + unfold Views.excluir_instituicao.
      destruct pk as [|k|k]; try exact Hc.
      destruct (instituicoes (atual c) !! k); [|exact Hc].
      destruct (String.eqb (method r) "POST"); [|exact Hc].
      apply consistente_Instituicao_delete, Hc.
    + unfold Views.deletar_produto.
      destruct (autenticado r); [|exact Hc]. cbn [negb].
      destruct id as [|k|k]; try exact Hc.
      destruct (produtos (atual c) !! k); [|exact Hc].
      destruct (String.eqb (method r) "POST"); [|exact Hc].
      rewrite resposta_de_Produto_save. apply consistente_Produto_save, Hc.
    + cbn [snd]. revert Hc. unfold Instituicao_save.
      destruct (Instituicao.pk i) as [k|]; [destruct (instituicoes (atual c) !! k)|];
        apply consistente_tabelas; cbn; eauto.
    + cbn [snd]. revert Hc. unfold Funcionario_save.
      destruct (Funcionario.pk f) as [k|]; [destruct (funcionarios (atual c) !! k)|];
        apply consistente_tabelas; cbn; eauto.
    + rewrite resposta_de_Produto_save. apply consistente_Produto_save, Hc.
  - unfold Admin.executar. destruct staff; [|exact Hc]. cbn [negb].
    assert (forall k data f,
              consistente (atual (Admin.salvar_formulario k data f c))) as Hform.
    { intros k data f. unfold Admin.salvar_formulario.
      destruct (Admin.valido (atual c) f); [|exact Hc].
      destruct (produtos (atual c) !! Admin.produto f); [|exact Hc].
      apply consistente_atomic; [|exact Hc].
      intros c0. apply consistente_Movimentacao_save. }
    destruct op as [f|k f|k|k|k|k].
    + apply Hform.
    + destruct (movimentacoes (atual c) !! k); [apply Hform | exact Hc].
    + destruct (movimentacoes (atual c) !! k); [|exact Hc].
      revert Hc. apply consistente_tabelas; cbn; [auto|].
      intros mid l Hl. apply lookup_delete_Some in Hl. exists l. tauto.
    + destruct (produtos (atual c) !! k); [|exact Hc].
      revert Hc. apply consistente_tabelas; cbn.
      * intros j p Hj. apply lookup_delete_Some in Hj. tauto.
      * intros mid l Hl. apply map_lookup_filter_Some in Hl. exists l. tauto.
    + destruct (funcionarios (atual c) !! k); [|exact Hc].
      apply consistente_Funcionario_delete, Hc.
    + destruct (instituicoes (atual c) !! k); [|exact Hc].
      apply consistente_Instituicao_delete, Hc.
Qed.

Lemma consistente_com_funcionario : consistente db_com_funcionario.
Proof.
  unfold db_com_funcionario. split; cbn.
  - intros k p H. apply lookup_singleton_Some in H. destruct H as [_ <-].
    unfold Produto_valido, armazenavel, MAX_INTEIRO. cbn. lia.
  - intros mid l H. apply lookup_singleton_Some in H. destruct H as [_ <-].
    unfold armazenavel, MAX_INTEIRO. cbn. lia.
Defined.

Lemma X22_stored_quantities_stay_in_range_witness :
  consistente
    (atual (escrever strip_ascii int_ascii
              (PeloAdmin true (Admin.AlterarMovimentacao 1 campos_alterados))
              conexao_com_funcionario)).
Proof.
  apply (X22_stored_quantities_stay_in_range strip_ascii int_ascii
           (PeloAdmin true (Admin.AlterarMovimentacao 1 campos_alterados))
           conexao_com_funcionario).
  exact consistente_com_funcionario.
Defined.
